(** * DevOps agent: the control loop, embedded and verified

    A shallow embedding of the closed control loop of the agent
    (decision engine, action executor, learning module, monitoring
    system and the status report of the agent) together with the
    properties its specification states about it.

    Conventions of the embedding.
    - A Python [float] is a rational [Q]; the code only compares floats
      with literals and subtracts them, which is exact on rationals.
    - A [datetime] is an integer [Z], the number of microseconds since
      the epoch; a [timedelta] is a difference of two of them.
    - A [Dict[str, Any]] whose keys are data (parameters, configuration,
      details) is an association list in insertion order over the
      dynamically typed values [pyval].
    - Reading the clock, drawing random numbers and sleeping are effects
      on a [World]; code that performs them lives in the state monad [M].
    - Logging is not modelled. *)

From Stdlib Require Import ZArith QArith Qround String Ascii List Lia Lqa Sorted.
From stdpp Require Import base option list strings gmap pretty sorting.

Local Open Scope string_scope.
Local Open Scope list_scope.
Local Open Scope Z_scope.
Local Set Warnings "-register-all".

(* ================================================================== *)
(** * Part I: the program *)
(* ================================================================== *)

(** ** Python values *)

Inductive pyval :=
| PNone
| PBool (b : bool)
| PInt (z : Z)
| PStr (s : string)
| PList (l : list pyval)
| PDict (d : list (string * pyval)).

Abbreviation dict := (list (string * pyval)).

Inductive exn :=
| TypeError (msg : string)
| AttributeError (msg : string).

(** [str(e)] of an exception *)
Definition exn_str (e : exn) : string :=
  match e with TypeError m => m | AttributeError m => m end.

(** [d.get(key)], [None] when the key is absent *)
Fixpoint dict_lookup (d : dict) (key : string) : option pyval :=
  match d with
  | [] => None
  | (k, v) :: d' => if String.eqb k key then Some v else dict_lookup d' key
  end.

(** [d.get(key, dflt)] *)
Definition dict_get (d : dict) (key : string) (dflt : pyval) : pyval :=
  match dict_lookup d key with Some v => v | None => dflt end.

(** truth value of an object in a condition *)
Definition truthy (v : pyval) : bool :=
  match v with
  | PNone => false
  | PBool b => b
  | PInt z => negb (z =? 0)
  | PStr s => negb (String.eqb s EmptyString)
  | PList l => match l with [] => false | _ => true end
  | PDict d => match d with [] => false | _ => true end
  end.

(** [v == "literal"]: a value that is not a string equals no string *)
Definition eq_str (v : pyval) (s : string) : bool :=
  match v with PStr s' => String.eqb s' s | _ => false end.

Fixpoint join (sep : string) (l : list string) : string :=
  match l with
  | [] => EmptyString
  | [s] => s
  | s :: l' => s +:+ sep +:+ join sep l'
  end.

Fixpoint py_repr (v : pyval) : string :=
  match v with
  | PNone => "None"
  | PBool true => "True"
  | PBool false => "False"
  | PInt z => pretty z
  | PStr s => "'" +:+ s +:+ "'"
  | PList l => "[" +:+ join ", " (List.map py_repr l) +:+ "]"
  | PDict d =>
      "{" +:+ join ", "
        (List.map (fun kv => "'" +:+ fst kv +:+ "': " +:+ py_repr (snd kv)) d)
      +:+ "}"
  end.

(** [str(v)], what an f-string prints for [{v}] *)
Definition py_str (v : pyval) : string :=
  match v with PStr s => s | _ => py_repr v end.

Definition type_name (v : pyval) : string :=
  match v with
  | PNone => "NoneType" | PBool _ => "bool" | PInt _ => "int"
  | PStr _ => "str" | PList _ => "list" | PDict _ => "dict"
  end.

(** ** Strings (ASCII) *)

Definition is_upper (c : ascii) : bool :=
  let n := nat_of_ascii c in ((65 <=? n) && (n <=? 90))%nat.
Definition is_lower (c : ascii) : bool :=
  let n := nat_of_ascii c in ((97 <=? n) && (n <=? 122))%nat.
Definition ascii_lower (c : ascii) : ascii :=
  if is_upper c then ascii_of_nat (nat_of_ascii c + 32) else c.
Definition ascii_upper (c : ascii) : ascii :=
  if is_lower c then ascii_of_nat (nat_of_ascii c - 32) else c.

(** [s.lower()] *)
Fixpoint lower (s : string) : string :=
  match s with
  | EmptyString => EmptyString
  | String c s' => String (ascii_lower c) (lower s')
  end.

(** [s.title()]: a letter that follows a non-letter is upper-cased, the
    other letters are lower-cased *)
Fixpoint title_from (word_start : bool) (s : string) : string :=
  match s with
  | EmptyString => EmptyString
  | String c s' =>
      if is_upper c || is_lower c
      then String (if word_start then ascii_upper c else ascii_lower c)
                  (title_from false s')
      else String c (title_from true s')
  end.
Definition title (s : string) : string := title_from true s.

(** [needle in hay] *)
Fixpoint contains (needle hay : string) : bool :=
  String.prefix needle hay ||
  match hay with
  | EmptyString => false
  | String _ hay' => contains needle hay'
  end.

(** [s[:-1]] *)
Fixpoint drop_last_char (s : string) : string :=
  match s with
  | EmptyString => EmptyString
  | String c EmptyString => EmptyString
  | String c s' => String c (drop_last_char s')
  end.

(** ** Floats *)

Definition Qgtb (a b : Q) : bool := negb (Qle_bool a b).   (* a > b *)
Definition Qltb (a b : Q) : bool := negb (Qle_bool b a).   (* a < b *)

Fixpoint frac_digits (fuel : nat) (r d : Z) : string :=
  match fuel with
  | O => EmptyString
  | S fuel' =>
      if r =? 0 then EmptyString
      else pretty ((10 * r) / d) +:+ frac_digits fuel' ((10 * r) mod d) d
  end.

(** [str(x)] of a float: the decimal expansion, at least one and at most
    17 digits after the point. It is Python's text for the short
    decimals the monitoring system produces with [round(x, 2)]. *)
Definition float_str (q : Q) : string :=
  let n := Qnum q in
  let d := Z.pos (Qden q) in
  let a := Z.abs n in
  let frac := frac_digits 17 (a mod d) d in
  (if n <? 0 then "-" else EmptyString) +:+ pretty (a / d) +:+ "." +:+
  (if String.eqb frac EmptyString then "0" else frac).

(** ** Time *)

Definition timedelta_seconds (s : Z) : Z := s * 1000000.
Definition timedelta_hours (h : Z) : Z := timedelta_seconds (h * 3600).

(** [t.hour] *)
Definition hour_of (t : Z) : Z := (t / timedelta_hours 1) mod 24.

(** ** The world: clock, random source, trace of effects *)

Inductive event :=
| Sleep (seconds : Z)          (* [asyncio.sleep(seconds)] *)
| Command (command : string).  (* a call of the command capability *)

Record World := mkWorld {
  clock : nat -> Z;        (* the value of the k-th [datetime.now()] *)
  clock_reads : nat;
  rng : nat -> Q;          (* the value of the k-th [random.random()] *)
  rng_reads : nat;
  normal : nat -> Q;       (* the k-th standard normal deviate *)
  normal_reads : nat;
  trace : list event       (* sleeps and commands so far, oldest first *)
}.

Definition M (A : Type) : Type := World -> A * World.

Definition ret {A} (a : A) : M A := fun w => (a, w).
Definition bind {A B} (m : M A) (k : A -> M B) : M B :=
  fun w => let (a, w') := m w in k a w'.

Notation "x <- c1 ;; c2" := (bind c1 (fun x => c2))
  (at level 100, c1 at next level, right associativity).
Notation "c1 ;;; c2" := (bind c1 (fun _ => c2))
  (at level 100, right associativity).

(** [datetime.now()] *)
Definition now : M Z := fun w =>
  (clock w (clock_reads w),
   {| clock := clock w; clock_reads := S (clock_reads w);
      rng := rng w; rng_reads := rng_reads w;
      normal := normal w; normal_reads := normal_reads w;
      trace := trace w |}).

(** [random.random()] *)
Definition random : M Q := fun w =>
  (rng w (rng_reads w),
   {| clock := clock w; clock_reads := clock_reads w;
      rng := rng w; rng_reads := S (rng_reads w);
      normal := normal w; normal_reads := normal_reads w;
      trace := trace w |}).

(** [random.uniform(a, b)], which the library computes from [random()] *)
Definition uniform (a b : Q) : M Q :=
  r <- random ;; ret (a + (b - a) * r)%Q.

(** [random.gauss(mu, sigma)]: the library scales a standard normal
    deviate, which the world supplies *)
Definition gauss (mu sigma : Q) : M Q := fun w =>
  ((mu + normal w (normal_reads w) * sigma)%Q,
   {| clock := clock w; clock_reads := clock_reads w;
      rng := rng w; rng_reads := rng_reads w;
      normal := normal w; normal_reads := S (normal_reads w);
      trace := trace w |}).

Definition emit (e : event) : M unit := fun w =>
  (tt,
   {| clock := clock w; clock_reads := clock_reads w;
      rng := rng w; rng_reads := rng_reads w;
      normal := normal w; normal_reads := normal_reads w;
      trace := trace w ++ [e] |}).

(** [await asyncio.sleep(seconds)] *)
Definition sleep (seconds : Z) : M unit := emit (Sleep seconds).

(** [for x in l: s = body(x, s)] *)
Fixpoint for_each {A S} (l : list A) (body : A -> S -> M S) (s : S) : M S :=
  match l with
  | [] => ret s
  | x :: l' => s' <- body x s ;; for_each l' body s'
  end.

(** [l.sort(key=key, reverse=True)]: Python's sort is stable, also with
    [reverse=True]; a stable sort has one possible result, which this
    insertion sort computes. *)
Fixpoint insert_reverse {A} (key : A -> Z) (x : A) (l : list A) : list A :=
  match l with
  | [] => [x]
  | y :: l' =>
      if key x <? key y then y :: insert_reverse key x l' else x :: y :: l'
  end.
Fixpoint sort_reverse {A} (key : A -> Z) (l : list A) : list A :=
  match l with
  | [] => []
  | x :: l' => insert_reverse key x (sort_reverse key l')
  end.

(** ** devops_agent.py: ProjectContext (declared first, the engine reads it) *)

Record ProjectContext := mkContext {
  repo_url : string;
  project_type : string;
  languages : list string;
  frameworks : list string;
  dependencies : dict;
  structure : dict;
  deployment_requirements : dict;
  security_requirements : list string;
  performance_requirements : dict;
  database_usage : list string;
  api_endpoints : list dict;
  environment_variables : list string;
  build_tools : list string
}.

(** An alert is the dictionary with the five keys "id", "type",
    "severity", "message", "timestamp" that the monitoring system
    builds. The timestamp is written with [isoformat] and read back
    with [fromisoformat]; the record keeps the instant. *)
Record Alert := mkAlert {
  alert_id : string;
  alert_type : string;
  alert_severity : string;
  alert_message : string;
  alert_timestamp : Z
}.

(** ** decision_engine.py *)

Module decision_engine.

Inductive ActionType :=
| SCALE_UP | SCALE_DOWN | RESTART_SERVICE | DEPLOY_UPDATE | ROLLBACK
| UPDATE_CONFIG | CREATE_ALERT | HEAL_SERVICE | OPTIMIZE_PERFORMANCE
| UPDATE_SECURITY.

(** [action_type.value] *)
Definition action_value (a : ActionType) : string :=
  match a with
  | SCALE_UP => "scale_up"
  | SCALE_DOWN => "scale_down"
  | RESTART_SERVICE => "restart_service"
  | DEPLOY_UPDATE => "deploy_update"
  | ROLLBACK => "rollback"
  | UPDATE_CONFIG => "update_config"
  | CREATE_ALERT => "create_alert"
  | HEAL_SERVICE => "heal_service"
  | OPTIMIZE_PERFORMANCE => "optimize_performance"
  | UPDATE_SECURITY => "update_security"
  end.

(** [str(action_type)], the name the enum prints *)
Definition action_name (a : ActionType) : string :=
  match a with
  | SCALE_UP => "ActionType.SCALE_UP"
  | SCALE_DOWN => "ActionType.SCALE_DOWN"
  | RESTART_SERVICE => "ActionType.RESTART_SERVICE"
  | DEPLOY_UPDATE => "ActionType.DEPLOY_UPDATE"
  | ROLLBACK => "ActionType.ROLLBACK"
  | UPDATE_CONFIG => "ActionType.UPDATE_CONFIG"
  | CREATE_ALERT => "ActionType.CREATE_ALERT"
  | HEAL_SERVICE => "ActionType.HEAL_SERVICE"
  | OPTIMIZE_PERFORMANCE => "ActionType.OPTIMIZE_PERFORMANCE"
  | UPDATE_SECURITY => "ActionType.UPDATE_SECURITY"
  end.

Inductive Priority := LOW | MEDIUM | HIGH | CRITICAL.

(** [priority.value] *)
Definition priority_value (p : Priority) : Z :=
  match p with LOW => 1 | MEDIUM => 2 | HIGH => 3 | CRITICAL => 4 end.

(** [priority.name] *)
Definition priority_name (p : Priority) : string :=
  match p with
  | LOW => "LOW" | MEDIUM => "MEDIUM" | HIGH => "HIGH" | CRITICAL => "CRITICAL"
  end.

Record Decision := mkDecision {
  action_type : ActionType;
  priority : Priority;
  target : string;
  parameters : dict;
  reasoning : string;
  timestamp : Z;
  expected_outcome : string;
  rollback_plan : option dict
}.

Record SystemState := mkSystemState {
  cpu_usage : Q;
  memory_usage : Q;
  disk_usage : Q;
  network_usage : Q;
  response_time : Q;
  error_rate : Q;
  request_count : Z;
  service_health : list (string * bool);   (* keys are distinct *)
  alerts : list Alert;
  deployment_status : string;
  last_deployment : option Z
}.

(** [self.thresholds]: the dictionary has the eight keys that
    [_load_thresholds] gives it and is only read, by constant keys. *)
Record Thresholds := mkThresholds {
  cpu_scale_up : Q;
  cpu_scale_down : Q;
  memory_scale_up : Q;
  memory_scale_down : Q;
  disk_usage_threshold : Q;       (* key "disk_usage" *)
  response_time_threshold : Q;    (* key "response_time" *)
  error_rate_threshold : Q;       (* key "error_rate" *)
  network_usage_threshold : Q     (* key "network_usage" *)
}.

Definition _load_thresholds : Thresholds :=
  {| cpu_scale_up := 80.0;
     cpu_scale_down := 30.0;
     memory_scale_up := 85.0;
     memory_scale_down := 40.0;
     disk_usage_threshold := 90.0;
     response_time_threshold := 2.0;
     error_rate_threshold := 5.0;
     network_usage_threshold := 80.0 |}.

(** The engine; [self.rules] is never read and is left out. *)
Record DecisionEngine := mkDecisionEngine {
  config : dict;
  decision_history : list Decision;
  thresholds : Thresholds
}.

(** [DecisionEngine(config)] *)
Definition __init__ (config : dict) : DecisionEngine :=
  {| config := config; decision_history := []; thresholds := _load_thresholds |}.

Definition _analyze_performance_decisions
    (self : DecisionEngine) (state : SystemState) (context : ProjectContext)
    : M (list Decision) :=
  let decisions := [] in
  (* CPU-based scaling *)
  decisions <-
    (if Qgtb (cpu_usage state) (cpu_scale_up (thresholds self)) then
       t <- now ;;
       ret (decisions ++ [
         {| action_type := SCALE_UP;
            priority := HIGH;
            target := "compute";
            parameters := [("metric", PStr "cpu"); ("increase", PStr "25%")];
            reasoning := "CPU usage at " +:+ float_str (cpu_usage state)
                         +:+ "% exceeds threshold";
            timestamp := t;
            expected_outcome := "Reduced CPU load and improved response times";
            rollback_plan := None |}])
     else if Qltb (cpu_usage state) (cpu_scale_down (thresholds self)) then
       t <- now ;;
       ret (decisions ++ [
         {| action_type := SCALE_DOWN;
            priority := LOW;
            target := "compute";
            parameters := [("metric", PStr "cpu"); ("decrease", PStr "20%")];
            reasoning := "CPU usage at " +:+ float_str (cpu_usage state)
                         +:+ "% is below threshold";
            timestamp := t;
            expected_outcome := "Cost optimization while maintaining performance";
            rollback_plan := None |}])
     else ret decisions) ;;
  (* Memory-based scaling *)
  decisions <-
    (if Qgtb (memory_usage state) (memory_scale_up (thresholds self)) then
       t <- now ;;
       ret (decisions ++ [
         {| action_type := SCALE_UP;
            priority := HIGH;
            target := "memory";
            parameters := [("metric", PStr "memory"); ("increase", PStr "30%")];
            reasoning := "Memory usage at " +:+ float_str (memory_usage state)
                         +:+ "% exceeds threshold";
            timestamp := t;
            expected_outcome := "Prevented out-of-memory errors";
            rollback_plan := None |}])
     else ret decisions) ;;
  (* Response time optimization *)
  decisions <-
    (if Qgtb (response_time state) (response_time_threshold (thresholds self)) then
       if truthy (dict_get (performance_requirements context) "caching" PNone) then
         t <- now ;;
         ret (decisions ++ [
           {| action_type := OPTIMIZE_PERFORMANCE;
              priority := MEDIUM;
              target := "cache";
              parameters := [("action", PStr "increase_cache_size");
                             ("amount", PStr "50%")];
              reasoning := "Response time " +:+ float_str (response_time state)
                           +:+ "s exceeds threshold";
              timestamp := t;
              expected_outcome := "Improved response times through better caching";
              rollback_plan := None |}])
       else
         t <- now ;;
         ret (decisions ++ [
           {| action_type := SCALE_UP;
              priority := MEDIUM;
              target := "compute";
              parameters := [("metric", PStr "instances"); ("increase", PStr "1")];
              reasoning := "Response time " +:+ float_str (response_time state)
                           +:+ "s exceeds threshold";
              timestamp := t;
              expected_outcome :=
                "Improved response times through horizontal scaling";
              rollback_plan := None |}])
     else ret decisions) ;;
  ret decisions.

(** The decision the health analyzer appends for an unhealthy service. *)
Definition heal_decision (service : string) (t : Z) : Decision :=
  {| action_type := HEAL_SERVICE;
     priority := CRITICAL;
     target := service;
     parameters := [("action", PStr "restart"); ("max_attempts", PInt 3)];
     reasoning := "Service " +:+ service +:+ " is unhealthy";
     timestamp := t;
     expected_outcome := "Service restoration";
     rollback_plan := Some [("action", PStr "manual_intervention_required")] |}.

Definition _analyze_health_decisions
    (self : DecisionEngine) (state : SystemState) (context : ProjectContext)
    : M (list Decision) :=
  let decisions := [] in
  (* Service health checks *)
  decisions <-
    for_each (service_health state)
      (fun '(service, is_healthy) decisions =>
         if negb is_healthy then
           t <- now ;; ret (decisions ++ [heal_decision service t])
         else ret decisions)
      decisions ;;
  (* Error rate analysis *)
  decisions <-
    (if Qgtb (error_rate state) (error_rate_threshold (thresholds self)) then
       recent <-
         (match last_deployment state with
          | None => ret false
          | Some deployed => t <- now ;; ret (t - deployed <? timedelta_hours 1)
          end) ;;
       if (recent : bool) then
         t <- now ;;
         ret (decisions ++ [
           {| action_type := ROLLBACK;
              priority := CRITICAL;
              target := "deployment";
              parameters := [("target", PStr "previous_stable")];
              reasoning := "Error rate " +:+ float_str (error_rate state)
                           +:+ "% after recent deployment";
              timestamp := t;
              expected_outcome := "Restored system stability";
              rollback_plan := None |}])
       else
         t <- now ;;
         ret (decisions ++ [
           {| action_type := RESTART_SERVICE;
              priority := HIGH;
              target := "application";
              parameters := [("graceful", PBool true); ("timeout", PStr "30s")];
              reasoning := "High error rate " +:+ float_str (error_rate state)
                           +:+ "% detected";
              timestamp := t;
              expected_outcome := "Cleared potential memory leaks or deadlocks";
              rollback_plan := None |}])
     else ret decisions) ;;
  (* Disk usage monitoring *)
  decisions <-
    (if Qgtb (disk_usage state) (disk_usage_threshold (thresholds self)) then
       t <- now ;;
       ret (decisions ++ [
         {| action_type := OPTIMIZE_PERFORMANCE;
            priority := MEDIUM;
            target := "storage";
            parameters := [("action", PStr "cleanup_logs"); ("retention", PStr "7d")];
            reasoning := "Disk usage at " +:+ float_str (disk_usage state)
                         +:+ "% is critical";
            timestamp := t;
            expected_outcome := "Free disk space and prevent service interruption";
            rollback_plan := None |}])
     else ret decisions) ;;
  ret decisions.

Definition _analyze_security_decisions
    (self : DecisionEngine) (state : SystemState) (context : ProjectContext)
    : M (list Decision) :=
  let decisions := [] in
  (* Check for security alerts *)
  let security_alerts :=
    List.filter (fun alert => String.eqb (alert_type alert) "security")
                (alerts state) in
  decisions <-
    for_each security_alerts
      (fun alert decisions =>
         let severity := alert_severity alert in
         if String.eqb severity "high" then
           t <- now ;;
           ret (decisions ++ [
             {| action_type := UPDATE_SECURITY;
                priority := CRITICAL;
                target := "firewall";
                parameters := [("action", PStr "block_suspicious_ips");
                               ("alert_id", PStr (alert_id alert))];
                reasoning := "High severity security alert: "
                             +:+ alert_message alert;
                timestamp := t;
                expected_outcome := "Mitigated security threat";
                rollback_plan := None |}])
         else ret decisions)
      decisions ;;
  (* SSL certificate expiration *)
  decisions <-
    for_each (alerts state)
      (fun alert decisions =>
         if contains "ssl" (lower (alert_message alert))
            && contains "expir" (lower (alert_message alert)) then
           t <- now ;;
           ret (decisions ++ [
             {| action_type := UPDATE_SECURITY;
                priority := HIGH;
                target := "certificates";
                parameters := [("action", PStr "renew_certificates")];
                reasoning := "SSL certificate expiring soon";
                timestamp := t;
                expected_outcome := "Maintained secure connections";
                rollback_plan := None |}])
         else ret decisions)
      decisions ;;
  ret decisions.

Definition _analyze_cost_decisions
    (self : DecisionEngine) (state : SystemState) (context : ProjectContext)
    : M (list Decision) :=
  let decisions := [] in
  (* Off-hours scaling for non-production environments *)
  t <- now ;;
  let current_hour := hour_of t in
  decisions <-
    (if ((current_hour <? 8) || (18 <? current_hour))
        && negb (String.eqb (project_type context) "production") then
       if Qltb (cpu_usage state) 20 && Qltb (memory_usage state) 30 then
         t <- now ;;
         ret (decisions ++ [
           {| action_type := SCALE_DOWN;
              priority := LOW;
              target := "compute";
              parameters := [("schedule", PStr "off_hours");
                             ("reduction", PStr "50%")];
              reasoning := "Low usage during off-hours detected";
              timestamp := t;
              expected_outcome := "Reduced infrastructure costs";
              rollback_plan := None |}])
       else ret decisions
     else ret decisions) ;;
  (* Unused resources cleanup *)
  decisions <-
    (if Qltb (cpu_usage state) 5 && Qltb (memory_usage state) 10 then
       t <- now ;;
       ret (decisions ++ [
         {| action_type := OPTIMIZE_PERFORMANCE;
            priority := LOW;
            target := "resources";
            parameters := [("action", PStr "identify_unused");
                           ("threshold", PStr "1h")];
            reasoning := "Very low resource utilization detected";
            timestamp := t;
            expected_outcome := "Cost savings through resource optimization";
            rollback_plan := None |}])
     else ret decisions) ;;
  ret decisions.

(** [make_decisions] returns the decisions and leaves the engine with
    its new history. *)
Definition make_decisions
    (self : DecisionEngine) (system_state : SystemState) (context : ProjectContext)
    : M (list Decision * DecisionEngine) :=
  let decisions := [] in
  (* Performance-based decisions *)
  perf_decisions <- _analyze_performance_decisions self system_state context ;;
  let decisions := decisions ++ perf_decisions in
  (* Health-based decisions *)
  health_decisions <- _analyze_health_decisions self system_state context ;;
  let decisions := decisions ++ health_decisions in
  (* Security-based decisions *)
  security_decisions <- _analyze_security_decisions self system_state context ;;
  let decisions := decisions ++ security_decisions in
  (* Cost optimization decisions *)
  cost_decisions <- _analyze_cost_decisions self system_state context ;;
  let decisions := decisions ++ cost_decisions in
  (* Sort by priority and limit concurrent actions *)
  let decisions := sort_reverse (fun d => priority_value (priority d)) decisions in
  (* Add to history *)
  let history := decision_history self ++ decisions in
  (* Keep only recent history *)
  t <- now ;;
  let cutoff_time := t - timedelta_hours 24 in
  let history := List.filter (fun d => cutoff_time <? timestamp d) history in
  ret (take 5 decisions,
       {| config := config self;
          decision_history := history;
          thresholds := thresholds self |}).

(** One entry of the list [get_recent_decisions] reports. *)
Record DecisionReport := mkDecisionReport {
  report_action : string;
  report_priority : string;
  report_target : string;
  report_reasoning : string;
  report_timestamp : Z       (* [isoformat] of the instant *)
}.

Definition report_of (d : Decision) : DecisionReport :=
  {| report_action := action_value (action_type d);
     report_priority := priority_name (priority d);
     report_target := target d;
     report_reasoning := reasoning d;
     report_timestamp := timestamp d |}.

(** The comprehension reads the clock once for every decision of the
    history. *)
Definition get_recent_decisions (self : DecisionEngine) : M (list DecisionReport) :=
  recent <-
    for_each (decision_history self)
      (fun d recent =>
         t <- now ;;
         if t - timedelta_hours 1 <? timestamp d
         then ret (recent ++ [d]) else ret recent)
      [] ;;
  ret (List.map report_of recent).

End decision_engine.

(** ** action_executor.py *)

Module action_executor.
Import decision_engine.

(** What a call leaves: a value, or an exception on its way up. *)
Inductive outcome (A : Type) :=
| Return (a : A)
| Raise (e : exn).
Arguments Return {A} a.
Arguments Raise {A} e.

(** a call that cannot raise, seen as one that can *)
Definition returning {A} (m : M A) : M (outcome A) := a <- m ;; ret (Return a).

Record ExecutionResult := mkExecutionResult {
  success : bool;
  message : string;
  details : dict;
  execution_time : Q;
  timestamp : Z
}.

(** [result.execution_time = execution_time] *)
Definition set_execution_time (result : ExecutionResult) (execution_time : Q)
    : ExecutionResult :=
  {| success := success result;
     message := message result;
     details := details result;
     execution_time := execution_time;
     timestamp := timestamp result |}.

Record ActionExecutor := mkActionExecutor {
  config : dict;
  execution_history : list ExecutionResult;
  cloud_provider : pyval
}.

(** [ActionExecutor(config)] *)
Definition __init__ (config : dict) : ActionExecutor :=
  {| config := config;
     execution_history := [];
     cloud_provider := dict_get config "default_cloud" (PStr "aws") |}.

(** [self.execution_history.append(result)] *)
Definition record_result (self : ActionExecutor) (result : ExecutionResult)
    : ActionExecutor :=
  {| config := config self;
     execution_history := execution_history self ++ [result];
     cloud_provider := cloud_provider self |}.

(** [delta.total_seconds()] *)
Definition total_seconds (delta : Z) : Q := Qmake delta 1000000.

Definition pad2 (n : Z) : string :=
  if n <? 10 then "0" +:+ pretty n else pretty n.
Definition pad4 (n : Z) : string :=
  if n <? 10 then "000" +:+ pretty n
  else if n <? 100 then "00" +:+ pretty n
  else if n <? 1000 then "0" +:+ pretty n
  else pretty n.

(** [t.strftime('%Y%m%d-%H%M%S')]: the civil date of the day number and
    the time of day. *)
Definition strftime_compact (t : Z) : string :=
  let seconds := t / 1000000 in
  let days := seconds / 86400 in
  let sod := seconds mod 86400 in
  let z := days + 719468 in
  let era := z / 146097 in
  let doe := z - era * 146097 in
  let yoe := (doe - doe / 1460 + doe / 36524 - doe / 146096) / 365 in
  let doy := doe - (365 * yoe + yoe / 4 - yoe / 100) in
  let mp := (5 * doy + 2) / 153 in
  let d := doy - (153 * mp + 2) / 5 + 1 in
  let m := if mp <? 10 then mp + 3 else mp - 9 in
  let y := yoe + era * 400 + (if m <=? 2 then 1 else 0) in
  pad4 y +:+ pad2 m +:+ pad2 d +:+ "-" +:+
  pad2 (sod / 3600) +:+ pad2 ((sod / 60) mod 60) +:+ pad2 (sod mod 60).

(** [random.randint(a, b)], taken from the same source and kept in [a, b] *)
Definition randint (a b : Z) : M Z :=
  r <- random ;;
  ret (Z.max a (Z.min b (a + Qfloor (r * inject_Z (b - a + 1))))).

(** The command capability. The code simulates the command: it waits a
    second and succeeds with probability 0.9. The [Command] event
    records the call. *)
Definition _run_command (command : string) : M (bool * string) :=
  emit (Command command) ;;;
  sleep 1 ;;;
  r <- random ;;
  let success := Qgtb r 0.1 in
  let output :=
    if success then "Command executed successfully: " +:+ command
    else "Command failed: " +:+ command in
  ret (success, output).

(** *** Pipeline stages *)

Record Stage := mkStage {
  stage_name : string;      (* key "name" *)
  stage_type : string;      (* key "type" *)
  stage_config : dict       (* key "config" *)
}.

(** The plan [create_deployment_plan] builds; [execute_deployment] reads
    its stages. *)
Record DeploymentPlan := mkDeploymentPlan {
  strategy : string;
  stages : list Stage;
  testing : dict;
  rollback : dict;
  notifications : dict
}.

Definition _execute_source_stage (config : dict) : M ExecutionResult :=
  sleep 2 ;;;
  t <- now ;;
  ret {| success := true;
         message := "Source code checked out successfully";
         details := [("branch", dict_get config "branch" (PStr "main"));
                     ("trigger", dict_get config "trigger" PNone)];
         execution_time := 0;
         timestamp := t |}.

(** The loop of [_build_nodejs] and [_build_python]: run the commands in
    order and stop at the first that fails. *)
Fixpoint run_build_commands (commands : list pyval) : M (option (pyval * string)) :=
  match commands with
  | [] => ret None
  | cmd :: rest =>
      ran <- _run_command (py_str cmd) ;;
      let '(success, output) := ran in
      if negb success then ret (Some (cmd, output))
      else run_build_commands rest
  end.

Definition _build_nodejs (config : dict) : M ExecutionResult :=
  let commands := [dict_get config "install_cmd" (PStr "npm ci");
                   dict_get config "build_cmd" (PStr "npm run build")] in
  failed <- run_build_commands commands ;;
  match failed with
  | Some (cmd, output) =>
      t <- now ;;
      ret {| success := false;
             message := "Build failed: " +:+ py_str cmd;
             details := [("command", cmd); ("output", PStr output)];
             execution_time := 0;
             timestamp := t |}
  | None =>
      t <- now ;;
      ret {| success := true;
             message := "Node.js build completed successfully";
             details := [("runtime", PStr "nodejs");
                         ("artifact_path", dict_get config "artifact_path" PNone)];
             execution_time := 0;
             timestamp := t |}
  end.

Definition _build_python (config : dict) : M ExecutionResult :=
  let commands := [dict_get config "install_cmd" (PStr "pip install -r requirements.txt");
                   dict_get config "build_cmd" (PStr "python setup.py build")] in
  failed <- run_build_commands commands ;;
  match failed with
  | Some (cmd, output) =>
      t <- now ;;
      ret {| success := false;
             message := "Build failed: " +:+ py_str cmd;
             details := [("command", cmd); ("output", PStr output)];
             execution_time := 0;
             timestamp := t |}
  | None =>
      t <- now ;;
      ret {| success := true;
             message := "Python build completed successfully";
             details := [("runtime", PStr "python");
                         ("artifact_path", dict_get config "artifact_path" PNone)];
             execution_time := 0;
             timestamp := t |}
  end.

Definition _build_java (config : dict) : M ExecutionResult :=
  let build_tool := dict_get config "build_tool" (PStr "maven") in
  let cmd := dict_get config "build_cmd"
               (PStr (if eq_str build_tool "maven" then "mvn package"
                      else "./gradlew build")) in
  ran <- _run_command (py_str cmd) ;;
  let '(success, output) := ran in
  if (success : bool) then
    t <- now ;;
    ret {| success := true;
           message := "Java build completed successfully";
           details := [("runtime", PStr "java"); ("build_tool", build_tool);
                       ("artifact_path", dict_get config "artifact_path" PNone)];
           execution_time := 0;
           timestamp := t |}
  else
    t <- now ;;
    ret {| success := false;
           message := "Java build failed: " +:+ py_str cmd;
           details := [("command", cmd); ("output", PStr output)];
           execution_time := 0;
           timestamp := t |}.

Definition _build_docker (config : dict) : M ExecutionResult :=
  let dockerfile := dict_get config "dockerfile" (PStr "Dockerfile") in
  t <- now ;;
  let image_tag := "app:" +:+ strftime_compact t in
  let cmd := "docker build -f " +:+ py_str dockerfile +:+ " -t " +:+ image_tag
             +:+ " ." in
  ran <- _run_command cmd ;;
  let '(success, output) := ran in
  if (success : bool) then
    t <- now ;;
    ret {| success := true;
           message := "Docker build completed successfully";
           details := [("runtime", PStr "docker"); ("image_tag", PStr image_tag)];
           execution_time := 0;
           timestamp := t |}
  else
    t <- now ;;
    ret {| success := false;
           message := "Docker build failed: " +:+ cmd;
           details := [("command", PStr cmd); ("output", PStr output)];
           execution_time := 0;
           timestamp := t |}.

Definition _execute_build_stage (config : dict) : M ExecutionResult :=
  let runtime := dict_get config "runtime" (PStr "docker") in
  if eq_str runtime "nodejs" then _build_nodejs config
  else if eq_str runtime "python" then _build_python config
  else if eq_str runtime "java" then _build_java config
  else if eq_str runtime "docker" then _build_docker config
  else
    t <- now ;;
    ret {| success := false;
           message := "Unsupported runtime: " +:+ py_str runtime;
           details := [];
           execution_time := 0;
           timestamp := t |}.

(** [test_type.title()]: only a string has the method *)
Definition py_title (v : pyval) : outcome string :=
  match v with
  | PStr s => Return (title s)
  | _ => Raise (AttributeError
                  ("'" +:+ type_name v +:+ "' object has no attribute 'title'"))
  end.

Definition _execute_test_stage (config : dict) : M (outcome ExecutionResult) :=
  let test_type := dict_get config "type" (PStr "unit") in
  let environment := dict_get config "environment" (PStr "test") in
  sleep 5 ;;;
  r <- random ;;
  let success := Qgtb r 0.1 in
  if success then
    match py_title test_type with
    | Raise e => ret (Raise e)
    | Return titled =>
        t <- now ;;
        ret (Return
          {| success := true;
             message := titled +:+ " tests passed";
             details := [("test_type", test_type); ("environment", environment);
                         ("coverage", PStr "85%")];
             execution_time := 0;
             timestamp := t |})
    end
  else
    match py_title test_type with
    | Raise e => ret (Raise e)
    | Return titled =>
        t <- now ;;
        ret (Return
          {| success := false;
             message := titled +:+ " tests failed";
             details := [("test_type", test_type); ("environment", environment);
                         ("failed_tests", PInt 3)];
             execution_time := 0;
             timestamp := t |})
    end.

Definition _execute_security_stage (config : dict) : M ExecutionResult :=
  let scans := [] in
  let scans := if truthy (dict_get config "sast" (PBool false))
               then scans ++ [PStr "SAST"] else scans in
  let scans := if truthy (dict_get config "dependency_check" (PBool false))
               then scans ++ [PStr "Dependency Check"] else scans in
  sleep 3 ;;;
  vulnerabilities <- randint 0 2 ;;
  if vulnerabilities =? 0 then
    t <- now ;;
    ret {| success := true;
           message := "Security scans passed - no vulnerabilities found";
           details := [("scans", PList scans); ("vulnerabilities", PInt 0)];
           execution_time := 0;
           timestamp := t |}
  else
    t <- now ;;
    ret {| success := false;
           message := "Security scans found " +:+ pretty vulnerabilities
                      +:+ " vulnerabilities";
           details := [("scans", PList scans);
                       ("vulnerabilities", PInt vulnerabilities)];
           execution_time := 0;
           timestamp := t |}.

Definition _execute_deploy_stage (config : dict) : M ExecutionResult :=
  let environment := dict_get config "environment" (PStr "staging") in
  let auto_approve := dict_get config "auto_approve" (PBool false) in
  (if negb (truthy auto_approve) && eq_str environment "production"
   then sleep 1 else ret tt) ;;;
  sleep 10 ;;;
  r <- random ;;
  let success := Qgtb r 0.05 in
  if success then
    t <- now ;;
    ret {| success := true;
           message := "Deployment to " +:+ py_str environment +:+ " successful";
           details := [("environment", environment); ("version", PStr "1.0.0");
                       ("instances", PInt 2)];
           execution_time := 0;
           timestamp := t |}
  else
    t <- now ;;
    ret {| success := false;
           message := "Deployment to " +:+ py_str environment +:+ " failed";
           details := [("environment", environment);
                       ("error", PStr "Connection timeout")];
           execution_time := 0;
           timestamp := t |}.

(** With a stage that has its three keys, the statements before [try]
    cannot fail, and [except] turns what the handlers raise into a failed
    result: the call always returns a result. *)
Definition _execute_pipeline_stage (self : ActionExecutor) (stage : Stage)
    : M ExecutionResult :=
  start_time <- now ;;
  let stage_name := stage_name stage in
  let stage_type := stage_type stage in
  let config := stage_config stage in
  attempt <-
    (if String.eqb stage_type "source_control" then
       returning (_execute_source_stage config)
     else if String.eqb stage_type "build" then
       returning (_execute_build_stage config)
     else if String.eqb stage_type "test" then
       _execute_test_stage config
     else if String.eqb stage_type "security" then
       returning (_execute_security_stage config)
     else if String.eqb stage_type "deploy" then
       returning (_execute_deploy_stage config)
     else
       t <- now ;;
       ret (Return {| success := false;
                      message := "Unknown stage type: " +:+ stage_type;
                      details := [];
                      execution_time := 0;
                      timestamp := t |})) ;;
  match attempt with
  | Return result =>
      t <- now ;;
      ret (set_execution_time result (total_seconds (t - start_time)))
  | Raise e =>
      t <- now ;;
      let execution_time := total_seconds (t - start_time) in
      t' <- now ;;
      ret {| success := false;
             message := "Stage " +:+ stage_name +:+ " failed: " +:+ exn_str e;
             details := [("error", PStr (exn_str e)); ("stage", PStr stage_name)];
             execution_time := execution_time;
             timestamp := t' |}
  end.

Record DeploymentResults := mkDeploymentResults {
  overall_success : bool;
  stage_results : list ExecutionResult;
  deployment_id : string;
  start_time : Z;
  end_time : option Z;
  error : option string
}.

(** The [for] loop of [execute_deployment], with its [break]. *)
Fixpoint run_stages (self : ActionExecutor) (remaining : list Stage)
    (results : DeploymentResults) : M DeploymentResults :=
  match remaining with
  | [] => ret results
  | stage :: rest =>
      stage_result <- _execute_pipeline_stage self stage ;;
      let results :=
        {| overall_success := overall_success results;
           stage_results := stage_results results ++ [stage_result];
           deployment_id := deployment_id results;
           start_time := start_time results;
           end_time := end_time results;
           error := error results |} in
      if negb (success stage_result) then
        let results :=
          {| overall_success := false;
             stage_results := stage_results results;
             deployment_id := deployment_id results;
             start_time := start_time results;
             end_time := end_time results;
             error := error results |} in
        if negb (String.eqb (stage_name stage) "deploy_production")
        then ret results                       (* break *)
        else run_stages self rest results      (* Don't fail on production deploy *)
      else run_stages self rest results
  end.

(** No statement of the [try] block can raise on a plan of this type, so
    the [except] clause, which would set "error", is not reached. *)
Definition execute_deployment (self : ActionExecutor) (deployment_plan : DeploymentPlan)
    : M DeploymentResults :=
  t_id <- now ;;
  t_start <- now ;;
  let results :=
    {| overall_success := true;
       stage_results := [];
       deployment_id := "deploy-" +:+ strftime_compact t_id;
       start_time := t_start;
       end_time := None;
       error := None |} in
  results <- run_stages self (stages deployment_plan) results ;;
  t_end <- now ;;
  ret {| overall_success := overall_success results;
         stage_results := stage_results results;
         deployment_id := deployment_id results;
         start_time := start_time results;
         end_time := Some t_end;
         error := error results |}.

(** *** Action handlers *)

Definition _aws_scale_up (target : string) (parameters : dict) : M ExecutionResult :=
  let metric := dict_get parameters "metric" (PStr "instances") in
  let increase := dict_get parameters "increase" (PStr "1") in
  let cmd :=
    if eq_str metric "instances" then
      "aws autoscaling set-desired-capacity --auto-scaling-group-name " +:+ target
      +:+ " --desired-capacity +" +:+ py_str increase
    else if eq_str metric "cpu" then
      "aws ec2 modify-instance-attribute --instance-id " +:+ target
      +:+ " --instance-type t3.large"
    else
      "aws autoscaling update-auto-scaling-group --auto-scaling-group-name "
      +:+ target in
  ran <- _run_command cmd ;;
  let '(success, output) := ran in
  t <- now ;;
  ret {| success := success;
         message := "AWS scale up " +:+ (if success then "completed" else "failed");
         details := [("target", PStr target); ("metric", metric);
                     ("increase", increase); ("output", PStr output)];
         execution_time := 0;
         timestamp := t |}.

Definition _aws_scale_down (target : string) (parameters : dict) : M ExecutionResult :=
  let metric := dict_get parameters "metric" (PStr "instances") in
  let decrease := dict_get parameters "decrease" (PStr "1") in
  let cmd :=
    if eq_str metric "instances" then
      "aws autoscaling set-desired-capacity --auto-scaling-group-name " +:+ target
      +:+ " --desired-capacity -" +:+ py_str decrease
    else if eq_str metric "cpu" then
      "aws ec2 modify-instance-attribute --instance-id " +:+ target
      +:+ " --instance-type t3.small"
    else
      "aws autoscaling update-auto-scaling-group --auto-scaling-group-name "
      +:+ target in
  ran <- _run_command cmd ;;
  let '(success, output) := ran in
  t <- now ;;
  ret {| success := success;
         message := "AWS scale down " +:+ (if success then "completed" else "failed");
         details := [("target", PStr target); ("metric", metric);
                     ("decrease", decrease); ("output", PStr output)];
         execution_time := 0;
         timestamp := t |}.

Definition _generic_scale_up (target : string) (parameters : dict) : M ExecutionResult :=
  sleep 2 ;;;
  t <- now ;;
  ret {| success := true;
         message := "Scaled up " +:+ target +:+ " successfully";
         details := [("target", PStr target); ("parameters", PDict parameters)];
         execution_time := 0;
         timestamp := t |}.

Definition _generic_scale_down (target : string) (parameters : dict) : M ExecutionResult :=
  sleep 2 ;;;
  t <- now ;;
  ret {| success := true;
         message := "Scaled down " +:+ target +:+ " successfully";
         details := [("target", PStr target); ("parameters", PDict parameters)];
         execution_time := 0;
         timestamp := t |}.

Definition _gcp_scale_up (target : string) (parameters : dict) : M ExecutionResult :=
  let metric := dict_get parameters "metric" (PStr "instances") in
  let increase := dict_get parameters "increase" (PStr "1") in
  let cmd := "gcloud compute instance-groups managed resize " +:+ target
             +:+ " --size +" +:+ py_str increase in
  ran <- _run_command cmd ;;
  let '(success, output) := ran in
  t <- now ;;
  ret {| success := success;
         message := "GCP scale up " +:+ (if success then "completed" else "failed");
         details := [("target", PStr target); ("metric", metric);
                     ("increase", increase); ("output", PStr output)];
         execution_time := 0;
         timestamp := t |}.

Definition _gcp_scale_down (target : string) (parameters : dict) : M ExecutionResult :=
  let metric := dict_get parameters "metric" (PStr "instances") in
  let decrease := dict_get parameters "decrease" (PStr "1") in
  let cmd := "gcloud compute instance-groups managed resize " +:+ target
             +:+ " --size -" +:+ py_str decrease in
  ran <- _run_command cmd ;;
  let '(success, output) := ran in
  t <- now ;;
  ret {| success := success;
         message := "GCP scale down " +:+ (if success then "completed" else "failed");
         details := [("target", PStr target); ("metric", metric);
                     ("decrease", decrease); ("output", PStr output)];
         execution_time := 0;
         timestamp := t |}.

Definition _azure_scale_up (target : string) (parameters : dict) : M ExecutionResult :=
  let metric := dict_get parameters "metric" (PStr "instances") in
  let increase := dict_get parameters "increase" (PStr "1") in
  let cmd := "az vmss scale --name " +:+ target +:+ " --new-capacity +"
             +:+ py_str increase in
  ran <- _run_command cmd ;;
  let '(success, output) := ran in
  t <- now ;;
  ret {| success := success;
         message := "Azure scale up " +:+ (if success then "completed" else "failed");
         details := [("target", PStr target); ("metric", metric);
                     ("increase", increase); ("output", PStr output)];
         execution_time := 0;
         timestamp := t |}.

Definition _azure_scale_down (target : string) (parameters : dict) : M ExecutionResult :=
  let metric := dict_get parameters "metric" (PStr "instances") in
  let decrease := dict_get parameters "decrease" (PStr "1") in
  let cmd := "az vmss scale --name " +:+ target +:+ " --new-capacity -"
             +:+ py_str decrease in
  ran <- _run_command cmd ;;
  let '(success, output) := ran in
  t <- now ;;
  ret {| success := success;
         message := "Azure scale down " +:+ (if success then "completed" else "failed");
         details := [("target", PStr target); ("metric", metric);
                     ("decrease", decrease); ("output", PStr output)];
         execution_time := 0;
         timestamp := t |}.

Definition _execute_scale_up (self : ActionExecutor) (decision : Decision)
    : M ExecutionResult :=
  let target := target decision in
  let parameters := parameters decision in
  if eq_str (cloud_provider self) "aws" then _aws_scale_up target parameters
  else if eq_str (cloud_provider self) "gcp" then _gcp_scale_up target parameters
  else if eq_str (cloud_provider self) "azure" then _azure_scale_up target parameters
  else _generic_scale_up target parameters.

Definition _execute_scale_down (self : ActionExecutor) (decision : Decision)
    : M ExecutionResult :=
  let target := target decision in
  let parameters := parameters decision in
  if eq_str (cloud_provider self) "aws" then _aws_scale_down target parameters
  else if eq_str (cloud_provider self) "gcp" then _gcp_scale_down target parameters
  else if eq_str (cloud_provider self) "azure" then _azure_scale_down target parameters
  else _generic_scale_down target parameters.

Definition _execute_restart_service (self : ActionExecutor) (decision : Decision)
    : M ExecutionResult :=
  let target := target decision in
  let parameters := parameters decision in
  let graceful := dict_get parameters "graceful" (PBool true) in
  let timeout := dict_get parameters "timeout" (PStr "30s") in
  let cmd := if truthy graceful then "systemctl reload " +:+ target
             else "systemctl restart " +:+ target in
  ran <- _run_command cmd ;;
  let '(success, output) := ran in
  t <- now ;;
  ret {| success := success;
         message := "Service restart " +:+ (if success then "completed" else "failed");
         details := [("target", PStr target); ("graceful", graceful);
                     ("timeout", timeout); ("output", PStr output)];
         execution_time := 0;
         timestamp := t |}.

Definition _execute_rollback (self : ActionExecutor) (decision : Decision)
    : M ExecutionResult :=
  let target := dict_get (parameters decision) "target" (PStr "previous_stable") in
  sleep 5 ;;;
  t <- now ;;
  ret {| success := true;
         message := "Rollback completed successfully";
         details := [("target", target); ("rollback_version", PStr "v1.2.3")];
         execution_time := 0;
         timestamp := t |}.

(** [range(n)]: the number of iterations, for an integer (or a bool,
    which is one); anything else is a [TypeError]. *)
Definition py_range (n : pyval) : outcome nat :=
  match n with
  | PInt z => Return (Z.to_nat z)
  | PBool b => Return (if b then 1%nat else 0%nat)
  | _ => Raise (TypeError ("'" +:+ type_name n
                           +:+ "' object cannot be interpreted as an integer"))
  end.

(** The [for attempt in range(max_attempts)] loop of the heal handler:
    [Some result] when an attempt returned from inside the loop, [None]
    when the loop ran out. *)
Fixpoint heal_attempts (target : string) (action : pyval) (attempt : Z)
    (remaining : nat) : M (option ExecutionResult) :=
  match remaining with
  | O => ret None
  | S remaining' =>
      returned <-
        (if eq_str action "restart" then
           ran <- _run_command ("systemctl restart " +:+ target) ;;
           let '(success, output) := ran in
           if (success : bool) then
             t <- now ;;
             ret (Some
               {| success := true;
                  message := "Service " +:+ target +:+ " healed successfully";
                  details := [("target", PStr target); ("action", action);
                              ("attempts", PInt (attempt + 1))];
                  execution_time := 0;
                  timestamp := t |})
           else ret None
         else ret None) ;;
      match returned with
      | Some result => ret (Some result)
      | None =>
          sleep 5 ;;;   (* Wait between attempts *)
          heal_attempts target action (attempt + 1) remaining'
      end
  end.

Definition _execute_heal_service (self : ActionExecutor) (decision : Decision)
    : M (outcome ExecutionResult) :=
  let target := target decision in
  let action := dict_get (parameters decision) "action" (PStr "restart") in
  let max_attempts := dict_get (parameters decision) "max_attempts" (PInt 3) in
  match py_range max_attempts with
  | Raise e => ret (Raise e)
  | Return iterations =>
      returned <- heal_attempts target action 0 iterations ;;
      match returned with
      | Some result => ret (Return result)
      | None =>
          t <- now ;;
          ret (Return
            {| success := false;
               message := "Failed to heal service " +:+ target +:+ " after "
                          +:+ py_str max_attempts +:+ " attempts";
               details := [("target", PStr target); ("action", action);
                           ("attempts", max_attempts)];
               execution_time := 0;
               timestamp := t |})
      end
  end.

(** [v[:-1]] *)
Definition py_drop_last (v : pyval) : outcome pyval :=
  match v with
  | PStr s => Return (PStr (drop_last_char s))
  | PList l => Return (PList (removelast l))
  | PDict _ => Raise (TypeError "unhashable type: 'slice'")
  | _ => Raise (TypeError ("'" +:+ type_name v +:+ "' object is not subscriptable"))
  end.

Definition _execute_optimize_performance (self : ActionExecutor) (decision : Decision)
    : M (outcome ExecutionResult) :=
  let target := target decision in
  let action := dict_get (parameters decision) "action" PNone in
  ran <-
    (if eq_str action "increase_cache_size" then
       let amount := dict_get (parameters decision) "amount" (PStr "50%") in
       returning (_run_command ("redis-cli CONFIG SET maxmemory +" +:+ py_str amount))
     else if eq_str action "cleanup_logs" then
       let retention := dict_get (parameters decision) "retention" (PStr "7d") in
       match py_drop_last retention with
       | Raise e => ret (Raise e)
       | Return days =>
           returning (_run_command ("find /var/log -name '*.log' -mtime +"
                                    +:+ py_str days +:+ " -delete"))
       end
     else if eq_str action "identify_unused" then
       returning (_run_command "docker system prune -f")
     else
       ret (Return (true, "Performance optimization completed"))) ;;
  match ran with
  | Raise e => ret (Raise e)
  | Return (success, output) =>
      t <- now ;;
      ret (Return
        {| success := success;
           message := "Performance optimization "
                      +:+ (if success then "completed" else "failed");
           details := [("target", PStr target); ("action", action);
                       ("output", PStr output)];
           execution_time := 0;
           timestamp := t |})
  end.

Definition _execute_update_security (self : ActionExecutor) (decision : Decision)
    : M ExecutionResult :=
  let target := target decision in
  let action := dict_get (parameters decision) "action" PNone in
  ran <-
    (if eq_str action "block_suspicious_ips" then
       let alert_id := dict_get (parameters decision) "alert_id" PNone in
       _run_command "iptables -A INPUT -s suspicious_ip -j DROP"
     else if eq_str action "renew_certificates" then
       _run_command "certbot renew --quiet"
     else
       ret (true, "Security update completed")) ;;
  let '(success, output) := ran in
  t <- now ;;
  ret {| success := success;
         message := "Security update " +:+ (if success then "completed" else "failed");
         details := [("target", PStr target); ("action", action);
                     ("output", PStr output)];
         execution_time := 0;
         timestamp := t |}.

Definition _execute_update_config (self : ActionExecutor) (decision : Decision)
    : M ExecutionResult :=
  let target := target decision in
  let config_changes := dict_get (parameters decision) "changes" (PDict []) in
  sleep 2 ;;;
  t <- now ;;
  ret {| success := true;
         message := "Configuration updated for " +:+ target;
         details := [("target", PStr target); ("changes", config_changes)];
         execution_time := 0;
         timestamp := t |}.

(** The [if]/[elif] chain of [execute_action]: the handler of the action
    type, or the failure result of the [else] branch. *)
Definition dispatch (self : ActionExecutor) (decision : Decision)
    : M (outcome ExecutionResult) :=
  match action_type decision with
  | SCALE_UP => returning (_execute_scale_up self decision)
  | SCALE_DOWN => returning (_execute_scale_down self decision)
  | RESTART_SERVICE => returning (_execute_restart_service self decision)
  | ROLLBACK => returning (_execute_rollback self decision)
  | HEAL_SERVICE => _execute_heal_service self decision
  | OPTIMIZE_PERFORMANCE => _execute_optimize_performance self decision
  | UPDATE_SECURITY => returning (_execute_update_security self decision)
  | UPDATE_CONFIG => returning (_execute_update_config self decision)
  | DEPLOY_UPDATE | CREATE_ALERT =>
      t <- now ;;
      ret (Return
        {| success := false;
           message := "Unknown action type: " +:+ action_name (action_type decision);
           details := [];
           execution_time := 0;
           timestamp := t |})
  end.

(** [execute_action] returns the result and leaves the executor with the
    result appended to its history. *)
Definition execute_action (self : ActionExecutor) (decision : Decision)
    : M (ExecutionResult * ActionExecutor) :=
  start_time <- now ;;
  attempt <- dispatch self decision ;;
  match attempt with
  | Return result =>
      t <- now ;;
      let execution_time := total_seconds (t - start_time) in
      let result := set_execution_time result execution_time in
      ret (result, record_result self result)
  | Raise e =>
      t <- now ;;
      let execution_time := total_seconds (t - start_time) in
      t' <- now ;;
      let result :=
        {| success := false;
           message := "Action execution failed: " +:+ exn_str e;
           details := [("error", PStr (exn_str e));
                       ("action_type", PStr (action_value (action_type decision)))];
           execution_time := execution_time;
           timestamp := t' |} in
      ret (result, record_result self result)
  end.

(** One entry of the list [get_execution_history] reports. *)
Record ExecutionReport := mkExecutionReport {
  report_success : bool;
  report_message : string;
  report_execution_time : Q;
  report_timestamp : Z
}.

(** [l[-n:]] *)
Definition last_n {A} (n : nat) (l : list A) : list A :=
  drop (length l - n) l.

Definition get_execution_history (self : ActionExecutor) : list ExecutionReport :=
  List.map
    (fun result =>
       {| report_success := success result;
          report_message := message result;
          report_execution_time := execution_time result;
          report_timestamp := timestamp result |})
    (last_n 10 (execution_history self)).

End action_executor.

(** ** learning_module.py *)

Module learning_module.
Import decision_engine.

Record ActionOutcome := mkActionOutcome {
  decision : Decision;
  execution_success : bool;
  system_state_before : SystemState;
  system_state_after : option SystemState;
  outcome_metrics : gmap string Q;
  timestamp : Z
}.

(** The module; [performance_patterns] belongs to the timing and context
    learners, which are not part of this development. *)
Record LearningModule := mkLearningModule {
  config : dict;
  action_history : list ActionOutcome;
  decision_effectiveness : gmap string (gmap string (list Q));
  learned_thresholds : gmap string (list Q)
}.

(** [LearningModule(config)] *)
Definition __init__ (config : dict) : LearningModule :=
  {| config := config;
     action_history := [];
     decision_effectiveness := ∅;
     learned_thresholds := ∅ |}.

(** [sum(1 for h in health.values() if h)] *)
Definition healthy_services (health : list (string * bool)) : Z :=
  Z.of_nat (length (List.filter (fun kv => snd kv) health)).

Definition _calculate_outcome_metrics (before after : SystemState) : gmap string Q :=
  let metrics : gmap string Q := ∅ in
  (* Performance improvements *)
  let metrics := <["cpu_improvement" := (cpu_usage before - cpu_usage after)%Q]> metrics in
  let metrics :=
    <["memory_improvement" := (memory_usage before - memory_usage after)%Q]> metrics in
  let metrics :=
    <["response_time_improvement" :=
        (response_time before - response_time after)%Q]> metrics in
  let metrics :=
    <["error_rate_improvement" := (error_rate before - error_rate after)%Q]> metrics in
  (* Health improvements *)
  let before_healthy_services := healthy_services (service_health before) in
  let after_healthy_services := healthy_services (service_health after) in
  let metrics :=
    <["health_improvement" :=
        inject_Z (after_healthy_services - before_healthy_services)]> metrics in
  (* Overall effectiveness score *)
  let effectiveness := 0%Q in
  let effectiveness :=
    if Qgtb (default 0%Q (metrics !! "cpu_improvement")) 0
    then (effectiveness + 0.3)%Q else effectiveness in
  let effectiveness :=
    if Qgtb (default 0%Q (metrics !! "response_time_improvement")) 0
    then (effectiveness + 0.3)%Q else effectiveness in
  let effectiveness :=
    if Qgtb (default 0%Q (metrics !! "error_rate_improvement")) 0
    then (effectiveness + 0.2)%Q else effectiveness in
  let effectiveness :=
    if Qgtb (default 0%Q (metrics !! "health_improvement")) 0
    then (effectiveness + 0.2)%Q else effectiveness in
  <["overall_effectiveness" := effectiveness]> metrics.

(** [l[-n:]] *)
Definition last_n {A} (n : nat) (l : list A) : list A :=
  drop (length l - n) l.

(** [self.learned_thresholds[key]] of a key that may be absent: the
    buffer, empty when there is none *)
Definition threshold_buffer (thresholds : gmap string (list Q)) (key : string)
    : list Q :=
  default [] (thresholds !! key).

Definition _learn_optimal_thresholds (self : LearningModule) (outcome : ActionOutcome)
    : LearningModule :=
  let action_type := action_value (action_type (decision outcome)) in
  let before_state := system_state_before outcome in
  let effectiveness :=
    default 0.0%Q (outcome_metrics outcome !! "overall_effectiveness") in
  (* Learn CPU thresholds for scaling actions *)
  if String.eqb action_type "scale_up" || String.eqb action_type "scale_down" then
    let threshold_key := action_type +:+ "_cpu_threshold" in
    let thresholds := learned_thresholds self in
    let thresholds :=
      match thresholds !! threshold_key with
      | None => <[threshold_key := []]> thresholds
      | Some _ => thresholds
      end in
    (* Store successful threshold examples *)
    let thresholds :=
      if Qgtb effectiveness 0.5 then
        let buffer := threshold_buffer thresholds threshold_key
                      ++ [cpu_usage before_state] in
        let thresholds := <[threshold_key := buffer]> thresholds in
        (* Keep only recent examples *)
        if (50 <? length buffer)%nat
        then <[threshold_key := last_n 50 buffer]> thresholds
        else thresholds
      else thresholds in
    {| config := config self;
       action_history := action_history self;
       decision_effectiveness := decision_effectiveness self;
       learned_thresholds := thresholds |}
  else self.

End learning_module.

(** ** monitoring_system.py *)

Module monitoring_system.
Import decision_engine.

Record MetricData := mkMetricData {
  timestamp : Z;
  value : Q;
  metric_name : string;
  tags : list (string * string)
}.

Record MonitoringSystem := mkMonitoringSystem {
  config : dict;
  is_monitoring : bool;
  metrics_history : list MetricData;
  current_alerts : list Alert;
  monitoring_interval : pyval
}.

(** [MonitoringSystem(config)] *)
Definition __init__ (config : dict) : MonitoringSystem :=
  {| config := config;
     is_monitoring := false;
     metrics_history := [];
     current_alerts := [];
     monitoring_interval := dict_get config "monitoring_interval" (PInt 60) |}.

Definition Qmax (a b : Q) : Q := if Qle_bool a b then b else a.
Definition Qmin (a b : Q) : Q := if Qle_bool a b then a else b.

(** [round(x)] to the nearest integer, halves to the even one *)
Definition round_half_even (x : Q) : Z :=
  let f := Qfloor x in
  match Qcompare (x - inject_Z f) (1 # 2) with
  | Lt => f
  | Gt => f + 1
  | Eq => if Z.even f then f else f + 1
  end.

(** [round(x, ndigits)], on the exact value of [x] *)
Definition py_round (x : Q) (ndigits : nat) : Q :=
  let scale := Z.to_pos (10 ^ Z.of_nat ndigits) in
  Qmake (round_half_even (x * inject_Z (Z.pos scale))) scale.

(** [int(x)] of a float: towards zero *)
Definition py_int (x : Q) : Z :=
  if Qle_bool 0 x then Qfloor x else Qceiling x.

Definition _generate_cpu_metric : M Q :=
  let base_cpu := 45.0%Q in
  variation <- gauss 0 15 ;;
  let cpu_usage := Qmax 0 (Qmin 100 (base_cpu + variation)) in
  r <- random ;;
  cpu_usage <-
    (if Qltb r 0.05 then
       u <- uniform 20 40 ;; ret (Qmin 100 (cpu_usage + u))
     else ret cpu_usage) ;;
  ret (py_round cpu_usage 2).

Definition _generate_memory_metric : M Q :=
  let base_memory := 60.0%Q in
  variation <- gauss 0 10 ;;
  let memory_usage := Qmax 0 (Qmin 100 (base_memory + variation)) in
  r <- random ;;
  memory_usage <-
    (if Qltb r 0.02 then
       u <- uniform 10 25 ;; ret (Qmin 100 (memory_usage + u))
     else ret memory_usage) ;;
  ret (py_round memory_usage 2).

Definition _generate_disk_metric : M Q :=
  let base_disk := 35.0%Q in
  variation <- gauss 0 5 ;;
  let disk_usage := Qmax 0 (Qmin 100 (base_disk + variation)) in
  ret (py_round disk_usage 2).

Definition _generate_network_metric : M Q :=
  let base_network := 25.0%Q in
  variation <- gauss 0 20 ;;
  let network_usage := Qmax 0 (Qmin 100 (base_network + variation)) in
  ret (py_round network_usage 2).

Definition _generate_response_time_metric : M Q :=
  let base_response := 0.8%Q in
  variation <- gauss 0 0.3 ;;
  let response_time := Qmax 0.1 (base_response + variation) in
  r <- random ;;
  response_time <-
    (if Qltb r 0.03 then
       u <- uniform 1 4 ;; ret (response_time + u)%Q
     else ret response_time) ;;
  ret (py_round response_time 3).

Definition _generate_error_rate_metric : M Q :=
  let base_error := 1.5%Q in
  variation <- gauss 0 1 ;;
  let error_rate := Qmax 0 (base_error + variation) in
  r <- random ;;
  error_rate <-
    (if Qltb r 0.02 then
       u <- uniform 3 8 ;; ret (error_rate + u)%Q
     else ret error_rate) ;;
  ret (py_round error_rate 2).

Definition _generate_request_count_metric : M Z :=
  let base_requests := 150%Q in
  variation <- gauss 0 50 ;;
  ret (Z.max 0 (py_int (base_requests + variation))).

Definition _check_service_health : M (list (string * bool)) :=
  let services := ["web"; "api"; "database"; "cache"; "queue"] in
  for_each services
    (fun service health_status =>
       r <- random ;; ret (health_status ++ [(service, Qgtb r 0.05)]))
    [].

Definition get_system_state (self : MonitoringSystem) : M SystemState :=
  current_time <- now ;;
  cpu_usage <- _generate_cpu_metric ;;
  memory_usage <- _generate_memory_metric ;;
  disk_usage <- _generate_disk_metric ;;
  network_usage <- _generate_network_metric ;;
  response_time <- _generate_response_time_metric ;;
  error_rate <- _generate_error_rate_metric ;;
  request_count <- _generate_request_count_metric ;;
  service_health <- _check_service_health ;;
  let alerts := current_alerts self in
  let deployment_status := "stable" in
  let last_deployment := current_time - timedelta_hours 2 in
  ret {| cpu_usage := cpu_usage;
         memory_usage := memory_usage;
         disk_usage := disk_usage;
         network_usage := network_usage;
         response_time := response_time;
         error_rate := error_rate;
         request_count := request_count;
         service_health := service_health;
         alerts := alerts;
         deployment_status := deployment_status;
         last_deployment := Some last_deployment |}.

(** [t.timestamp()], seconds since the epoch *)
Definition posix_seconds (t : Z) : Q := Qmake t 1000000.

(** An alert dictionary: the clock is read for the id, then for the
    timestamp. *)
Definition new_alert (id_prefix type severity message : string) : M Alert :=
  t_id <- now ;;
  t <- now ;;
  ret {| alert_id := id_prefix +:+ float_str (posix_seconds t_id);
         alert_type := type;
         alert_severity := severity;
         alert_message := message;
         alert_timestamp := t |}.

(** One pass of the loop of [_check_alerts]. The [try] block cannot
    raise on alerts of type [Alert]. *)
Definition _check_alerts_pass (self : MonitoringSystem) : M MonitoringSystem :=
  current_state <- get_system_state self ;;
  let new_alerts := [] in
  (* CPU usage alerts *)
  new_alerts <-
    (if Qgtb (cpu_usage current_state) 90 then
       a <- new_alert "cpu-alert-" "performance" "high"
              ("High CPU usage: " +:+ float_str (cpu_usage current_state) +:+ "%") ;;
       ret (new_alerts ++ [a])
     else ret new_alerts) ;;
  (* Memory usage alerts *)
  new_alerts <-
    (if Qgtb (memory_usage current_state) 90 then
       a <- new_alert "memory-alert-" "performance" "high"
              ("High memory usage: " +:+ float_str (memory_usage current_state)
               +:+ "%") ;;
       ret (new_alerts ++ [a])
     else ret new_alerts) ;;
  (* Disk usage alerts *)
  new_alerts <-
    (if Qgtb (disk_usage current_state) 85 then
       a <- new_alert "disk-alert-" "storage" "medium"
              ("High disk usage: " +:+ float_str (disk_usage current_state) +:+ "%") ;;
       ret (new_alerts ++ [a])
     else ret new_alerts) ;;
  (* Response time alerts *)
  new_alerts <-
    (if Qgtb (response_time current_state) 3.0 then
       a <- new_alert "response-alert-" "performance" "medium"
              ("Slow response time: " +:+ float_str (response_time current_state)
               +:+ "s") ;;
       ret (new_alerts ++ [a])
     else ret new_alerts) ;;
  (* Error rate alerts *)
  new_alerts <-
    (if Qgtb (error_rate current_state) 5 then
       a <- new_alert "error-alert-" "error" "high"
              ("High error rate: " +:+ float_str (error_rate current_state) +:+ "%") ;;
       ret (new_alerts ++ [a])
     else ret new_alerts) ;;
  (* Security alerts (simulated) *)
  r <- random ;;
  new_alerts <-
    (if Qltb r 0.01 then
       a <- new_alert "security-alert-" "security" "high"
              "Suspicious login attempts detected" ;;
       ret (new_alerts ++ [a])
     else ret new_alerts) ;;
  (* SSL certificate expiry (simulated) *)
  r <- random ;;
  new_alerts <-
    (if Qltb r 0.005 then
       a <- new_alert "ssl-alert-" "security" "medium"
              "SSL certificate expiring in 7 days" ;;
       ret (new_alerts ++ [a])
     else ret new_alerts) ;;
  (* Add new alerts *)
  let alerts := current_alerts self ++ new_alerts in
  (* Remove old alerts (older than 1 hour) *)
  t <- now ;;
  let cutoff_time := t - timedelta_hours 1 in
  let alerts :=
    List.filter (fun alert => cutoff_time <? alert_timestamp alert) alerts in
  sleep 30 ;;;
  ret {| config := config self;
         is_monitoring := is_monitoring self;
         metrics_history := metrics_history self;
         current_alerts := alerts;
         monitoring_interval := monitoring_interval self |}.

Record MonitoringStatus := mkMonitoringStatus {
  status_is_monitoring : bool;
  status_metrics_collected : nat;
  status_active_alerts : nat;
  status_monitoring_interval : pyval;
  status_last_collection : Z        (* [isoformat] of the instant *)
}.

Definition get_status (self : MonitoringSystem) : M MonitoringStatus :=
  t <- now ;;
  ret {| status_is_monitoring := is_monitoring self;
         status_metrics_collected := length (metrics_history self);
         status_active_alerts := length (current_alerts self);
         status_monitoring_interval := monitoring_interval self;
         status_last_collection := t |}.

End monitoring_system.

(** ** infrastructure_manager.py: the status accessor *)

Module infrastructure_manager.

Record InfrastructureResource := mkInfrastructureResource {
  resource_id : string;
  resource_type : string;
  status : string;
  config : dict;
  created_at : Z;
  tags : list (string * string)
}.

Record InfrastructureManager := mkInfrastructureManager {
  manager_config : dict;
  cloud_provider : pyval;
  resources : list InfrastructureResource;
  resource_status : list (string * string)
}.

Record ResourceReport := mkResourceReport {
  report_id : string;
  report_status : string;
  report_created_at : Z       (* [isoformat] of the instant *)
}.

(** [status_by_type[key].append(entry)], with the key created on its
    first use *)
Fixpoint append_by_type (status_by_type : list (string * list ResourceReport))
    (key : string) (entry : ResourceReport) : list (string * list ResourceReport) :=
  match status_by_type with
  | [] => [(key, [entry])]
  | (k, entries) :: rest =>
      if String.eqb k key then (k, entries ++ [entry]) :: rest
      else (k, entries) :: append_by_type rest key entry
  end.

Record InfrastructureStatus := mkInfrastructureStatus {
  status_cloud_provider : pyval;
  status_total_resources : nat;
  status_resources_by_type : list (string * list ResourceReport);
  status_last_updated : Z     (* [isoformat] of the instant *)
}.

Definition get_status (self : InfrastructureManager) : M InfrastructureStatus :=
  let status_by_type :=
    fold_left
      (fun status_by_type resource =>
         append_by_type status_by_type (resource_type resource)
           {| report_id := resource_id resource;
              report_status := status resource;
              report_created_at := created_at resource |})
      (resources self) [] in
  t <- now ;;
  ret {| status_cloud_provider := cloud_provider self;
         status_total_resources := length (resources self);
         status_resources_by_type := status_by_type;
         status_last_updated := t |}.

End infrastructure_manager.

(** ** devops_agent.py: the agent and its status report *)

Module devops_agent.

(** The agent; the repository analyzer and the code engine take no part
    in the control loop and are left out. *)
Record DevOpsAgent := mkDevOpsAgent {
  config : dict;
  decision_engine : decision_engine.DecisionEngine;
  action_executor : action_executor.ActionExecutor;
  monitoring_system : monitoring_system.MonitoringSystem;
  learning_module : learning_module.LearningModule;
  infra_manager : infrastructure_manager.InfrastructureManager;
  project_context : option ProjectContext;
  is_running : bool
}.

Record AgentStatus := mkAgentStatus {
  status_is_running : bool;
  status_project_context : option ProjectContext;
  monitoring_status : monitoring_system.MonitoringStatus;
  infrastructure_status : infrastructure_manager.InfrastructureStatus;
  last_decisions : list decision_engine.DecisionReport
}.

Definition get_status (self : DevOpsAgent) : M AgentStatus :=
  monitoring <- monitoring_system.get_status (monitoring_system self) ;;
  infrastructure <- infrastructure_manager.get_status (infra_manager self) ;;
  decisions <- decision_engine.get_recent_decisions (decision_engine self) ;;
  ret {| status_is_running := is_running self;
         status_project_context := project_context self;
         monitoring_status := monitoring;
         infrastructure_status := infrastructure;
         last_decisions := decisions |}.

End devops_agent.

(** ** decision_engine.py, continued: the planning operations

    They build the plans that the executor and the infrastructure
    manager read, so they come after the types of [action_executor]. *)

Module decision_engine_planning.
Import decision_engine action_executor.

(** [d[key] = v]: the value of a present key is replaced in place, a new
    key goes to the end *)
Fixpoint dict_set (d : dict) (key : string) (v : pyval) : dict :=
  match d with
  | [] => [(key, v)]
  | (k, x) :: d' =>
      if String.eqb k key then (k, v) :: d' else (k, x) :: dict_set d' key v
  end.

(** [x in l] for a list of strings *)
Definition str_in (x : string) (l : list string) : bool := existsb (String.eqb x) l.

(** [v != "literal"] *)
Definition neq_str (v : pyval) (s : string) : bool := negb (eq_str v s).

Definition digit_value (c : ascii) : option Z :=
  let n := nat_of_ascii c in
  if ((48 <=? n) && (n <=? 57))%nat then Some (Z.of_nat (n - 48)) else None.

(** the white space [int] and [strip] skip, of the ASCII range *)
Definition is_space (c : ascii) : bool :=
  let n := nat_of_ascii c in
  ((9 <=? n) && (n <=? 13) || (28 <=? n) && (n <=? 32))%nat.

Fixpoint lstrip (s : string) : string :=
  match s with
  | EmptyString => EmptyString
  | String c s' => if is_space c then lstrip s' else s
  end.

Fixpoint rstrip (s : string) : string :=
  match s with
  | EmptyString => EmptyString
  | String c s' =>
      match rstrip s' with
      | EmptyString => if is_space c then EmptyString else String c EmptyString
      | r => String c r
      end
  end.

(** decimal digits, single underscores allowed between two digits *)
Fixpoint parse_digits (acc : Z) (after_digit : bool) (s : string) : option Z :=
  match s with
  | EmptyString => if after_digit then Some acc else None
  | String c s' =>
      match digit_value c with
      | Some d => parse_digits (10 * acc + d) true s'
      | None =>
          if Ascii.eqb c "_" && after_digit then parse_digits acc false s' else None
      end
  end.

(** [int(s)] of an ASCII text: white space around, a sign, decimal
    digits; [None] is the [ValueError] of any other text *)
Definition py_int_of_string (s : string) : option Z :=
  match rstrip (lstrip s) with
  | String "-" digits => option_map Z.opp (parse_digits 0 false digits)
  | String "+" digits => parse_digits 0 false digits
  | digits => parse_digits 0 false digits
  end.

(** [s[:-2]] *)
Definition drop_last_two (s : string) : string := drop_last_char (drop_last_char s).

(** [base_requirements], a dictionary with four constant keys *)
Record ComputeRequirements := mkComputeRequirements {
  cpu : Z;
  memory : string;
  storage : string;
  instances : Z
}.

(** [None] stands for the [ValueError] that [int] raises on a memory
    text that is not a number followed by two characters. *)
Definition _analyze_compute_requirements (self : DecisionEngine)
    (context : ProjectContext) : option ComputeRequirements :=
  let base_requirements :=
    {| cpu := 1; memory := "1GB"; storage := "10GB"; instances := 1 |} in
  (* Scale based on project type and complexity *)
  let base_requirements :=
    if str_in (project_type context) ["web_backend"; "backend"] then
      {| cpu := 2; memory := "2GB";
         storage := storage base_requirements;
         instances := instances base_requirements |}
    else base_requirements in
  (* Scale based on expected load *)
  let scale :=
    dict_get (performance_requirements context) "estimated_scale" (PStr "small") in
  let scaled :=
    if eq_str scale "medium" then
      match py_int_of_string (drop_last_two (memory base_requirements)) with
      | None => None
      | Some gigabytes =>
          Some {| cpu := cpu base_requirements * 2;
                  memory := pretty (gigabytes * 2) +:+ "GB";
                  storage := storage base_requirements;
                  instances := 2 |}
      end
    else if eq_str scale "large" then
      match py_int_of_string (drop_last_two (memory base_requirements)) with
      | None => None
      | Some gigabytes =>
          Some {| cpu := cpu base_requirements * 4;
                  memory := pretty (gigabytes * 4) +:+ "GB";
                  storage := storage base_requirements;
                  instances := 3 |}
      end
    else Some base_requirements in
  (* Adjust for specific requirements *)
  match scaled with
  | None => None
  | Some base_requirements =>
      if truthy (dict_get (performance_requirements context) "caching" PNone) then
        match py_int_of_string (drop_last_two (memory base_requirements)) with
        | None => None
        | Some gigabytes =>
            Some {| cpu := cpu base_requirements;
                    memory := float_str (inject_Z gigabytes * 1.5) +:+ "GB";
                    storage := storage base_requirements;
                    instances := instances base_requirements |}
        end
      else Some base_requirements
  end.

Definition _plan_database_infrastructure (self : DecisionEngine)
    (databases : list string) : dict :=
  fold_left
    (fun db_plan db =>
       if String.eqb db "postgresql" then
         dict_set db_plan "postgresql"
           (PDict [("instance_type", PStr "db.t3.micro"); ("storage", PStr "20GB");
                   ("backup_retention", PStr "7d"); ("multi_az", PBool false)])
       else if String.eqb db "redis" then
         dict_set db_plan "redis"
           (PDict [("instance_type", PStr "cache.t3.micro"); ("memory", PStr "1GB");
                   ("backup", PBool true)])
       else if String.eqb db "mongodb" then
         dict_set db_plan "mongodb"
           (PDict [("instance_type", PStr "t3.small"); ("storage", PStr "20GB");
                   ("replica_set", PBool false)])
       else db_plan)
    databases [].

Definition _plan_security_infrastructure (self : DecisionEngine)
    (context : ProjectContext) : dict :=
  let security_plan :=
    [("firewall", PBool true); ("waf", PBool false); ("ssl_certificates", PBool true);
     ("secret_management", PBool false); ("vulnerability_scanning", PBool false)] in
  let security_plan :=
    if str_in "authentication" (security_requirements context)
    then dict_set security_plan "identity_management" (PBool true)
    else security_plan in
  let security_plan :=
    if str_in "tls_encryption" (security_requirements context)
    then dict_set (dict_set security_plan "ssl_certificates" (PBool true))
                  "force_https" (PBool true)
    else security_plan in
  let security_plan :=
    if str_in "secret_management" (security_requirements context)
    then dict_set security_plan "secret_management" (PBool true)
    else security_plan in
  let security_plan :=
    if neq_str (dict_get (performance_requirements context) "estimated_scale" PNone)
               "small"
    then dict_set (dict_set security_plan "waf" (PBool true))
                  "vulnerability_scanning" (PBool true)
    else security_plan in
  security_plan.

Definition _plan_scaling_configuration (self : DecisionEngine)
    (context : ProjectContext) : dict :=
  let scaling_config :=
    [("enabled", PBool true); ("min_instances", PInt 1); ("max_instances", PInt 3);
     ("target_cpu", PInt 70); ("target_memory", PInt 80);
     ("scale_up_threshold", PInt 2); ("scale_down_threshold", PInt 5)] in
  let scale :=
    dict_get (performance_requirements context) "estimated_scale" (PStr "small") in
  if eq_str scale "medium" then
    dict_set scaling_config "max_instances" (PInt 5)
  else if eq_str scale "large" then
    dict_set (dict_set scaling_config "max_instances" (PInt 10))
             "min_instances" (PInt 2)
  else scaling_config.

(** The infrastructure plan; the key "databases" exists only when the
    project uses a database. *)
Record InfrastructurePlan := mkInfrastructurePlan {
  plan_cloud_provider : pyval;      (* key "cloud_provider" *)
  services : list pyval;
  networking : dict;
  security : dict;
  monitoring : dict;
  scaling : dict;
  compute : ComputeRequirements;
  databases : option dict
}.

(** [None] when the compute sizing raises. *)
Definition create_infrastructure_plan (self : DecisionEngine)
    (context : ProjectContext) : option InfrastructurePlan :=
  (* Determine compute requirements *)
  match _analyze_compute_requirements self context with
  | None => None
  | Some compute_req =>
      let estimated_scale :=
        dict_get (performance_requirements context) "estimated_scale" PNone in
      Some
        {| plan_cloud_provider :=
             dict_get (decision_engine.config self) "default_cloud" (PStr "aws");
           services := [];
           (* Load balancing and networking *)
           networking :=
             if eq_str estimated_scale "medium" || eq_str estimated_scale "large"
             then [("load_balancer", PBool true); ("cdn", PBool true);
                   ("vpc", PBool true)]
             else [];
           (* Security infrastructure *)
           security := _plan_security_infrastructure self context;
           (* Monitoring and observability *)
           monitoring :=
             [("metrics", PBool true); ("logs", PBool true);
              ("tracing", PBool (neq_str estimated_scale "small"));
              ("alerting", PBool true)];
           (* Auto-scaling configuration *)
           scaling := _plan_scaling_configuration self context;
           compute := compute_req;
           (* Database requirements *)
           databases :=
             match database_usage context with
             | [] => None
             | _ => Some (_plan_database_infrastructure self (database_usage context))
             end |}
  end.

Definition _get_build_config (self : DecisionEngine) (context : ProjectContext) : dict :=
  if String.eqb (project_type context) "nodejs" || str_in "npm" (build_tools context) then
    [("runtime", PStr "nodejs"); ("version", PStr "18");
     ("install_cmd", PStr "npm ci"); ("build_cmd", PStr "npm run build");
     ("artifact_path", PStr "dist/")]
  else if String.eqb (project_type context) "python" then
    [("runtime", PStr "python"); ("version", PStr "3.9");
     ("install_cmd", PStr "pip install -r requirements.txt");
     ("build_cmd", PStr "python setup.py build");
     ("artifact_path", PStr "build/")]
  else if String.eqb (project_type context) "java" then
    let maven := str_in "maven" (build_tools context) in
    [("runtime", PStr "java"); ("version", PStr "11");
     ("build_tool", PStr (if maven then "maven" else "gradle"));
     ("build_cmd", PStr (if maven then "mvn package" else "./gradlew build"));
     ("artifact_path", PStr (if maven then "target/" else "build/libs/"))]
  else
    [("runtime", PStr "docker"); ("dockerfile", PStr "Dockerfile")].

Definition _create_pipeline_stages (self : DecisionEngine) (context : ProjectContext)
    : list Stage :=
  let stages :=
    [ {| stage_name := "source"; stage_type := "source_control";
         stage_config := [("trigger", PStr "push"); ("branch", PStr "main")] |};
      {| stage_name := "build"; stage_type := "build";
         stage_config := _get_build_config self context |};
      {| stage_name := "test"; stage_type := "test";
         stage_config := [("parallel", PBool true); ("coverage_threshold", PInt 80)] |} ] in
  (* Add security scanning if required *)
  let stages :=
    match security_requirements context with
    | [] => stages
    | _ => stages ++
           [ {| stage_name := "security_scan"; stage_type := "security";
                stage_config := [("sast", PBool true);
                                 ("dependency_check", PBool true)] |} ]
    end in
  (* Add deployment stages *)
  stages ++
  [ {| stage_name := "deploy_staging"; stage_type := "deploy";
       stage_config := [("environment", PStr "staging"); ("auto_approve", PBool true)] |};
    {| stage_name := "integration_tests"; stage_type := "test";
       stage_config := [("environment", PStr "staging");
                        ("type", PStr "integration")] |};
    {| stage_name := "deploy_production"; stage_type := "deploy";
       stage_config := [("environment", PStr "production");
                        ("auto_approve", PBool false)] |} ].

Definition create_deployment_plan (self : DecisionEngine) (context : ProjectContext)
    : DeploymentPlan :=
  (* Determine deployment strategy *)
  let strategy :=
    if eq_str (dict_get (deployment_requirements context) "scaling_requirements" PNone)
              "high"
    then "blue_green"
    else if eq_str (dict_get (performance_requirements context) "estimated_scale" PNone)
                   "large"
    then "canary"
    else "rolling" in
  {| strategy := strategy;
     (* Build pipeline stages *)
     stages := _create_pipeline_stages self context;
     (* Testing configuration *)
     testing :=
       [("unit_tests", PBool true); ("integration_tests", PBool true);
        ("performance_tests",
         PBool (neq_str (dict_get (performance_requirements context)
                                  "estimated_scale" PNone) "small"));
        ("security_tests",
         PBool (0 <? length (security_requirements context))%nat)];
     (* Rollback strategy *)
     rollback :=
       [("automatic", PBool true);
        ("conditions", PList [PStr "error_rate > 5%"; PStr "response_time > 2s"]);
        ("max_rollback_time", PStr "5m")];
     notifications := [] |}.

End decision_engine_planning.

(** ** devops_agent.py, continued: the deployment operation *)

Module devops_agent_operations.
Import devops_agent.

(** what the operations of the agent raise themselves *)
Inductive agent_exn :=
| ValueError (msg : string).

(** [deploy] needs the context of an analyzed repository; with one it
    plans the deployment and executes the plan. The agent is not
    changed. *)
Definition deploy (self : DevOpsAgent)
    : M (agent_exn + action_executor.DeploymentResults) :=
  match project_context self with
  | None => ret (inl (ValueError "Must analyze repository first"))
  | Some context =>
      (* Create deployment plan *)
      let deployment_plan :=
        decision_engine_planning.create_deployment_plan (decision_engine self)
          context in
      (* Execute deployment *)
      deployment_result <-
        action_executor.execute_deployment (action_executor self) deployment_plan ;;
      ret (inr deployment_result)
  end.

End devops_agent_operations.

(** ** learning_module.py, continued: outcomes, patterns, recommendations *)

Module learning_module_updates.
Import decision_engine learning_module.

(** [performance_patterns]. A key "timing_<action>" holds a dictionary
    from the hour to a list of scores, a key
    "context_<action>_<category>" holds a list of scores; the two kinds
    of key differ in their first letter, and each kind has its map
    here. The dictionary of the hours keeps the order in which the
    hours came, which [get_decision_recommendations] follows. *)
Record PerformancePatterns := mkPerformancePatterns {
  timing_patterns : gmap string (list (Z * list Q));
  context_patterns : gmap string (list Q)
}.

(** The learning module with its patterns. *)
Record Learner := mkLearner {
  module : LearningModule;
  performance_patterns : PerformancePatterns
}.

(** [LearningModule(config)] *)
Definition __init__ (config : dict) : Learner :=
  {| module := learning_module.__init__ config;
     performance_patterns :=
       {| timing_patterns := ∅; context_patterns := ∅ |} |}.

Definition with_module (self : Learner) (m : LearningModule) : Learner :=
  {| module := m; performance_patterns := performance_patterns self |}.

(** [max(a, b)] and [min(a, b)] *)
Definition py_max (a b : Q) : Q := if Qltb a b then b else a.
Definition py_min (a b : Q) : Q := if Qltb b a then b else a.

Definition _simulate_system_state_after_action (self : Learner)
    (decision : Decision) (before_state : SystemState) : M SystemState :=
  let action := action_value (action_type decision) in
  (* Simulate improvements based on action type *)
  if String.eqb action "scale_up" then
    (* Scaling up should reduce CPU and improve response time *)
    u <- uniform 10 25 ;;
    let cpu := py_max 10 (cpu_usage before_state - u)%Q in
    u <- uniform 0.2 0.8 ;;
    let response := py_max 0.1 (response_time before_state - u)%Q in
    ret {| cpu_usage := cpu;
           memory_usage := memory_usage before_state;
           disk_usage := disk_usage before_state;
           network_usage := network_usage before_state;
           response_time := response;
           error_rate := error_rate before_state;
           request_count := request_count before_state;
           service_health := service_health before_state;
           alerts := alerts before_state;
           deployment_status := deployment_status before_state;
           last_deployment := last_deployment before_state |}
  else if String.eqb action "scale_down" then
    (* Scaling down might increase CPU slightly but save costs *)
    u <- uniform 5 15 ;;
    let cpu := py_min 100 (cpu_usage before_state + u)%Q in
    ret {| cpu_usage := cpu;
           memory_usage := memory_usage before_state;
           disk_usage := disk_usage before_state;
           network_usage := network_usage before_state;
           response_time := response_time before_state;
           error_rate := error_rate before_state;
           request_count := request_count before_state;
           service_health := service_health before_state;
           alerts := alerts before_state;
           deployment_status := deployment_status before_state;
           last_deployment := last_deployment before_state |}
  else if String.eqb action "restart_service" then
    (* Restarting should improve error rate and response time *)
    u <- uniform 2 5 ;;
    let errors := py_max 0 (error_rate before_state - u)%Q in
    u <- uniform 0.3 1.0 ;;
    let response := py_max 0.1 (response_time before_state - u)%Q in
    ret {| cpu_usage := cpu_usage before_state;
           memory_usage := memory_usage before_state;
           disk_usage := disk_usage before_state;
           network_usage := network_usage before_state;
           response_time := response;
           error_rate := errors;
           request_count := request_count before_state;
           service_health := service_health before_state;
           alerts := alerts before_state;
           deployment_status := deployment_status before_state;
           last_deployment := last_deployment before_state |}
  else if String.eqb action "heal_service" then
    (* Healing should restore service health: a service that was not
       healthy is healthy with the next draw above 0.2; the keys of the
       dictionary are distinct, so the value of the key in the state
       before is the value of the entry *)
    health <-
      for_each (service_health before_state)
        (fun '(service, was_healthy) health =>
           if negb was_healthy then
             r <- random ;; ret (health ++ [(service, Qgtb r 0.2)])
           else ret (health ++ [(service, was_healthy)]))
        [] ;;
    ret {| cpu_usage := cpu_usage before_state;
           memory_usage := memory_usage before_state;
           disk_usage := disk_usage before_state;
           network_usage := network_usage before_state;
           response_time := response_time before_state;
           error_rate := error_rate before_state;
           request_count := request_count before_state;
           service_health := health;
           alerts := alerts before_state;
           deployment_status := deployment_status before_state;
           last_deployment := last_deployment before_state |}
  else if String.eqb action "optimize_performance" then
    (* Performance optimization should improve multiple metrics *)
    u <- uniform 5 15 ;;
    let cpu := py_max 5 (cpu_usage before_state - u)%Q in
    u <- uniform 5 20 ;;
    let memory := py_max 5 (memory_usage before_state - u)%Q in
    u <- uniform 0.1 0.5 ;;
    let response := py_max 0.1 (response_time before_state - u)%Q in
    ret {| cpu_usage := cpu;
           memory_usage := memory;
           disk_usage := disk_usage before_state;
           network_usage := network_usage before_state;
           response_time := response;
           error_rate := error_rate before_state;
           request_count := request_count before_state;
           service_health := service_health before_state;
           alerts := alerts before_state;
           deployment_status := deployment_status before_state;
           last_deployment := last_deployment before_state |}
  else ret before_state.

Definition _simulate_action_outcome (self : Learner) (decision : Decision)
    (system_state : SystemState) : M ActionOutcome :=
  (* Simulate execution success (90% success rate) *)
  r <- random ;;
  let execution_success := Qgtb r 0.1 in
  (* Simulate system state after action *)
  system_state_after <-
    _simulate_system_state_after_action self decision system_state ;;
  (* Calculate outcome metrics *)
  let outcome_metrics := _calculate_outcome_metrics system_state system_state_after in
  t <- now ;;
  ret {| decision := decision;
         execution_success := execution_success;
         system_state_before := system_state;
         system_state_after := Some system_state_after;
         outcome_metrics := outcome_metrics;
         timestamp := t |}.

(** [metric_list[:] = metric_list[-n:]] when the list is longer than [n] *)
Definition keep_last {A} (n : nat) (l : list A) : list A :=
  if (n <? length l)%nat then last_n n l else l.

Definition _update_decision_effectiveness (self : Learner) (outcome : ActionOutcome)
    : Learner :=
  let action_type := action_value (action_type (decision outcome)) in
  let effectiveness := decision_effectiveness (module self) in
  (* [self.decision_effectiveness[action_type]] of a [defaultdict(dict)] *)
  let tracked := default ∅ (effectiveness !! action_type) in
  (* Track success rate *)
  let tracked :=
    match tracked !! "success_rate" with
    | None => <["success_rate" := []]> tracked
    | Some _ => tracked
    end in
  let tracked :=
    <["success_rate" :=
        default [] (tracked !! "success_rate")
        ++ [if execution_success outcome then 1.0%Q else 0.0%Q]]> tracked in
  (* Track effectiveness *)
  let tracked :=
    match tracked !! "effectiveness" with
    | None => <["effectiveness" := []]> tracked
    | Some _ => tracked
    end in
  let tracked :=
    <["effectiveness" :=
        default [] (tracked !! "effectiveness")
        ++ [default 0.0%Q (outcome_metrics outcome !! "overall_effectiveness")]]>
      tracked in
  (* Keep only recent data (last 100 actions per type) *)
  let tracked := keep_last 100 <$> tracked in
  with_module self
    {| config := config (module self);
       action_history := action_history (module self);
       decision_effectiveness := <[action_type := tracked]> effectiveness;
       learned_thresholds := learned_thresholds (module self) |}.

(** [buckets[hour].append(x)], with the hour created at the end of the
    dictionary on its first use, and the list cut to its last [n] *)
Fixpoint append_at_hour (buckets : list (Z * list Q)) (hour : Z) (x : Q) (n : nat)
    : list (Z * list Q) :=
  match buckets with
  | [] => [(hour, keep_last n [x])]
  | (h, scores) :: rest =>
      if h =? hour then (h, keep_last n (scores ++ [x])) :: rest
      else (h, scores) :: append_at_hour rest hour x n
  end.

Definition _learn_timing_patterns (self : Learner) (outcome : ActionOutcome) : Learner :=
  (* Learn time-based patterns (e.g., when to scale during day/night) *)
  let hour := hour_of (timestamp outcome) in
  let action_type := action_value (action_type (decision outcome)) in
  let effectiveness :=
    default 0.0%Q (outcome_metrics outcome !! "overall_effectiveness") in
  let pattern_key := "timing_" +:+ action_type in
  let patterns := timing_patterns (performance_patterns self) in
  let buckets := default [] (patterns !! pattern_key) in
  (* Keep only recent data *)
  let buckets := append_at_hour buckets hour effectiveness 20 in
  {| module := module self;
     performance_patterns :=
       {| timing_patterns := <[pattern_key := buckets]> patterns;
          context_patterns := context_patterns (performance_patterns self) |} |}.

Definition _categorize_system_state (state : SystemState) : string :=
  if Qgtb (cpu_usage state) 80 || Qgtb (memory_usage state) 80 then "high_load"
  else if Qltb (cpu_usage state) 30 && Qltb (memory_usage state) 40 then "low_load"
  else if Qgtb (error_rate state) 5 then "high_errors"
  else if Qgtb (response_time state) 2.0 then "slow_response"
  else "normal".

Definition _learn_context_patterns (self : Learner) (outcome : ActionOutcome) : Learner :=
  (* Learn which actions work best in different system states *)
  let action_type := action_value (action_type (decision outcome)) in
  let effectiveness :=
    default 0.0%Q (outcome_metrics outcome !! "overall_effectiveness") in
  (* Categorize system state *)
  let state_category := _categorize_system_state (system_state_before outcome) in
  let pattern_key := "context_" +:+ action_type +:+ "_" +:+ state_category in
  let patterns := context_patterns (performance_patterns self) in
  let scores := default [] (patterns !! pattern_key) ++ [effectiveness] in
  (* Keep only recent data *)
  let scores := keep_last 30 scores in
  {| module := module self;
     performance_patterns :=
       {| timing_patterns := timing_patterns (performance_patterns self);
          context_patterns := <[pattern_key := scores]> patterns |} |}.

(** No statement of the three learners can raise on an outcome of this
    type, so the [except] clause is not reached. *)
Definition _learn_patterns (self : Learner) (outcome : ActionOutcome) : Learner :=
  (* Learn optimal thresholds *)
  let self := with_module self (_learn_optimal_thresholds (module self) outcome) in
  (* Learn timing patterns *)
  let self := _learn_timing_patterns self outcome in
  (* Learn context-specific patterns *)
  _learn_context_patterns self outcome.




(** [sum(l) / len(l)] *)
Definition mean (l : list Q) : Q :=
  (fold_left Qplus l 0 / inject_Z (Z.of_nat (length l)))%Q.

Record Recommendations := mkRecommendations {
  confidence : Q;
  suggested_threshold : option Q;
  best_timing : option Z;
  expected_effectiveness : Q
}.

(** The loop over the hours of a timing pattern: the best average so
    far and its hour. *)
Definition best_hour_of (timing_data : list (Z * list Q)) : option Z :=
  snd (fold_left
         (fun '(best_effectiveness, best_hour) '(hour, effectiveness_list) =>
            match effectiveness_list with
            | [] => (best_effectiveness, best_hour)
            | _ =>
                let avg_effectiveness := mean effectiveness_list in
                if Qgtb avg_effectiveness best_effectiveness
                then (avg_effectiveness, Some hour)
                else (best_effectiveness, best_hour)
            end)
         timing_data (0%Q, None)).

(** The divisions are by the length of a list that is not empty, so the
    [except] clause is not reached. *)
Definition get_decision_recommendations (self : Learner) (action_type : string)
    (system_state : SystemState) : Recommendations :=
  let tracked := decision_effectiveness (module self) !! action_type in
  (* Get success rate for this action type *)
  let confidence :=
    match tracked with
    | Some metrics =>
        match default [] (metrics !! "success_rate") with
        | [] => 0.0%Q
        | success_rates => mean success_rates
        end
    | None => 0.0%Q
    end in
  let expected_effectiveness :=
    match tracked with
    | Some metrics =>
        match default [] (metrics !! "effectiveness") with
        | [] => 0.0%Q
        | effectiveness_scores => mean effectiveness_scores
        end
    | None => 0.0%Q
    end in
  (* Get optimal threshold recommendations *)
  let threshold_key := action_type +:+ "_cpu_threshold" in
  let suggested_threshold :=
    match learned_thresholds (module self) !! threshold_key with
    | Some (x :: thresholds) => Some (mean (x :: thresholds))
    | _ => None
    end in
  (* Get timing recommendations *)
  let timing_key := "timing_" +:+ action_type in
  let best_timing :=
    match timing_patterns (performance_patterns self) !! timing_key with
    | Some timing_data => best_hour_of timing_data
    | None => None
    end in
  {| confidence := confidence;
     suggested_threshold := suggested_threshold;
     best_timing := best_timing;
     expected_effectiveness := expected_effectiveness |}.

End learning_module_updates.

(* ================================================================== *)
(** * Part II: the vocabulary of the properties *)
(* ================================================================== *)

(** ** Worlds and inputs used as examples *)

(** a clock that advances by a microsecond at every reading *)
Definition steady_clock (k : nat) : Z := 1700000000000000 + Z.of_nat k.

(** every command succeeds *)
Definition calm_world : World :=
  {| clock := steady_clock; clock_reads := 0;
     rng := fun _ => 1%Q; rng_reads := 0;
     normal := fun _ => 0%Q; normal_reads := 0;
     trace := [] |}.

(** every command fails *)
Definition failing_world : World :=
  {| clock := steady_clock; clock_reads := 0;
     rng := fun _ => 0%Q; rng_reads := 0;
     normal := fun _ => 0%Q; normal_reads := 0;
     trace := [] |}.

(** the clock stands still *)
Definition frozen_world : World :=
  {| clock := fun _ => 1700000000000000; clock_reads := 0;
     rng := fun _ => 1%Q; rng_reads := 0;
     normal := fun _ => 0%Q; normal_reads := 0;
     trace := [] |}.

Definition python_project : ProjectContext :=
  {| repo_url := "https://example.org/app.git"; project_type := "python";
     languages := ["python"]; frameworks := []; dependencies := [];
     structure := []; deployment_requirements := []; security_requirements := [];
     performance_requirements := []; database_usage := []; api_endpoints := [];
     environment_variables := []; build_tools := [] |}.

(** ** Decision engine *)

Module decision_spec.
Import decision_engine.

Definition priority_key (d : Decision) : Z := priority_value (priority d).

(** [d1] is at least as urgent as [d2] *)
Definition priority_ge (d1 d2 : Decision) : Prop := priority_key d2 <= priority_key d1.

Definition priority_eqb (p q : Priority) : bool := priority_value p =? priority_value q.

(** the decisions of priority [p], in their order in [l] *)
Definition with_priority (p : Priority) (l : list Decision) : list Decision :=
  List.filter (fun d => priority_eqb (priority d) p) l.

(** the decisions of [l] grouped by priority, most urgent first, each
    group in its order in [l] *)
Definition by_priority (l : list Decision) : list Decision :=
  with_priority CRITICAL l ++ with_priority HIGH l
  ++ with_priority MEDIUM l ++ with_priority LOW l.

Definition not_heal (d : Decision) : Prop := action_type d <> HEAL_SERVICE.

(** the timestamp of [d] is a reading of the clock [c] *)
Definition stamped (c : nat -> Z) (d : Decision) : Prop := exists k, timestamp d = c k.

(** the services marked unhealthy, in the order of the dictionary *)
Definition unhealthy (health : list (string * bool)) : list string :=
  List.map fst (List.filter (fun kv => negb (snd kv)) health).

(** a [heal_service] decision at CRITICAL priority that targets [service] *)
Definition is_heal_for (service : string) (d : Decision) : bool :=
  match action_type d, priority d with
  | HEAL_SERVICE, CRITICAL => String.eqb (target d) service
  | _, _ => false
  end.

Definition is_action (a : ActionType) (d : Decision) : bool :=
  String.eqb (action_value (action_type d)) (action_value a).

(** the history [make_decisions] keeps when it reads the clock at [t] *)
Definition recent_history (t : Z) (history : list Decision) : list Decision :=
  List.filter (fun d => t - timedelta_hours 24 <? timestamp d) history.

(** any two readings of the clock are less than 24 hours apart *)
Definition within_a_day (c : nat -> Z) : Prop :=
  forall i j, c j - c i < timedelta_hours 24.

(** the engine with another configuration *)
Definition with_config (config' : dict) (self : DecisionEngine) : DecisionEngine :=
  {| config := config';
     decision_history := decision_history self;
     thresholds := thresholds self |}.

Definition flags_off : dict := [("auto_scale", PBool false); ("auto_heal", PBool false)].

Definition quiet_state (health : list (string * bool)) : SystemState :=
  {| cpu_usage := 50; memory_usage := 50; disk_usage := 35; network_usage := 25;
     response_time := 0.8; error_rate := 1.5; request_count := 150;
     service_health := health; alerts := [];
     deployment_status := "stable"; last_deployment := None |}.

Definition six_unhealthy : list (string * bool) :=
  [("web", false); ("api", false); ("database", false); ("cache", false);
   ("queue", false); ("search", false)].

(** six decisions are due: three of the performance analyzer and three
    of the health analyzer *)
Definition busy_state : SystemState :=
  {| cpu_usage := 95; memory_usage := 95; disk_usage := 95; network_usage := 25;
     response_time := 5; error_rate := 10; request_count := 150;
     service_health := [("web", false); ("api", true)]; alerts := [];
     deployment_status := "stable"; last_deployment := None |}.

End decision_spec.

(** ** Action executor *)

Module executor_spec.
Import decision_engine action_executor.

(** run every stage of the list, one after the other *)
Fixpoint run_all (self : ActionExecutor) (stages : list Stage)
    : M (list ExecutionResult) :=
  match stages with
  | [] => ret []
  | stage :: rest =>
      result <- _execute_pipeline_stage self stage ;;
      results <- run_all self rest ;;
      ret (result :: results)
  end.

(** the stage failed and is not the production deploy *)
Definition aborts (stage : Stage) (result : ExecutionResult) : bool :=
  negb (success result) && negb (String.eqb (stage_name stage) "deploy_production").

(** the deployment that runs the first [n] stages of the plan and no
    other *)
Definition deployment_of_first (n : nat) (self : ActionExecutor)
    (plan : DeploymentPlan) : M DeploymentResults :=
  t_id <- now ;;
  t_start <- now ;;
  results <- run_all self (take n (stages plan)) ;;
  t_end <- now ;;
  ret {| overall_success := forallb success results;
         stage_results := results;
         deployment_id := "deploy-" +:+ strftime_compact t_id;
         start_time := t_start;
         end_time := Some t_end;
         error := None |}.

(** the k-th draw of the random source makes a command succeed *)
Definition command_succeeds (draws : nat -> Q) (k : nat) : bool := Qgtb (draws k) 0.1.

(** among the [n] draws that start at [from], the number of failures
    before the first success *)
Fixpoint first_success (draws : nat -> Q) (from n : nat) : option nat :=
  match n with
  | O => None
  | S n' =>
      if command_succeeds draws from then Some O
      else option_map S (first_success draws (S from) n')
  end.

Definition restart_command (target : string) : string := "systemctl restart " +:+ target.

(** what a failed attempt leaves in the trace: the command, the second
    it takes, and the delay before the next attempt *)
Definition failed_attempt (target : string) : list event :=
  [Command (restart_command target); Sleep 1; Sleep 5].
Definition successful_attempt (target : string) : list event :=
  [Command (restart_command target); Sleep 1].
Fixpoint failed_attempts (n : nat) (target : string) : list event :=
  match n with
  | O => []
  | S n' => failed_attempt target ++ failed_attempts n' target
  end.

(** the commands of a trace *)
Definition commands_of (events : list event) : list string :=
  omap (fun e => match e with Command c => Some c | Sleep _ => None end) events.

Definition executor0 : ActionExecutor := __init__ [].

Definition production_then_test : DeploymentPlan :=
  {| strategy := "rolling";
     stages := [ {| stage_name := "deploy_production"; stage_type := "deploy";
                    stage_config := [("environment", PStr "production");
                                     ("auto_approve", PBool false)] |};
                 {| stage_name := "smoke"; stage_type := "test";
                    stage_config := [] |};
                 {| stage_name := "notify"; stage_type := "source_control";
                    stage_config := [] |} ];
     testing := []; rollback := []; notifications := [] |}.

Definition unknown_type_decision : Decision :=
  {| action_type := CREATE_ALERT; priority := LOW; target := "pager";
     parameters := []; reasoning := "notify the operator";
     decision_engine.timestamp := 0;
     expected_outcome := "operator informed"; rollback_plan := None |}.

(** a heal decision that leaves "action" and "max_attempts" to their
    defaults *)
Definition heal_by_default : Decision :=
  {| action_type := HEAL_SERVICE; priority := CRITICAL; target := "web";
     parameters := []; reasoning := "Service web is unhealthy";
     decision_engine.timestamp := 0;
     expected_outcome := "Service restoration"; rollback_plan := None |}.

Definition heal_with_text_attempts : Decision :=
  {| action_type := HEAL_SERVICE; priority := CRITICAL; target := "web";
     parameters := [("action", PStr "restart"); ("max_attempts", PStr "3")];
     reasoning := "Service web is unhealthy"; decision_engine.timestamp := 0;
     expected_outcome := "Service restoration"; rollback_plan := None |}.

End executor_spec.

(** ** Learning module *)

Module learning_spec.
Import decision_engine learning_module.

(** the key of the buffer the outcome feeds *)
Definition threshold_key (outcome : ActionOutcome) : string :=
  action_value (action_type (decision outcome)) +:+ "_cpu_threshold".

(** the overall effectiveness of the outcome *)
Definition effectiveness_of (outcome : ActionOutcome) : Q :=
  default 0.0%Q (outcome_metrics outcome !! "overall_effectiveness").

Definition is_scaling (outcome : ActionOutcome) : bool :=
  match action_type (decision outcome) with
  | SCALE_UP | SCALE_DOWN => true
  | _ => false
  end.

Definition buffer (self : LearningModule) (key : string) : list Q :=
  threshold_buffer (learned_thresholds self) key.

(** learn from the outcomes, one after the other *)
Definition learn_all (self : LearningModule) (outcomes : list ActionOutcome)
    : LearningModule :=
  fold_left _learn_optimal_thresholds outcomes self.

Definition scale_up_outcome (cpu effectiveness : Q) : ActionOutcome :=
  {| decision :=
       {| action_type := SCALE_UP; priority := HIGH; target := "compute";
          parameters := [("metric", PStr "cpu"); ("increase", PStr "25%")];
          reasoning := "CPU usage exceeds threshold";
          decision_engine.timestamp := 0;
          expected_outcome := "Reduced CPU load"; rollback_plan := None |};
     execution_success := true;
     system_state_before :=
       {| cpu_usage := cpu; memory_usage := 50; disk_usage := 35; network_usage := 25;
          response_time := 0.8; error_rate := 1.5; request_count := 150;
          service_health := []; alerts := []; deployment_status := "stable";
          last_deployment := None |};
     system_state_after := None;
     outcome_metrics := {[ "overall_effectiveness" := effectiveness ]};
     timestamp := 0 |}.

(** ten outcomes whose effectiveness alternates around 0.5 *)
Definition alternating_outcomes : list ActionOutcome :=
  [scale_up_outcome 81 0.6; scale_up_outcome 82 0.3;
   scale_up_outcome 83 0.8; scale_up_outcome 84 0.5;
   scale_up_outcome 85 1.0; scale_up_outcome 86 0.2;
   scale_up_outcome 87 0.6; scale_up_outcome 88 0.0;
   scale_up_outcome 89 0.7; scale_up_outcome 90 0.4].

End learning_spec.

(** ** Monitoring system and status report *)

Module monitoring_spec.
Import monitoring_system.

(** the instant of the last reading of the clock before the world [w'] *)
Definition last_reading (w' : World) : Z := clock w' (pred (clock_reads w')).

(** a clock that shows the same instant at every reading *)
Definition frozen (c : nat -> Z) : Prop := forall i j, c i = c j.

(** raised 10000 seconds before the first reading of [steady_clock] *)
Definition old_alert : Alert :=
  {| alert_id := "disk-alert-1699990000.0"; alert_type := "storage";
     alert_severity := "medium"; alert_message := "High disk usage: 91.0%";
     alert_timestamp := 1699990000000000 |}.

(** raised 10 seconds before the first reading of [steady_clock] *)
Definition young_alert : Alert :=
  {| alert_id := "cpu-alert-1699999990.0"; alert_type := "performance";
     alert_severity := "high"; alert_message := "High CPU usage: 95.0%";
     alert_timestamp := 1699999990000000 |}.

Definition idle_monitoring : MonitoringSystem :=
  {| config := []; is_monitoring := true; metrics_history := [];
     current_alerts := [old_alert; young_alert];
     monitoring_interval := PInt 60 |}.

Definition idle_agent : devops_agent.DevOpsAgent :=
  {| devops_agent.config := [];
     devops_agent.decision_engine := decision_engine.__init__ [];
     devops_agent.action_executor := action_executor.__init__ [];
     devops_agent.monitoring_system := idle_monitoring;
     devops_agent.learning_module := learning_module.__init__ [];
     devops_agent.infra_manager :=
       {| infrastructure_manager.manager_config := [];
          infrastructure_manager.cloud_provider := PStr "aws";
          infrastructure_manager.resources := [];
          infrastructure_manager.resource_status := [] |};
     devops_agent.project_context := Some python_project;
     devops_agent.is_running := true |}.

End monitoring_spec.

(** ** Worlds and analyzers, continued *)

(** the clock never goes back *)
Definition nondecreasing (c : nat -> Z) : Prop :=
  forall i j, (i <= j)%nat -> c i <= c j.

(** [w'] is what some operations make of [w]: the same sources, read
    further, and a longer trace *)
Definition later (w w' : World) : Prop :=
  clock w' = clock w /\ rng w' = rng w /\ normal w' = normal w /\
  (clock_reads w <= clock_reads w')%nat /\
  (rng_reads w <= rng_reads w')%nat /\
  (normal_reads w <= normal_reads w')%nat /\
  exists events, trace w' = trace w ++ events.

Module analyzer_spec.
Import decision_engine decision_spec.

(** the number of decisions of [l] that ask for the action [a] *)
Definition count_action (a : ActionType) (l : list Decision) : nat :=
  length (List.filter (is_action a) l).

(** the last deployment is less than an hour before [t] *)
Definition recently_deployed (state : SystemState) (t : Z) : bool :=
  match last_deployment state with
  | Some deployed => t - deployed <? timedelta_hours 1
  | None => false
  end.

(** the states agree on all that is not network usage, request count
    and deployment status *)
Definition same_readings (s1 s2 : SystemState) : Prop :=
  cpu_usage s1 = cpu_usage s2 /\ memory_usage s1 = memory_usage s2 /\
  disk_usage s1 = disk_usage s2 /\ response_time s1 = response_time s2 /\
  error_rate s1 = error_rate s2 /\ service_health s1 = service_health s2 /\
  alerts s1 = alerts s2 /\ last_deployment s1 = last_deployment s2.

(** every reading is within the thresholds of the engine, every service
    is healthy and there is no alert *)
Definition at_rest (self : DecisionEngine) (state : SystemState) : Prop :=
  (cpu_scale_down (thresholds self) <= cpu_usage state)%Q /\
  (cpu_usage state <= cpu_scale_up (thresholds self))%Q /\
  (memory_usage state <= memory_scale_up (thresholds self))%Q /\
  (response_time state <= response_time_threshold (thresholds self))%Q /\
  (error_rate state <= error_rate_threshold (thresholds self))%Q /\
  (disk_usage state <= disk_usage_threshold (thresholds self))%Q /\
  unhealthy (service_health state) = [] /\
  alerts state = [].

(** an idle machine in the small hours: 03:00 UTC *)
Definition night_world : World :=
  {| clock := fun k => 1700017200000000 + Z.of_nat k; clock_reads := 0;
     rng := fun _ => 1%Q; rng_reads := 0;
     normal := fun _ => 0%Q; normal_reads := 0;
     trace := [] |}.

Definition idle_state : SystemState :=
  {| cpu_usage := 12; memory_usage := 20; disk_usage := 35; network_usage := 25;
     response_time := 0.8; error_rate := 1.5; request_count := 150;
     service_health := [("web", true)]; alerts := [];
     deployment_status := "stable"; last_deployment := None |}.

(** errors half an hour after a deployment, and three hours after *)
Definition failing_state (deployed : Z) : SystemState :=
  {| cpu_usage := 50; memory_usage := 50; disk_usage := 35; network_usage := 25;
     response_time := 0.8; error_rate := 9; request_count := 150;
     service_health := [("web", false); ("api", true)]; alerts := [];
     deployment_status := "stable"; last_deployment := Some deployed |}.

End analyzer_spec.

(** ** Executor, continued *)

Module handler_spec.
Import decision_engine action_executor executor_spec.

(** what [get_execution_history] reports of a result *)
Definition report_of_result (result : ExecutionResult) : ExecutionReport :=
  {| report_success := success result;
     report_message := message result;
     report_execution_time := execution_time result;
     report_timestamp := timestamp result |}.

(** the provider is one of the three the scaling handlers have commands
    for *)
Definition known_provider (provider : pyval) : bool :=
  eq_str provider "aws" || eq_str provider "gcp" || eq_str provider "azure".

(** the events of [w'] that [w] does not have *)
Definition new_events (w w' : World) : list event :=
  drop (length (trace w)) (trace w').

(** a decision with the given action and parameters *)
Definition decision_for (a : ActionType) (target : string) (parameters : dict)
    : Decision :=
  {| action_type := a; priority := MEDIUM; target := target;
     parameters := parameters; reasoning := "operator request";
     decision_engine.timestamp := 0;
     expected_outcome := "as requested"; rollback_plan := None |}.

(** the command of the log cleanup for a retention text *)
Definition cleanup_command (retention : string) : string :=
  "find /var/log -name '*.log' -mtime +" +:+ drop_last_char retention +:+ " -delete".

(** the executor has a handler for the action of the decision, and the
    handler can read the parameters it uses *)
Definition executable (d : Decision) : bool :=
  match action_type d with
  | DEPLOY_UPDATE | CREATE_ALERT => false
  | HEAL_SERVICE =>
      match py_range (dict_get (parameters d) "max_attempts" (PInt 3)) with
      | Return _ => true
      | Raise _ => false
      end
  | OPTIMIZE_PERFORMANCE =>
      if eq_str (dict_get (parameters d) "action" PNone) "cleanup_logs" then
        match py_drop_last (dict_get (parameters d) "retention" (PStr "7d")) with
        | Return _ => true
        | Raise _ => false
        end
      else true
  | _ => true
  end.

(** the action has a branch of its own in [execute_action] *)
Definition handled (a : ActionType) : bool :=
  match a with
  | DEPLOY_UPDATE | CREATE_ALERT => false
  | _ => true
  end.

(** the two commands of a Node.js or Python build stage *)
Definition install_command (config : dict) : string :=
  py_str (dict_get config "install_cmd"
            (PStr (if eq_str (dict_get config "runtime" (PStr "docker")) "nodejs"
                   then "npm ci" else "pip install -r requirements.txt"))).
Definition build_command (config : dict) : string :=
  py_str (dict_get config "build_cmd"
            (PStr (if eq_str (dict_get config "runtime" (PStr "docker")) "nodejs"
                   then "npm run build" else "python setup.py build"))).

End handler_spec.

(** ** Plans *)

Module planning_spec.
Import decision_engine action_executor decision_engine_planning.

(** the databases the planner has an entry for *)
Definition known_databases : list string := ["postgresql"; "redis"; "mongodb"].

(** the switch [key] of the dictionary is on *)
Definition switched_on (d : dict) (key : string) : Prop :=
  dict_lookup d key = Some (PBool true).
Definition switched_off (d : dict) (key : string) : Prop :=
  dict_lookup d key = Some (PBool false).

(** the result failed and every stage before it in the list succeeded *)
Definition first_failure (results : list ExecutionResult) (i : nat) : Prop :=
  (exists r, results !! i = Some r /\ success r = false) /\
  forall j r, (j < i)%nat -> results !! j = Some r -> success r = true.

Definition with_context (agent : devops_agent.DevOpsAgent)
    (context : option ProjectContext) : devops_agent.DevOpsAgent :=
  {| devops_agent.config := devops_agent.config agent;
     devops_agent.decision_engine := devops_agent.decision_engine agent;
     devops_agent.action_executor := devops_agent.action_executor agent;
     devops_agent.monitoring_system := devops_agent.monitoring_system agent;
     devops_agent.learning_module := devops_agent.learning_module agent;
     devops_agent.infra_manager := devops_agent.infra_manager agent;
     devops_agent.project_context := context;
     devops_agent.is_running := devops_agent.is_running agent |}.

(** a Python web service that needs authentication and a cache, with
    two databases the planner knows and one it does not *)
Definition web_service : ProjectContext :=
  {| repo_url := "https://example.org/shop.git"; project_type := "web_backend";
     languages := ["python"]; frameworks := ["flask"]; dependencies := [];
     structure := []; deployment_requirements := [];
     security_requirements := ["authentication"];
     performance_requirements := [("estimated_scale", PStr "medium");
                                  ("caching", PBool true)];
     database_usage := ["postgresql"; "sqlite"; "redis"; "postgresql"];
     api_endpoints := []; environment_variables := []; build_tools := ["pip"] |}.

End planning_spec.

(** ** Learning, continued *)

Module learner_spec.
Import decision_engine learning_module learning_module_updates.

(** the overall effectiveness among the metrics of an outcome *)
Definition overall (metrics : gmap string Q) : Q :=
  default 0.0%Q (metrics !! "overall_effectiveness").

(** the score of [_calculate_outcome_metrics] for the four improvements
    it counts: CPU, response time, error rate, health *)
Definition score (cpu response errors health : bool) : Q :=
  let effectiveness := 0%Q in
  let effectiveness := if cpu then (effectiveness + 0.3)%Q else effectiveness in
  let effectiveness := if response then (effectiveness + 0.3)%Q else effectiveness in
  let effectiveness := if errors then (effectiveness + 0.2)%Q else effectiveness in
  if health then (effectiveness + 0.2)%Q else effectiveness.


(** the simulation has no branch for the action *)
Definition not_simulated (a : ActionType) : bool :=
  match a with
  | ROLLBACK | UPDATE_SECURITY | UPDATE_CONFIG | DEPLOY_UPDATE | CREATE_ALERT => true
  | _ => false
  end.

(** every draw of the random source is in [0, 1), as [random.random]
    has it *)
Definition unit_draws (w : World) : Prop := forall k, (0 <= rng w k)%Q /\ (rng w k < 1)%Q.

(** the scores of the module are scores, and no list of them is longer
    than the code lets it grow *)
Definition in_unit (x : Q) : Prop := (0 <= x)%Q /\ (x <= 1)%Q.

Definition tracked_well (tracked : gmap string (list Q)) : Prop :=
  (forall key scores, tracked !! key = Some scores ->
     (length scores <= 100)%nat /\ Forall in_unit scores) /\
  length (default [] (tracked !! "success_rate"))
  = length (default [] (tracked !! "effectiveness")).

Definition timed_well (buckets : list (Z * list Q)) : Prop :=
  NoDup (List.map fst buckets) /\
  Forall (fun bucket => 0 <= fst bucket < 24 /\ (length (snd bucket) <= 20)%nat /\
                        Forall in_unit (snd bucket)) buckets.

Definition well_kept (self : Learner) : Prop :=
  (forall action tracked,
     decision_effectiveness (module self) !! action = Some tracked ->
     tracked_well tracked) /\
  (forall key examples,
     learned_thresholds (module self) !! key = Some examples ->
     (length examples <= 50)%nat) /\
  (forall key buckets,
     timing_patterns (performance_patterns self) !! key = Some buckets ->
     timed_well buckets) /\
  (forall key scores,
     context_patterns (performance_patterns self) !! key = Some scores ->
     (length scores <= 30)%nat /\ Forall in_unit scores).


Definition scale_down_decision : Decision :=
  {| action_type := SCALE_DOWN; priority := LOW; target := "compute";
     parameters := [("metric", PStr "cpu"); ("decrease", PStr "20%")];
     reasoning := "CPU usage is below threshold"; decision_engine.timestamp := 0;
     expected_outcome := "Cost optimization while maintaining performance";
     rollback_plan := None |}.

(** every draw is one half *)
Definition even_world : World :=
  {| clock := steady_clock; clock_reads := 0;
     rng := fun _ => 0.5%Q; rng_reads := 0;
     normal := fun _ => 0%Q; normal_reads := 0;
     trace := [] |}.

End learner_spec.

(* ================================================================== *)
(** * Part III: the properties *)
(* ================================================================== *)

(** ** Runs of monadic code *)

Lemma bind_run {A B} (m : M A) (k : A -> M B) w b w' :
  bind m k w = (b, w') -> exists a w1, m w = (a, w1) /\ k a w1 = (b, w').
Proof. unfold bind. destruct (m w) as [a w1]. eauto. Qed.

Lemma ret_run {A} (a b : A) w w' : ret a w = (b, w') -> b = a /\ w' = w.
Proof. unfold ret. intros [= <- <-]. auto. Qed.

(** A loop keeps what every iteration keeps. *)
Lemma for_each_inv {A S} (I : S -> World -> Prop) (body : A -> S -> M S) (l : list A) :
  (forall x s w s1 w1, body x s w = (s1, w1) -> I s w -> I s1 w1) ->
  forall s w s' w', for_each l body s w = (s', w') -> I s w -> I s' w'.
Proof.
  intros Hbody. induction l as [|x l IH]; intros s w s' w' Hrun Hs; simpl in Hrun.
  - apply ret_run in Hrun as [-> ->]. exact Hs.
  - apply bind_run in Hrun as (s1 & w1 & Hx & Hrest).
    eapply IH; [exact Hrest|]. eapply Hbody; eauto.
Qed.

(** Take the runs of the context apart: binds, returns, effects, and
    the branches on conditions that are not variables. *)
Ltac run :=
  repeat match goal with
  | H : bind _ _ _ = (_, _) |- _ => apply bind_run in H as (? & ? & ? & H)
  | H : ret _ _ = (_, _) |- _ => apply ret_run in H as [? ?]; subst
  | H : now _ = (_, _) |- _ => unfold now in H; injection H as <- <-
  | H : random _ = (_, _) |- _ => unfold random in H; injection H as <- <-
  | H : sleep _ _ = (_, _) |- _ => unfold sleep, emit in H; injection H as <- <-
  | H : emit _ _ = (_, _) |- _ => unfold emit in H; injection H as <- <-
  | H : _ _ = (_, _) |- _ =>
      progress cbn [clock clock_reads rng rng_reads normal normal_reads trace] in H
  | H : (match ?o with Some _ => _ | None => _ end) _ = (_, _) |- _ =>
      tryif is_var o then fail else destruct o eqn:?
  | H : (if ?c then _ else _) _ = (_, _) |- _ =>
      tryif is_var c then fail else destruct c eqn:?
  end.

(** ** Lists *)

Lemma Forall_snoc {A} (P : A -> Prop) l x : Forall P l -> P x -> Forall P (l ++ [x]).
Proof. intros. apply Forall_app; split; [assumption|]. now constructor. Qed.

Lemma Forall_take {A} (P : A -> Prop) n (l : list A) : Forall P l -> Forall P (take n l).
Proof. intros H. rewrite <- (take_drop n l) in H. now apply Forall_app in H as [H _]. Qed.

Lemma filter_none {A} (f : A -> bool) (l : list A) :
  Forall (fun x => f x = false) l -> List.filter f l = [].
Proof. induction 1 as [|x l Hx _ IH]; simpl; [reflexivity|]. now rewrite Hx. Qed.

Lemma filter_prefix {A} (f : A -> bool) (l1 l2 : list A) :
  l1 `prefix_of` l2 -> List.filter f l1 `prefix_of` List.filter f l2.
Proof. intros [k ->]. rewrite List.filter_app. now exists (List.filter f k). Qed.

Lemma StronglySorted_take {A} (R : A -> A -> Prop) n (l : list A) :
  StronglySorted R l -> StronglySorted R (take n l).
Proof.
  intros H. rewrite <- (take_drop n l) in H. now apply StronglySorted_app_1_l in H.
Qed.

Lemma Forall2_In_r {A B} (R : A -> B -> Prop) l1 l2 y :
  Forall2 R l1 l2 -> In y l2 -> exists x, In x l1 /\ R x y.
Proof.
  induction 1 as [|x y' l1 l2 Hxy _ IH]; simpl; [tauto|].
  intros [->|Hin]; [eauto|]. destruct (IH Hin) as (x' & ? & ?). eauto.
Qed.

Lemma forallb_lookup_false {A} (f : A -> bool) (l : list A) i x :
  l !! i = Some x -> f x = false -> forallb f l = false.
Proof.
  revert i. induction l as [|y l IH]; intros [|i]; simpl; try discriminate.
  - intros [= ->] ->. reflexivity.
  - intros Hl Hx. rewrite (IH _ Hl Hx). apply andb_false_r.
Qed.

(** ** The stable sort *)

Section sorting.
Context {A : Type} (key : A -> Z).

(** the new element passes the elements of greater key *)
Lemma insert_reverse_above (x : A) (hi lo : list A) :
  Forall (fun y => key x < key y) hi ->
  insert_reverse key x (hi ++ lo) = hi ++ insert_reverse key x lo.
Proof.
  induction 1 as [|y hi Hy _ IH]; simpl; [reflexivity|].
  apply Z.ltb_lt in Hy. rewrite Hy. now rewrite IH.
Qed.

(** and stops in front of the first element that is not greater *)
Lemma insert_reverse_here (x : A) (lo : list A) :
  Forall (fun y => key y <= key x) lo ->
  insert_reverse key x lo = x :: lo.
Proof.
  destruct 1 as [|y lo Hy _]; simpl; [reflexivity|].
  apply Z.ltb_ge in Hy. now rewrite Hy.
Qed.

End sorting.

(** ** Decision engine *)

Module decision_proofs.
Import decision_engine decision_spec.

Ltac stamp := unfold stamped; simpl; eexists; reflexivity.

(** *** Sorting by priority *)

Lemma with_priority_key p l :
  Forall (fun d => priority_key d = priority_value p) (with_priority p l).
Proof.
  apply List.Forall_forall. intros d Hd. apply List.filter_In in Hd as [_ Hd].
  now apply Z.eqb_eq in Hd.
Qed.

Lemma Forall_key_lt (x : Decision) p l :
  priority_key x < priority_value p ->
  Forall (fun y => priority_key x < priority_key y) (with_priority p l).
Proof.
  intros H. eapply List.Forall_impl; [|apply with_priority_key].
  simpl. intros d ->. exact H.
Qed.

Lemma Forall_key_le (x : Decision) p l :
  priority_value p <= priority_key x ->
  Forall (fun y => priority_key y <= priority_key x) (with_priority p l).
Proof.
  intros H. eapply List.Forall_impl; [|apply with_priority_key].
  simpl. intros d ->. exact H.
Qed.

(** The sort of [make_decisions] groups the decisions by priority and
    keeps the order inside every group. *)
Lemma sort_reverse_by_priority (l : list Decision) :
  sort_reverse priority_key l = by_priority l.
Proof.
  induction l as [|x l IH]; [reflexivity|].
  simpl. rewrite IH. unfold by_priority, with_priority. simpl.
  fold (with_priority CRITICAL l) (with_priority HIGH l)
       (with_priority MEDIUM l) (with_priority LOW l).
  unfold priority_eqb.
  destruct (priority x) eqn:Hp; simpl.
  - rewrite !insert_reverse_above
      by (apply Forall_key_lt; unfold priority_key; rewrite Hp; simpl; lia).
    rewrite insert_reverse_here
      by (apply Forall_key_le; unfold priority_key; rewrite Hp; simpl; lia).
    reflexivity.
  - rewrite !insert_reverse_above
      by (apply Forall_key_lt; unfold priority_key; rewrite Hp; simpl; lia).
    rewrite insert_reverse_here; [reflexivity|].
    apply Forall_app; split; apply Forall_key_le; unfold priority_key;
      rewrite Hp; simpl; lia.
  - rewrite !insert_reverse_above
      by (apply Forall_key_lt; unfold priority_key; rewrite Hp; simpl; lia).
    rewrite insert_reverse_here; [reflexivity|].
    repeat (apply Forall_app; split); apply Forall_key_le; unfold priority_key;
      rewrite Hp; simpl; lia.
  - rewrite insert_reverse_here; [reflexivity|].
    repeat (apply Forall_app; split); apply Forall_key_le; unfold priority_key;
      rewrite Hp; simpl; lia.
Qed.

Lemma by_priority_sorted l : StronglySorted priority_ge (by_priority l).
Proof.
  assert (Hss : forall p, StronglySorted priority_ge (with_priority p l)).
  { intros p. pose proof (with_priority_key p l) as Hk.
    induction Hk as [|x r Hx Hr IH]; constructor; [exact IH|].
    eapply List.Forall_impl; [|exact Hr]. intros d Hd. simpl in Hd.
    unfold priority_ge. rewrite Hx, Hd. lia. }
  assert (Hkey : forall p d, d ∈ with_priority p l -> priority_key d = priority_value p).
  { intros p d Hd. apply list_elem_of_In in Hd.
    pose proof (with_priority_key p l) as Hk.
    rewrite List.Forall_forall in Hk. now apply Hk. }
  assert (Hcross : forall p (ps : list Priority) x1 x2,
            Forall (fun q => priority_value q <= priority_value p) ps ->
            x1 ∈ with_priority p l ->
            x2 ∈ concat (List.map (fun q => with_priority q l) ps) ->
            priority_ge x1 x2).
  { intros p ps x1 x2 Hps H1 H2. unfold priority_ge. rewrite (Hkey _ _ H1).
    induction Hps as [|q ps Hq _ IH]; simpl in H2.
    - now apply elem_of_nil in H2.
    - apply elem_of_app in H2 as [H2|H2]; [|now apply IH].
      rewrite (Hkey _ _ H2). exact Hq. }
  unfold by_priority.
  apply StronglySorted_app_2; [|apply Hss|apply StronglySorted_app_2;
    [|apply Hss|apply StronglySorted_app_2; [|apply Hss|apply Hss]]].
  - intros x1 x2 H1 H2. apply (Hcross CRITICAL [HIGH; MEDIUM; LOW] x1 x2); auto.
    + repeat constructor; simpl; lia.
    + simpl. now rewrite app_nil_r.
  - intros x1 x2 H1 H2. apply (Hcross HIGH [MEDIUM; LOW] x1 x2); auto.
    + repeat constructor; simpl; lia.
    + simpl. now rewrite app_nil_r.
  - intros x1 x2 H1 H2. apply (Hcross MEDIUM [LOW] x1 x2); auto.
    + repeat constructor; simpl; lia.
    + simpl. now rewrite app_nil_r.
Qed.

Lemma with_priority_idem p q l :
  with_priority p (with_priority q l) = if priority_eqb q p then with_priority q l else [].
Proof.
  unfold with_priority. induction l as [|x l IH]; simpl; [now destruct (priority_eqb q p)|].
  destruct (priority_eqb (priority x) q) eqn:Hq; simpl; rewrite IH.
  - unfold priority_eqb in *. apply Z.eqb_eq in Hq. rewrite Hq.
    now destruct (priority_value q =? priority_value p).
  - reflexivity.
Qed.

(** stability: sorting does not reorder the decisions of one priority *)
Lemma with_priority_by_priority p l : with_priority p (by_priority l) = with_priority p l.
Proof.
  unfold by_priority. unfold with_priority at 1. rewrite !List.filter_app.
  fold (with_priority p (with_priority CRITICAL l)) (with_priority p (with_priority HIGH l))
       (with_priority p (with_priority MEDIUM l)) (with_priority p (with_priority LOW l)).
  rewrite !with_priority_idem. destruct p; simpl; now rewrite ?app_nil_r.
Qed.

Lemma by_priority_In d l : In d (by_priority l) <-> In d l.
Proof.
  unfold by_priority, with_priority. rewrite !in_app_iff, !List.filter_In.
  unfold priority_eqb. destruct (priority d); simpl; intuition discriminate.
Qed.

Lemma by_priority_length l : length (by_priority l) = length l.
Proof.
  induction l as [|x l IH]; [reflexivity|].
  assert (Hcons : forall p,
            length (with_priority p (x :: l)) =
            ((if priority_eqb (priority x) p then 1 else 0)
             + length (with_priority p l))%nat).
  { intros p. unfold with_priority. simpl.
    now destruct (priority_eqb (priority x) p). }
  unfold by_priority in *. rewrite !length_app in *. rewrite !Hcons.
  destruct (priority x); simpl; lia.
Qed.

Lemma with_priority_Forall (P : Decision -> Prop) p l :
  Forall P l -> Forall P (with_priority p l).
Proof.
  intros H. apply List.Forall_forall. intros d Hd.
  apply List.filter_In in Hd as [Hd _]. rewrite List.Forall_forall in H. auto.
Qed.

(** *** What the analyzers return *)

Lemma perf_spec self st ctx w ds w' :
  _analyze_performance_decisions self st ctx w = (ds, w') ->
  clock w' = clock w /\
  Forall (fun d => not_heal d /\ priority d <> CRITICAL /\ stamped (clock w) d) ds.
Proof.
  unfold _analyze_performance_decisions. intros H. run; simpl;
    (split; [reflexivity|]); repeat constructor; try discriminate; stamp.
Qed.

Lemma cost_spec self st ctx w ds w' :
  _analyze_cost_decisions self st ctx w = (ds, w') ->
  clock w' = clock w /\
  Forall (fun d => not_heal d /\ stamped (clock w) d) ds.
Proof.
  unfold _analyze_cost_decisions. intros H. run; simpl;
    (split; [reflexivity|]); repeat constructor; try discriminate; stamp.
Qed.

Lemma security_spec self st ctx w ds w' :
  _analyze_security_decisions self st ctx w = (ds, w') ->
  clock w' = clock w /\
  Forall (fun d => not_heal d /\ stamped (clock w) d) ds.
Proof.
  unfold _analyze_security_decisions. intros H.
  set (I := fun (ds : list Decision) (w' : World) =>
              clock w' = clock w /\
              Forall (fun d => not_heal d /\ stamped (clock w) d) ds).
  assert (Hbody : forall ds0 w0 ds1 w1 d,
             ((t <- now ;; ret (ds0 ++ [d t])) w0 = (ds1, w1)) ->
             (forall t, action_type (d t) <> HEAL_SERVICE /\ timestamp (d t) = t) ->
             I ds0 w0 -> I ds1 w1).
  { intros ds0 w0 ds1 w1 d Hrun Hd [Hc Hds]. run. split; [exact Hc|].
    apply Forall_snoc; [exact Hds|]. destruct (Hd (clock w0 (clock_reads w0))) as [Hh Ht].
    split; [exact Hh|]. exists (clock_reads w0). now rewrite Ht, Hc. }
  apply bind_run in H as (ds1 & w1 & Hloop1 & H).
  apply bind_run in H as (ds2 & w2 & Hloop2 & H).
  run.
  eapply (for_each_inv I) in Hloop2; [exact Hloop2 | | ].
  - intros a ds0 w0 ds3 w3 Hrun HI.
    destruct (_ && _) in Hrun; [|run; exact HI].
    eapply (Hbody _ _ _ _ (fun t => mkDecision _ _ _ _ _ t _ _));
      [exact Hrun | intros t; split; [discriminate | reflexivity] | exact HI].
  - eapply (for_each_inv I) in Hloop1;
      [exact Hloop1 | | split; [reflexivity | constructor]].
    intros a ds0 w0 ds3 w3 Hrun HI.
    destruct (String.eqb _ _) in Hrun; [|run; exact HI].
    eapply (Hbody _ _ _ _ (fun t => mkDecision _ _ _ _ _ t _ _));
      [exact Hrun | intros t; split; [discriminate | reflexivity] | exact HI].
Qed.

(** the loop over the service health map appends one heal per unhealthy
    service, in the order of the map *)
Lemma heal_loop_spec (items : list (string * bool)) :
  forall acc w ds w',
    for_each items
      (fun '(service, is_healthy) decisions =>
         if negb is_healthy then
           t <- now ;; ret (decisions ++ [heal_decision service t])
         else ret decisions) acc w = (ds, w') ->
    clock w' = clock w /\
    exists hs, ds = acc ++ hs /\
      Forall2 (fun d s => exists t, d = heal_decision s t) hs (unhealthy items) /\
      Forall (stamped (clock w)) hs.
Proof.
  induction items as [|[service is_healthy] items IH]; intros acc w ds w' H; simpl in H.
  - run. split; [reflexivity|]. exists []. rewrite app_nil_r. repeat constructor.
  - apply bind_run in H as (acc1 & w1 & Hbody & H).
    apply IH in H as (Hc & hs & -> & Hhs & Hst).
    destruct is_healthy; simpl in Hbody; run.
    + split; [exact Hc|]. exists hs. auto.
    + simpl in *. split; [exact Hc|].
      eexists (_ :: hs). rewrite <- app_assoc. split; [reflexivity|]. split.
      * unfold unhealthy. simpl. constructor; [eauto | exact Hhs].
      * constructor; [stamp | exact Hst].
Qed.

Lemma health_spec self st ctx w ds w' :
  _analyze_health_decisions self st ctx w = (ds, w') ->
  clock w' = clock w /\
  exists hs tail, ds = hs ++ tail /\
    Forall2 (fun d s => exists t, d = heal_decision s t) hs
            (unhealthy (service_health st)) /\
    Forall not_heal tail /\
    Forall (stamped (clock w)) ds.
Proof.
  unfold _analyze_health_decisions. intros H.
  apply bind_run in H as (hs & w1 & Hloop & H).
  apply heal_loop_spec in Hloop as (Hc & hs' & -> & Hhs & Hst). simpl in *.
  assert (Hst1 : Forall (stamped (clock w1)) hs') by now rewrite Hc.
  clear Hst. rewrite <- Hc. clear Hc.
  run; simpl; (split; [reflexivity|]);
    eexists hs', _; rewrite <- ?app_assoc;
    (split; [try reflexivity; symmetry; apply app_nil_r|]);
    (split; [exact Hhs|]);
    (split; [repeat constructor; discriminate|]);
    rewrite ?Forall_app; repeat split; try assumption; repeat constructor; stamp.
Qed.

(** *** One cycle *)

Lemma make_decisions_run self st ctx w returned self' w' :
  make_decisions self st ctx w = (returned, self', w') ->
  exists perf w1 health w2 security w3 cost w4,
    _analyze_performance_decisions self st ctx w = (perf, w1) /\
    _analyze_health_decisions self st ctx w1 = (health, w2) /\
    _analyze_security_decisions self st ctx w2 = (security, w3) /\
    _analyze_cost_decisions self st ctx w3 = (cost, w4) /\
    returned = take 5 (by_priority (perf ++ health ++ security ++ cost)) /\
    decision_history self' =
      recent_history (clock w4 (clock_reads w4))
        (decision_history self ++ by_priority (perf ++ health ++ security ++ cost)) /\
    config self' = config self /\ thresholds self' = thresholds self /\
    clock w' = clock w4.
Proof.
  unfold make_decisions. intros H.
  apply bind_run in H as (perf & w1 & Hperf & H).
  apply bind_run in H as (health & w2 & Hhealth & H).
  apply bind_run in H as (security & w3 & Hsec & H).
  apply bind_run in H as (cost & w4 & Hcost & H).
  apply bind_run in H as (t & w5 & Hnow & H).
  unfold now in Hnow. injection Hnow as <- <-.
  unfold ret in H. injection H as <- <- <-.
  exists perf, w1, health, w2, security, w3, cost, w4.
  rewrite <- sort_reverse_by_priority. simpl. rewrite <- !app_assoc.
  repeat split; assumption || reflexivity.
Qed.

Lemma generated_stamped self st ctx w perf w1 health w2 security w3 cost w4 :
  _analyze_performance_decisions self st ctx w = (perf, w1) ->
  _analyze_health_decisions self st ctx w1 = (health, w2) ->
  _analyze_security_decisions self st ctx w2 = (security, w3) ->
  _analyze_cost_decisions self st ctx w3 = (cost, w4) ->
  clock w4 = clock w /\
  Forall (stamped (clock w)) (perf ++ health ++ security ++ cost).
Proof.
  intros Hp Hh Hs Hc.
  apply perf_spec in Hp as [Hc1 Hp].
  apply health_spec in Hh as (Hc2 & _ & _ & _ & _ & _ & Hh).
  apply security_spec in Hs as [Hc3 Hs]. apply cost_spec in Hc as [Hc4 Hc].
  rewrite Hc4, Hc3, Hc2, Hc1. split; [reflexivity|].
  rewrite Hc3, Hc2, Hc1 in Hc. rewrite Hc2, Hc1 in Hs. rewrite Hc1 in Hh.
  repeat (apply Forall_app; split).
  - eapply List.Forall_impl; [|exact Hp]. now intros d (_ & _ & ?).
  - exact Hh.
  - eapply List.Forall_impl; [|exact Hs]. now intros d (_ & ?).
  - eapply List.Forall_impl; [|exact Hc]. now intros d (_ & ?).
Qed.

(** C1. For every system state and project context, [make_decisions]
    returns at most 5 decisions, sorted by non-increasing priority; the
    returned decisions of one priority are in the order performance,
    health, security, cost of the analyzers that produced them (a prefix
    of the analyzers' decisions of that priority, in that order). *)
Theorem make_decisions_bounded_sorted_stable self state context w :
  exists perf w1 health w2 security w3 cost w4,
    _analyze_performance_decisions self state context w = (perf, w1) /\
    _analyze_health_decisions self state context w1 = (health, w2) /\
    _analyze_security_decisions self state context w2 = (security, w3) /\
    _analyze_cost_decisions self state context w3 = (cost, w4) /\
    let returned := fst (fst (make_decisions self state context w)) in
    (length returned <= 5)%nat /\
    StronglySorted priority_ge returned /\
    forall p, with_priority p returned `prefix_of`
                with_priority p perf ++ with_priority p health ++
                with_priority p security ++ with_priority p cost.
Proof.
  destruct (make_decisions self state context w) as [[returned self'] w'] eqn:Hrun.
  apply make_decisions_run in Hrun
    as (perf & w1 & health & w2 & security & w3 & cost & w4 &
        Hp & Hh & Hs & Hc & -> & _).
  exists perf, w1, health, w2, security, w3, cost, w4.
  repeat (split; [assumption|]). simpl. split; [|split].
  - rewrite length_take. lia.
  - apply StronglySorted_take, by_priority_sorted.
  - intros p. unfold with_priority at 2 3 4 5. rewrite <- !List.filter_app.
    fold (with_priority p (perf ++ health ++ security ++ cost)).
    rewrite <- (with_priority_by_priority p (perf ++ health ++ security ++ cost)).
    apply filter_prefix, prefix_take.
Qed.

(** *** The configuration flags *)

Lemma cpu_above_threshold_scales_up self st ctx w :
  Qgtb (cpu_usage st) (cpu_scale_up (thresholds self)) = true ->
  exists d, In d (fst (_analyze_performance_decisions self st ctx w)) /\
            action_type d = SCALE_UP /\ priority d = HIGH /\ target d = "compute".
Proof.
  intros Hcpu.
  destruct (_analyze_performance_decisions self st ctx w) as [ds w'] eqn:H.
  unfold _analyze_performance_decisions in H. run; try congruence;
    simpl; eexists; (split; [left; reflexivity|]); simpl; auto.
Qed.

Lemma In_unhealthy service health :
  In (service, false) health -> In service (unhealthy health).
Proof.
  intros H. unfold unhealthy. apply in_map_iff. exists (service, false).
  split; [reflexivity|]. apply List.filter_In. now split.
Qed.

Lemma unhealthy_service_heals self st ctx w service :
  In (service, false) (service_health st) ->
  exists d, In d (fst (_analyze_health_decisions self st ctx w)) /\
            action_type d = HEAL_SERVICE /\ priority d = CRITICAL /\ target d = service.
Proof.
  intros Hin.
  destruct (_analyze_health_decisions self st ctx w) as [ds w'] eqn:H.
  apply health_spec in H as (_ & hs & tail & -> & Hhs & _).
  apply In_unhealthy in Hin.
  destruct (Forall2_In_r _ _ _ _ Hhs Hin) as (d & Hd & t & ->).
  exists (heal_decision service t). simpl. rewrite in_app_iff. auto.
Qed.

(** C2, as the code has it. The engine never reads its configuration:
    the performance and health analyzers and [make_decisions] return the
    same decisions whatever the configuration holds, so also with
    [auto_scale] or [auto_heal] disabled a CPU usage above the scale-up
    threshold yields a [scale_up] decision and an unhealthy service
    yields a [heal_service] decision. *)
Theorem decisions_ignore_configuration self config' state context w :
  _analyze_performance_decisions (with_config config' self) state context w
    = _analyze_performance_decisions self state context w /\
  _analyze_health_decisions (with_config config' self) state context w
    = _analyze_health_decisions self state context w /\
  fst (fst (make_decisions (with_config config' self) state context w))
    = fst (fst (make_decisions self state context w)) /\
  (Qgtb (cpu_usage state) (cpu_scale_up (thresholds self)) = true ->
   exists d,
     In d (fst (_analyze_performance_decisions (with_config config' self)
                  state context w)) /\
     action_type d = SCALE_UP /\ priority d = HIGH /\ target d = "compute") /\
  (forall service,
     In (service, false) (service_health state) ->
     exists d,
       In d (fst (_analyze_health_decisions (with_config config' self)
                    state context w)) /\
       action_type d = HEAL_SERVICE /\ priority d = CRITICAL /\ target d = service).
Proof.
  split; [reflexivity|]. split; [reflexivity|]. split.
  - unfold make_decisions, bind.
    change (_analyze_performance_decisions (with_config config' self))
      with (_analyze_performance_decisions self).
    change (_analyze_health_decisions (with_config config' self))
      with (_analyze_health_decisions self).
    change (_analyze_security_decisions (with_config config' self))
      with (_analyze_security_decisions self).
    change (_analyze_cost_decisions (with_config config' self))
      with (_analyze_cost_decisions self).
    repeat match goal with |- context [let (_, _) := ?m in _] => destruct m end.
    reflexivity.
  - split.
    + intros H. now apply cpu_above_threshold_scales_up.
    + intros service H. now apply unhealthy_service_heals.
Qed.

Lemma decisions_ignore_configuration_witness :
  (exists d,
     In d (fst (_analyze_performance_decisions (with_config flags_off (__init__ []))
                  busy_state python_project calm_world)) /\
     action_type d = SCALE_UP /\ priority d = HIGH /\ target d = "compute") /\
  (exists d,
     In d (fst (_analyze_health_decisions (with_config flags_off (__init__ []))
                  busy_state python_project calm_world)) /\
     action_type d = HEAL_SERVICE /\ priority d = CRITICAL /\ target d = "web").
Proof.
  pose proof (decisions_ignore_configuration (__init__ []) flags_off busy_state
                python_project calm_world) as (_ & _ & _ & Hscale & Hheal).
  split.
  - apply Hscale. vm_compute. reflexivity.
  - apply Hheal. simpl. auto.
Defined.

(** C2 as stated fails: with both flags disabled in the configuration,
    the analyzers and [make_decisions] still emit [scale_up] and
    [heal_service]. *)
Lemma disabled_flags_still_fire :
  dict_lookup (config (__init__ flags_off)) "auto_scale" = Some (PBool false) /\
  dict_lookup (config (__init__ flags_off)) "auto_heal" = Some (PBool false) /\
  existsb (is_action SCALE_UP)
    (fst (_analyze_performance_decisions (__init__ flags_off) busy_state
            python_project calm_world)) = true /\
  existsb (is_action HEAL_SERVICE)
    (fst (_analyze_health_decisions (__init__ flags_off) busy_state
            python_project calm_world)) = true /\
  existsb (is_action SCALE_UP)
    (fst (fst (make_decisions (__init__ flags_off) busy_state
                 python_project calm_world))) = true /\
  existsb (is_action HEAL_SERVICE)
    (fst (fst (make_decisions (__init__ flags_off) busy_state
                 python_project calm_world))) = true.
Proof. vm_compute. repeat split. Qed.

(** *** Healing unhealthy services *)

Lemma heals_count service hs names :
  Forall2 (fun d s => exists t, d = heal_decision s t) hs names ->
  length (List.filter (is_heal_for service) hs) = count_occ string_dec names service.
Proof.
  induction 1 as [|d s hs names [t ->] _ IH]; simpl; [reflexivity|].
  unfold is_heal_for at 1. simpl.
  destruct (string_dec s service) as [->|Hne].
  - rewrite String.eqb_refl. simpl. now rewrite IH.
  - apply String.eqb_neq in Hne. now rewrite Hne.
Qed.

Lemma heals_critical hs names :
  Forall2 (fun d s => exists t, d = heal_decision s t) hs names ->
  with_priority CRITICAL hs = hs.
Proof.
  induction 1 as [|d s hs names [t ->] _ IH]; simpl; [reflexivity|].
  unfold with_priority in *. simpl. now rewrite IH.
Qed.

Lemma NoDup_unhealthy health :
  List.NoDup (List.map fst health) -> List.NoDup (unhealthy health).
Proof.
  unfold unhealthy. induction health as [|[s b] health IH]; simpl; intros H.
  - constructor.
  - inversion H as [|? ? Hnotin Hnd]; subst.
    destruct b; simpl; [now apply IH|].
    constructor; [|now apply IH].
    intros Hin. apply Hnotin. apply in_map_iff in Hin as ([s' b'] & <- & Hin).
    apply List.filter_In in Hin as [Hin _]. apply in_map_iff. now exists (s', b').
Qed.

Lemma not_heal_is_heal_for service d : not_heal d -> is_heal_for service d = false.
Proof. unfold not_heal, is_heal_for. destruct (action_type d); congruence || reflexivity. Qed.

Lemma not_critical_is_heal_for service d :
  priority d <> CRITICAL -> is_heal_for service d = false.
Proof.
  unfold is_heal_for. destruct (action_type d), (priority d); congruence || reflexivity.
Qed.

Lemma with_priority_not_critical service p l :
  p <> CRITICAL -> Forall (fun d => is_heal_for service d = false) (with_priority p l).
Proof.
  intros Hp. eapply List.Forall_impl; [|apply with_priority_key].
  intros d Hd. simpl in Hd. apply not_critical_is_heal_for. intros Hc.
  unfold priority_key in Hd. rewrite Hc in Hd. destruct p; simpl in Hd; congruence.
Qed.

(** The sorted decisions of one cycle: the heals of the unhealthy
    services come first, and no other decision is a heal. *)
Lemma by_priority_heals_first self st ctx w perf w1 health w2 security w3 cost w4 service :
  _analyze_performance_decisions self st ctx w = (perf, w1) ->
  _analyze_health_decisions self st ctx w1 = (health, w2) ->
  _analyze_security_decisions self st ctx w2 = (security, w3) ->
  _analyze_cost_decisions self st ctx w3 = (cost, w4) ->
  exists hs rest,
    by_priority (perf ++ health ++ security ++ cost) = hs ++ rest /\
    Forall2 (fun d s => exists t, d = heal_decision s t) hs
            (unhealthy (service_health st)) /\
    Forall (fun d => is_heal_for service d = false) rest.
Proof.
  intros Hp Hh Hs Hc.
  apply perf_spec in Hp as [_ Hp].
  apply health_spec in Hh as (_ & hs & tail & -> & Hhs & Htail & _).
  apply security_spec in Hs as [_ Hs]. apply cost_spec in Hc as [_ Hc].
  exists hs. eexists. split; [|split; [exact Hhs|]].
  - unfold by_priority. unfold with_priority at 1. rewrite !List.filter_app.
    fold (with_priority CRITICAL perf) (with_priority CRITICAL hs)
         (with_priority CRITICAL tail) (with_priority CRITICAL security)
         (with_priority CRITICAL cost).
    rewrite (heals_critical _ _ Hhs).
    assert (Hperf : with_priority CRITICAL perf = []).
    { apply filter_none. eapply List.Forall_impl; [|exact Hp].
      intros d (_ & Hd & _). simpl. unfold priority_eqb.
      destruct (priority d); simpl; congruence || reflexivity. }
    rewrite Hperf. simpl. rewrite <- !app_assoc. reflexivity.
  - repeat (apply Forall_app; split).
    + apply with_priority_Forall. eapply List.Forall_impl; [|exact Htail].
      intros d. apply not_heal_is_heal_for.
    + apply with_priority_Forall. eapply List.Forall_impl; [|exact Hs].
      intros d [Hd _]. now apply not_heal_is_heal_for.
    + apply with_priority_Forall. eapply List.Forall_impl; [|exact Hc].
      intros d [Hd _]. now apply not_heal_is_heal_for.
    + apply with_priority_not_critical. discriminate.
    + apply with_priority_not_critical. discriminate.
    + apply with_priority_not_critical. discriminate.
Qed.

(** C6, as the code has it. When at most 5 services are marked
    unhealthy in the service health map (whose keys are distinct), the
    list [make_decisions] returns contains exactly one [heal_service]
    decision at CRITICAL priority for every unhealthy service. *)
Theorem unhealthy_service_healed_once self state context w service :
  List.NoDup (List.map fst (service_health state)) ->
  In (service, false) (service_health state) ->
  (length (unhealthy (service_health state)) <= 5)%nat ->
  length (List.filter (is_heal_for service)
            (fst (fst (make_decisions self state context w)))) = 1%nat.
Proof.
  intros Hnd Hin Hfive.
  destruct (make_decisions self state context w) as [[returned self'] w'] eqn:Hrun.
  apply make_decisions_run in Hrun
    as (perf & w1 & health & w2 & security & w3 & cost & w4 &
        Hp & Hh & Hs & Hc & -> & _).
  destruct (by_priority_heals_first _ _ _ _ _ _ _ _ _ _ _ _ service Hp Hh Hs Hc)
    as (hs & rest & -> & Hhs & Hrest).
  simpl. pose proof (Forall2_length _ _ _ Hhs) as Hlen.
  rewrite take_app_ge by lia. rewrite List.filter_app.
  rewrite (filter_none _ (take _ rest)) by now apply Forall_take.
  rewrite app_nil_r, (heals_count _ _ _ Hhs).
  apply NoDup_count_occ'; [now apply NoDup_unhealthy | now apply In_unhealthy].
Qed.

Lemma unhealthy_service_healed_once_witness :
  length (List.filter (is_heal_for "api")
            (fst (fst (make_decisions (__init__ [])
                         (quiet_state [("web", true); ("api", false)])
                         python_project calm_world)))) = 1%nat.
Proof.
  apply unhealthy_service_healed_once.
  - simpl. repeat constructor; simpl; intuition discriminate.
  - simpl. auto.
  - simpl. lia.
Defined.

(** C6 as stated fails: of six unhealthy services the sixth gets no
    heal decision in the returned list, which holds five. *)
Lemma sixth_unhealthy_service_not_healed :
  List.NoDup (List.map fst six_unhealthy) /\
  In ("search", false) (service_health (quiet_state six_unhealthy)) /\
  length (List.filter (is_heal_for "search")
            (fst (fst (make_decisions (__init__ []) (quiet_state six_unhealthy)
                         python_project calm_world)))) = 0%nat.
Proof.
  split; [|split].
  - simpl. repeat constructor; simpl; intuition discriminate.
  - simpl. auto 10.
  - vm_compute. reflexivity.
Qed.

(** *** The history *)

Lemma recent_history_keeps t old new :
  Forall (fun d => t - timedelta_hours 24 < timestamp d) new ->
  recent_history t (old ++ new) = recent_history t old ++ new.
Proof.
  intros H. unfold recent_history. rewrite List.filter_app. f_equal.
  induction H as [|d new Hd _ IH]; simpl; [reflexivity|].
  apply Z.ltb_lt in Hd. rewrite Hd. now rewrite IH.
Qed.

(** C10. [make_decisions] extends the history with the sorted list of
    all the decisions the four analyzers generated and returns the
    first five of that same list: the history is extended before, and
    independently of, the cap. Within 24 hours of clock nothing just
    generated is pruned, so every generated decision is in the history,
    and with more than 5 generated the history receives more decisions
    than are returned. In the cycle of [busy_state] a decision is in
    the history and in the report of [get_recent_decisions] that was
    not returned. *)
Theorem history_keeps_decisions_beyond_cap :
  (forall self state context w,
     exists perf w1 health w2 security w3 cost w4,
       _analyze_performance_decisions self state context w = (perf, w1) /\
       _analyze_health_decisions self state context w1 = (health, w2) /\
       _analyze_security_decisions self state context w2 = (security, w3) /\
       _analyze_cost_decisions self state context w3 = (cost, w4) /\
       let generated := perf ++ health ++ security ++ cost in
       let sorted := sort_reverse priority_key generated in
       let t := clock w4 (clock_reads w4) in
       let returned := fst (fst (make_decisions self state context w)) in
       let self' := snd (fst (make_decisions self state context w)) in
       returned = take 5 sorted /\
       decision_history self' = recent_history t (decision_history self ++ sorted) /\
       (within_a_day (clock w) ->
        decision_history self' = recent_history t (decision_history self) ++ sorted /\
        (forall d, In d generated -> In d (decision_history self')) /\
        ((5 < length generated)%nat ->
         (length returned < length sorted)%nat))) /\
  (let run := make_decisions (__init__ []) busy_state python_project calm_world in
   let returned := fst (fst run) in
   let self' := snd (fst run) in
   exists d,
     In d (decision_history self') /\
     ~ In d returned /\
     In (report_of d) (fst (get_recent_decisions self' (snd run)))).
Proof.
  split.
  - intros self state context w.
    destruct (make_decisions self state context w) as [[returned self'] w'] eqn:Hrun.
    apply make_decisions_run in Hrun
      as (perf & w1 & health & w2 & security & w3 & cost & w4 &
          Hp & Hh & Hs & Hc & -> & Hhist & _).
    exists perf, w1, health, w2, security, w3, cost, w4.
    repeat (split; [assumption|]). simpl.
    rewrite sort_reverse_by_priority.
    split; [reflexivity|]. split; [exact Hhist|].
    intros Hday.
    destruct (generated_stamped _ _ _ _ _ _ _ _ _ _ _ _ Hp Hh Hs Hc) as [Hclock Hst].
    assert (Hkeep : decision_history self' =
              recent_history (clock w4 (clock_reads w4)) (decision_history self)
              ++ by_priority (perf ++ health ++ security ++ cost)).
    { rewrite Hhist. apply recent_history_keeps.
      apply List.Forall_forall. intros d Hd. apply (proj1 (by_priority_In _ _)) in Hd.
      rewrite List.Forall_forall in Hst. destruct (Hst d Hd) as [k ->].
      rewrite Hclock. specialize (Hday k (clock_reads w4)). lia. }
    split; [exact Hkeep|]. split.
    + intros d Hd. rewrite Hkeep. apply in_or_app. right.
      now apply (proj2 (by_priority_In _ _)).
    + intros Hmany. rewrite length_take.
      rewrite by_priority_length, !length_app. rewrite !length_app in Hmany. lia.
  - vm_compute.
    eexists (mkDecision OPTIMIZE_PERFORMANCE MEDIUM "storage" _ _ _ _ _).
    split; [|split].
    + do 5 right. left. reflexivity.
    + intros H. repeat (destruct H as [H|H]; [discriminate H|]). exact H.
    + do 5 right. left. reflexivity.
Qed.

Lemma history_keeps_decisions_beyond_cap_witness :
  within_a_day (clock frozen_world) /\
  exists generated,
    let run := make_decisions (__init__ []) busy_state python_project frozen_world in
    forall d, In d generated -> In d (decision_history (snd (fst run))).
Proof.
  assert (Hday : within_a_day (clock frozen_world)).
  { intros i j. reflexivity. }
  split; [exact Hday|].
  destruct (proj1 history_keeps_decisions_beyond_cap
              (__init__ []) busy_state python_project frozen_world)
    as (perf & w1 & health & w2 & security & w3 & cost & w4 & _ & _ & _ & _ & H).
  exists (perf ++ health ++ security ++ cost).
  exact (proj1 (proj2 (proj2 (proj2 H) Hday))).
Defined.

End decision_proofs.

(** ** Action executor *)

Module executor_proofs.
Import decision_engine action_executor executor_spec.

(** *** The deployment pipeline *)

(** The loop runs a prefix of the stages; it stops early only behind a
    stage that aborts, and a stage that aborts is the last one run. *)
Lemma run_stages_spec self (remaining : list Stage) :
  forall results w results' w',
    run_stages self remaining results w = (results', w') ->
    exists n rs,
      (n <= length remaining)%nat /\ length rs = n /\
      run_all self (take n remaining) w = (rs, w') /\
      results' =
        {| overall_success := overall_success results && forallb success rs;
           stage_results := stage_results results ++ rs;
           deployment_id := deployment_id results;
           start_time := start_time results;
           end_time := end_time results;
           error := error results |} /\
      (forall i stage result,
         remaining !! i = Some stage -> rs !! i = Some result ->
         aborts stage result = true -> n = S i) /\
      ((n < length remaining)%nat ->
       exists stage result,
         remaining !! pred n = Some stage /\ rs !! pred n = Some result /\
         aborts stage result = true).
Proof.
  induction remaining as [|stage rest IH]; intros results w results' w' H; simpl in H.
  - apply ret_run in H as [-> ->]. exists 0%nat, []. simpl.
    repeat split; try reflexivity; try lia.
    + destruct results; simpl. now rewrite andb_true_r, app_nil_r.
    + intros i stage result Hi. now rewrite lookup_nil in Hi.
  - apply bind_run in H as (r & w1 & Hstage & H).
    destruct (success r) eqn:Hok; simpl in H.
    + apply IH in H as (n & rs & Hn & Hlen & Hall & -> & Habort & Hstop).
      exists (S n), (r :: rs). simpl. repeat split; try lia.
      * unfold bind. rewrite Hstage, Hall. reflexivity.
      * rewrite Hok. simpl. now rewrite <- app_assoc.
      * intros [|i] stage' result; simpl; intros Hs Hr Ha.
        -- injection Hs as <-. injection Hr as <-. unfold aborts in Ha.
           rewrite Hok in Ha. discriminate.
        -- f_equal. eapply Habort; eauto.
      * intros Hlt. destruct Hstop as (stage' & result & Hs & Hr & Ha); [lia|].
        destruct n as [|n]; simpl in *.
        { apply length_zero_iff_nil in Hlen. subst rs. now rewrite lookup_nil in Hr. }
        eauto.
    + destruct (String.eqb (stage_name stage) "deploy_production") eqn:Hname; simpl in H.
      * apply IH in H as (n & rs & Hn & Hlen & Hall & -> & Habort & Hstop).
        exists (S n), (r :: rs). simpl. repeat split; try lia.
        -- unfold bind. rewrite Hstage, Hall. reflexivity.
        -- rewrite Hok. simpl. now rewrite <- app_assoc, andb_false_r.
        -- intros [|i] stage' result; simpl; intros Hs Hr Ha.
           ++ injection Hs as <-. injection Hr as <-. unfold aborts in Ha.
              rewrite Hname, andb_false_r in Ha. discriminate.
           ++ f_equal. eapply Habort; eauto.
        -- intros Hlt. destruct Hstop as (stage' & result & Hs & Hr & Ha); [lia|].
           destruct n as [|n]; simpl in *.
           { apply length_zero_iff_nil in Hlen. subst rs. now rewrite lookup_nil in Hr. }
           eauto.
      * apply ret_run in H as [-> ->].
        exists 1%nat, [r]. simpl. repeat split; try lia.
        -- unfold bind. rewrite Hstage. reflexivity.
        -- now rewrite Hok, andb_false_r.
        -- intros [|i] stage' result; simpl; intros Hs Hr Ha; [reflexivity|].
           now rewrite lookup_nil in Hr.
        -- intros _. exists stage, r. repeat split. unfold aborts.
           now rewrite Hok, Hname.
Qed.

(** C4. For every deployment plan, [execute_deployment] is the run of
    the first [executed] stages and of no other; a stage that fails sets
    [overall_success] to false; when the failing stage is not named
    "deploy_production" it is the last stage executed, and when it is
    named "deploy_production" the stage after it is executed as well. *)
Theorem failing_stage_aborts_unless_production self plan w :
  let results := fst (execute_deployment self plan w) in
  let executed := length (stage_results results) in
  (executed <= length (stages plan))%nat /\
  execute_deployment self plan w = deployment_of_first executed self plan w /\
  overall_success results = forallb success (stage_results results) /\
  forall i stage result,
    stages plan !! i = Some stage ->
    stage_results results !! i = Some result ->
    success result = false ->
    overall_success results = false /\
    (stage_name stage <> "deploy_production" -> executed = S i) /\
    (stage_name stage = "deploy_production" ->
     (S i < length (stages plan))%nat -> (S i < executed)%nat).
Proof.
  destruct (execute_deployment self plan w) as [results w'] eqn:Hrun.
  unfold execute_deployment in Hrun.
  apply bind_run in Hrun as (t_id & w1 & Hid & Hrun).
  apply bind_run in Hrun as (t_start & w2 & Hstart & Hrun).
  apply bind_run in Hrun as (results1 & w3 & Hloop & Hrun).
  apply bind_run in Hrun as (t_end & w4 & Hend & Hrun).
  apply ret_run in Hrun as [-> ->].
  apply run_stages_spec in Hloop as (n & rs & Hn & Hlen & Hall & -> & Habort & Hstop).
  simpl. rewrite Hlen. split; [exact Hn|]. split; [|split; [reflexivity|]].
  - unfold deployment_of_first, bind. rewrite Hid, Hstart, Hall, Hend. reflexivity.
  - intros i stage result Hs Hr Hfail. split; [|split].
    + eapply forallb_lookup_false; eauto.
    + intros Hname. eapply Habort; eauto. unfold aborts. rewrite Hfail. simpl.
      apply String.eqb_neq in Hname. now rewrite Hname.
    + intros Hname Hlt.
      assert (Hi : (i < n)%nat) by (rewrite <- Hlen; eapply lookup_lt_Some; eauto).
      destruct (Nat.eq_dec n (S i)) as [->|]; [|lia].
      destruct Hstop as (stage' & result' & Hs' & Hr' & Ha); [lia|]. simpl in *.
      rewrite Hs in Hs'. injection Hs' as <-. unfold aborts in Ha.
      apply String.eqb_eq in Hname. rewrite Hname, andb_false_r in Ha. discriminate.
Qed.

Lemma failing_stage_aborts_unless_production_witness :
  let results := fst (execute_deployment executor0 production_then_test failing_world) in
  overall_success results = false /\
  (1 < length (stage_results results))%nat /\
  length (stage_results results) = 2%nat.
Proof.
  pose proof (failing_stage_aborts_unless_production executor0 production_then_test
                failing_world) as (_ & _ & _ & H).
  split; [|split].
  - refine (proj1 (H 0%nat _ _ _ _ _)); vm_compute; reflexivity.
  - refine (proj2 (proj2 (H 0%nat _ _ _ _ _)) _ _); vm_compute; try reflexivity. lia.
  - refine (proj1 (proj2 (H 1%nat _ _ _ _ _)) _); vm_compute; try reflexivity.
    discriminate.
Defined.

(** *** Dispatch *)

(** C3. For every decision, [execute_action] returns a result, which it
    also appends to the history: the result of the handler when the
    handler returns one (so a handler failure is a result with
    [success = false]), and a result with [success = false] when the
    handler raises. A decision whose action type has no handler yields
    the failure result "Unknown action type" and runs no command, no
    sleep and no random draw. *)
Theorem execute_action_never_raises self decision w :
  let attempt := fst (dispatch self decision (snd (now w))) in
  let '(result, self', w') := execute_action self decision w in
  execution_history self' = execution_history self ++ [result] /\
  match attempt with
  | Raise e =>
      success result = false /\
      message result = "Action execution failed: " +:+ exn_str e
  | Return handled =>
      success result = success handled /\
      message result = message handled /\
      details result = details handled
  end /\
  (action_type decision = DEPLOY_UPDATE \/ action_type decision = CREATE_ALERT ->
   success result = false /\
   message result = "Unknown action type: " +:+ action_name (action_type decision) /\
   trace w' = trace w /\ rng_reads w' = rng_reads w /\ normal_reads w' = normal_reads w).
Proof.
  unfold execute_action, bind.
  destruct (now w) as [start w0] eqn:Hnow. simpl.
  destruct (dispatch self decision w0) as [attempt w1] eqn:Hd. simpl.
  assert (Hunknown : action_type decision = DEPLOY_UPDATE \/
                     action_type decision = CREATE_ALERT ->
                     exists t, attempt =
                       Return {| success := false;
                                 message := "Unknown action type: "
                                            +:+ action_name (action_type decision);
                                 details := []; execution_time := 0; timestamp := t |}
                     /\ trace w1 = trace w /\ rng_reads w1 = rng_reads w
                     /\ normal_reads w1 = normal_reads w).
  { unfold now in Hnow. injection Hnow as <- <-.
    intros [Ha|Ha]; unfold dispatch in Hd; rewrite Ha in *; simpl in Hd;
      unfold bind, now, ret in Hd; simpl in Hd; injection Hd as <- <-;
      eexists; repeat split. }
  destruct attempt as [handled|e]; simpl.
  - split; [reflexivity|]. split; [auto|].
    intros Ha. destruct (Hunknown Ha) as (t & [= ->] & ? & ? & ?). simpl. auto.
  - split; [reflexivity|]. split; [auto|].
    intros Ha. destruct (Hunknown Ha) as (t & [=] & _).
Qed.

Lemma execute_action_never_raises_witness :
  let '(result, self', w') := execute_action executor0 unknown_type_decision calm_world in
  success result = false /\
  message result = "Unknown action type: ActionType.CREATE_ALERT" /\
  trace w' = trace calm_world.
Proof.
  pose proof (execute_action_never_raises executor0 unknown_type_decision calm_world) as H.
  destruct (execute_action executor0 unknown_type_decision calm_world)
    as [[result self'] w'].
  destruct H as (_ & _ & H).
  destruct H as (Hs & Hm & Ht & _); [right; reflexivity|].
  split; [exact Hs|]. split; [exact Hm | exact Ht].
Defined.

(** The handlers do raise: a heal decision whose "max_attempts" is a
    string stops at [range], and the error comes back as a failed
    result. *)
Example raised_error_becomes_failure :
  fst (dispatch executor0 heal_with_text_attempts (snd (now calm_world)))
    = Raise (TypeError "'str' object cannot be interpreted as an integer") /\
  let result := fst (fst (execute_action executor0 heal_with_text_attempts calm_world)) in
  success result = false /\
  message result =
    "Action execution failed: 'str' object cannot be interpreted as an integer".
Proof. vm_compute. repeat split. Qed.

(** *** Healing *)

Lemma heal_attempts_restart target :
  forall remaining attempt w returned w',
    heal_attempts target (PStr "restart") attempt remaining w = (returned, w') ->
    rng w' = rng w /\
    match first_success (rng w) (rng_reads w) remaining with
    | Some k =>
        (k < remaining)%nat /\
        trace w' = trace w ++ failed_attempts k target ++ successful_attempt target /\
        exists result,
          returned = Some result /\ success result = true /\
          details result = [("target", PStr target); ("action", PStr "restart");
                            ("attempts", PInt (attempt + Z.of_nat k + 1))]
    | None =>
        returned = None /\
        trace w' = trace w ++ failed_attempts remaining target
    end.
Proof.
  induction remaining as [|remaining IH]; intros attempt w returned w' H; simpl in H.
  - apply ret_run in H as [-> ->]. simpl. now rewrite app_nil_r.
  - apply bind_run in H as (r & w1 & Htry & H). simpl in Htry.
    unfold _run_command in Htry. cbn [first_success]. unfold command_succeeds. run.
    + simpl. split; [reflexivity|]. split; [lia|]. split.
      * now rewrite <- app_assoc.
      * eexists. repeat split. simpl. now rewrite Z.add_0_r.
    + match goal with
      | Hrest : heal_attempts _ _ _ _ _ = _ |- _ => apply IH in Hrest as [Hrng Hrest];
          simpl in *; split; [exact Hrng|];
          destruct (first_success (rng w) (S (rng_reads w)) remaining) as [k|]; simpl;
          [ destruct Hrest as (Hk & Htrace & result & -> & Hs & Hd)
          | destruct Hrest as [-> Htrace] ]
      end.
      * split; [lia|]. split.
        -- rewrite Htrace, <- !app_assoc. reflexivity.
        -- exists result. repeat split; auto. rewrite Hd.
           replace (attempt + 1 + Z.of_nat k + 1)
             with (attempt + Z.of_nat (S k) + 1) by lia.
           reflexivity.
      * split; [reflexivity|].
        rewrite Htrace, <- !app_assoc. reflexivity.
Qed.

Lemma first_success_none draws from n :
  (forall k, command_succeeds draws k = false) -> first_success draws from n = None.
Proof.
  intros H. revert from. induction n as [|n IH]; intros from; simpl; [reflexivity|].
  now rewrite H, IH.
Qed.

Lemma commands_of_failed_attempts n target :
  commands_of (failed_attempts n target) = repeat (restart_command target) n.
Proof. induction n as [|n IH]; simpl; [reflexivity|]. now rewrite <- IH. Qed.

(** C5. With "max_attempts" [n] (3 when the decision gives none) and
    the action "restart" (the default), the heal handler runs the
    restart command at most [n] times. Every failed attempt is followed
    by the same delay of 5 seconds; the first successful attempt returns
    [success = true] at once, with no delay and no further attempt; the
    result is [success = false] when all [n] attempts have failed. With
    [n = 3] and commands that always fail the command is run exactly 3
    times and the result has [success = false]. *)
Theorem heal_service_retries self decision w n :
  dict_get (parameters decision) "max_attempts" (PInt 3) = PInt n ->
  eq_str (dict_get (parameters decision) "action" (PStr "restart")) "restart" = true ->
  let '(attempt, w') := _execute_heal_service self decision w in
  exists result new_events,
    attempt = Return result /\
    trace w' = trace w ++ new_events /\
    (length (commands_of new_events) <= Z.to_nat n)%nat /\
    match first_success (rng w) (rng_reads w) (Z.to_nat n) with
    | Some k =>
        success result = true /\
        new_events = failed_attempts k (target decision)
                     ++ successful_attempt (target decision)
    | None =>
        success result = false /\
        new_events = failed_attempts (Z.to_nat n) (target decision)
    end /\
    (n = 3 -> (forall k, command_succeeds (rng w) k = false) ->
     success result = false /\
     commands_of new_events = repeat (restart_command (target decision)) 3).
Proof.
  intros Hmax Haction.
  unfold _execute_heal_service. rewrite Hmax. simpl.
  destruct (dict_get (parameters decision) "action" (PStr "restart"))
    as [| | |s| |] eqn:Ha; try discriminate.
  simpl in Haction. apply String.eqb_eq in Haction. subst s.
  unfold bind.
  destruct (heal_attempts (target decision) (PStr "restart") 0 (Z.to_nat n) w)
    as [returned w1] eqn:Hloop.
  apply heal_attempts_restart in Hloop as [Hrng Hloop].
  destruct (first_success (rng w) (rng_reads w) (Z.to_nat n)) as [k|] eqn:Hfirst.
  - destruct Hloop as (Hk & Htrace & result & -> & Hs & Hd). simpl.
    exists result,
      (failed_attempts k (target decision) ++ successful_attempt (target decision)).
    split; [reflexivity|]. split; [exact Htrace|]. split; [|split; [auto|]].
    + unfold commands_of. rewrite omap_app.
      fold (commands_of (failed_attempts k (target decision))).
      rewrite length_app, commands_of_failed_attempts, repeat_length. simpl. lia.
    + intros _ Hfail. rewrite first_success_none in Hfirst by exact Hfail. discriminate.
  - destruct Hloop as [-> Htrace]. simpl.
    eexists _, (failed_attempts (Z.to_nat n) (target decision)).
    split; [reflexivity|]. split; [exact Htrace|]. split; [|split; [auto|]].
    + rewrite commands_of_failed_attempts, repeat_length. lia.
    + intros -> _. split; [reflexivity|]. now rewrite commands_of_failed_attempts.
Qed.

Lemma heal_service_retries_witness :
  let '(attempt, w') := _execute_heal_service executor0 heal_by_default failing_world in
  exists result new_events,
    attempt = Return result /\
    trace w' = trace failing_world ++ new_events /\
    success result = false /\
    commands_of new_events = repeat (restart_command "web") 3.
Proof.
  pose proof (heal_service_retries executor0 heal_by_default failing_world 3
                eq_refl eq_refl) as H.
  destruct (_execute_heal_service executor0 heal_by_default failing_world)
    as [attempt w'].
  destruct H as (result & new_events & Ha & Ht & _ & _ & H).
  exists result, new_events. split; [exact Ha|]. split; [exact Ht|].
  apply H; [reflexivity|]. intros k. vm_compute. reflexivity.
Defined.

End executor_proofs.

(** ** Learning module *)

Module learning_proofs.
Import decision_engine learning_module learning_spec.

Lemma Qgtb_true a b : Qgtb a b = true <-> (b < a)%Q.
Proof.
  unfold Qgtb. rewrite negb_true_iff, <- not_true_iff_false, Qle_bool_iff.
  split; [apply Qnot_le_lt | apply Qlt_not_le].
Qed.

Lemma Qgtb_false a b : Qgtb a b = false <-> (a <= b)%Q.
Proof. unfold Qgtb. now rewrite negb_false_iff, Qle_bool_iff. Qed.

Lemma threshold_buffer_insert (m : gmap string (list Q)) key v :
  threshold_buffer (<[key := v]> m) key = v.
Proof. unfold threshold_buffer. now rewrite lookup_insert_eq. Qed.

Lemma threshold_buffer_insert_ne (m : gmap string (list Q)) key key' v :
  key <> key' -> threshold_buffer (<[key := v]> m) key' = threshold_buffer m key'.
Proof. intros H. unfold threshold_buffer. now rewrite lookup_insert_ne. Qed.

Lemma last_n_length {A} n (l : list A) : (length (last_n n l) <= n)%nat.
Proof. unfold last_n. rewrite length_drop. lia. Qed.

Lemma last_n_short {A} n (l : list A) : (length l <= n)%nat -> last_n n l = l.
Proof.
  intros H. unfold last_n. replace (length l - n)%nat with 0%nat by lia. reflexivity.
Qed.

Lemma is_scaling_eqb outcome :
  String.eqb (action_value (action_type (decision outcome))) "scale_up"
  || String.eqb (action_value (action_type (decision outcome))) "scale_down"
  = is_scaling outcome.
Proof. unfold is_scaling. now destruct (action_type (decision outcome)). Qed.

(** What one learning step leaves in the buffers. *)
Lemma learn_step self outcome key :
  buffer (_learn_optimal_thresholds self outcome) key =
  if is_scaling outcome && Qgtb (effectiveness_of outcome) 0.5
     && String.eqb (threshold_key outcome) key
  then last_n 50 (buffer self key ++ [cpu_usage (system_state_before outcome)])
  else buffer self key.
Proof.
  unfold _learn_optimal_thresholds, buffer. rewrite is_scaling_eqb.
  fold (effectiveness_of outcome) (threshold_key outcome).
  destruct (is_scaling outcome); simpl; [|reflexivity].
  set (k := threshold_key outcome).
  set (m := learned_thresholds self).
  set (m1 := match m !! k with None => <[k := []]> m | Some _ => m end).
  assert (Hm1 : forall key', threshold_buffer m1 key' = threshold_buffer m key').
  { intros key'. subst m1. destruct (m !! k) eqn:Hk; [reflexivity|].
    destruct (String.eqb_spec k key') as [<-|Hne].
    - rewrite threshold_buffer_insert. unfold threshold_buffer. now rewrite Hk.
    - now rewrite threshold_buffer_insert_ne. }
  destruct (Qgtb (effectiveness_of outcome) 0.5); simpl; [|apply Hm1].
  rewrite Hm1.
  destruct (String.eqb_spec k key) as [<-|Hne].
  - destruct (50 <? _)%nat eqn:Hlen.
    + now rewrite threshold_buffer_insert.
    + apply Nat.ltb_ge in Hlen. rewrite threshold_buffer_insert.
      symmetry. now apply last_n_short.
  - destruct (50 <? _)%nat; rewrite !threshold_buffer_insert_ne by assumption; apply Hm1.
Qed.

(** C7. [_learn_optimal_thresholds] appends the CPU usage of the
    before-state to the buffer of the action when the action is a
    scaling action and the overall effectiveness is strictly greater
    than 0.5, and keeps the last 50 entries; an outcome whose
    effectiveness is at most 0.5 leaves every buffer as it was; a buffer
    changes only in that way; and no buffer ever holds more than 50
    entries, whatever outcomes the module has learned from. *)
Theorem thresholds_learned_only_when_effective self outcome key :
  let self' := _learn_optimal_thresholds self outcome in
  let value := cpu_usage (system_state_before outcome) in
  (is_scaling outcome = true -> (0.5 < effectiveness_of outcome)%Q ->
   buffer self' (threshold_key outcome)
     = last_n 50 (buffer self (threshold_key outcome) ++ [value])) /\
  ((effectiveness_of outcome <= 0.5)%Q -> buffer self' key = buffer self key) /\
  (buffer self' key <> buffer self key ->
   (0.5 < effectiveness_of outcome)%Q /\ is_scaling outcome = true /\
   key = threshold_key outcome /\
   buffer self' key = last_n 50 (buffer self key ++ [value])) /\
  ((length (buffer self key) <= 50)%nat -> (length (buffer self' key) <= 50)%nat) /\
  (forall config outcomes,
     (length (buffer (learn_all (__init__ config) outcomes) key) <= 50)%nat).
Proof.
  simpl. split; [|split; [|split; [|split]]].
  - intros Hs He. rewrite learn_step, Hs, String.eqb_refl.
    apply Qgtb_true in He. now rewrite He.
  - intros He. rewrite learn_step. apply Qgtb_false in He.
    now rewrite He, andb_false_r.
  - intros Hchange. rewrite learn_step in *.
    destruct (is_scaling outcome); simpl in *; [|congruence].
    destruct (Qgtb (effectiveness_of outcome) 0.5) eqn:He; simpl in *; [|congruence].
    destruct (String.eqb_spec (threshold_key outcome) key) as [<-|]; [|congruence].
    apply Qgtb_true in He. auto.
  - intros Hlen. rewrite learn_step.
    destruct (_ && _); [apply last_n_length | exact Hlen].
  - intros config outcomes. unfold learn_all.
    assert (H : forall self0, (length (buffer self0 key) <= 50)%nat ->
              (length (buffer (fold_left _learn_optimal_thresholds outcomes self0) key)
               <= 50)%nat).
    { induction outcomes as [|o outcomes IH]; intros self0 H0; simpl; [exact H0|].
      apply IH. rewrite learn_step.
      destruct (_ && _); [apply last_n_length | exact H0]. }
    apply H. unfold buffer, threshold_buffer. simpl. rewrite lookup_empty. simpl. lia.
Qed.

Lemma thresholds_learned_only_when_effective_witness :
  buffer (_learn_optimal_thresholds (__init__ []) (scale_up_outcome 81 0.6))
         "scale_up_cpu_threshold" = [81%Q] /\
  buffer (_learn_optimal_thresholds (__init__ []) (scale_up_outcome 84 0.5))
         "scale_up_cpu_threshold" = [].
Proof.
  split.
  - apply (proj1 (thresholds_learned_only_when_effective
                    (__init__ []) (scale_up_outcome 81 0.6) "scale_up_cpu_threshold"));
      reflexivity.
  - apply (proj1 (proj2 (thresholds_learned_only_when_effective
                    (__init__ []) (scale_up_outcome 84 0.5) "scale_up_cpu_threshold"))).
    vm_compute. discriminate.
Defined.

(** Ten outcomes with alternating effectiveness leave the CPU values of
    the five effective ones; 0.5 itself does not count. *)
Example alternating_effectiveness :
  buffer (learn_all (__init__ []) alternating_outcomes) "scale_up_cpu_threshold"
    = [81; 83; 85; 87; 89]%Q.
Proof. vm_compute. reflexivity. Qed.

End learning_proofs.

(** ** Monitoring system and status report *)

Module monitoring_proofs.
Import decision_engine monitoring_system monitoring_spec.

(** *** Pruning of alerts *)

Lemma get_system_state_clock self w st w' :
  get_system_state self w = (st, w') -> clock w' = clock w.
Proof.
  unfold get_system_state, _generate_cpu_metric, _generate_memory_metric,
    _generate_disk_metric, _generate_network_metric, _generate_response_time_metric,
    _generate_error_rate_metric, _generate_request_count_metric,
    _check_service_health, uniform, gauss.
  simpl. unfold bind, ret, now, random. simpl.
  repeat match goal with |- context [if ?c then _ else _] => destruct c; simpl end;
    intros [= <- <-]; reflexivity.
Qed.

Lemma new_alert_clock p ty sev msg w a w' :
  new_alert p ty sev msg w = (a, w') -> clock w' = clock w.
Proof. unfold new_alert. intros H. run. reflexivity. Qed.

(** After a pass the alert list is the old list and the new alerts,
    filtered by age at the last reading of the clock. *)
Lemma check_alerts_pass_prunes self w self' w' :
  _check_alerts_pass self w = (self', w') ->
  clock w' = clock w /\
  exists new_alerts,
    current_alerts self' =
      List.filter
        (fun alert => last_reading w' - timedelta_hours 1 <? alert_timestamp alert)
        (current_alerts self ++ new_alerts).
Proof.
  unfold _check_alerts_pass. intros H.
  apply bind_run in H as (st & w1 & Hst & H). apply get_system_state_clock in Hst.
  assert (Hstep : forall (c : bool) p ty sev msg acc wa acc' wb,
            (if c then a <- new_alert p ty sev msg ;; ret (acc ++ [a]) else ret acc) wa
              = (acc', wb) -> clock wb = clock wa).
  { intros c p ty sev msg acc wa acc' wb Hc. destruct c.
    - apply bind_run in Hc as (a & wc & Ha & Hc). apply new_alert_clock in Ha.
      apply ret_run in Hc as [_ ->]. exact Ha.
    - now apply ret_run in Hc as [_ ->]. }
  apply bind_run in H as (a1 & w2 & H1 & H). apply Hstep in H1.
  apply bind_run in H as (a2 & w3 & H2 & H). apply Hstep in H2.
  apply bind_run in H as (a3 & w4 & H3 & H). apply Hstep in H3.
  apply bind_run in H as (a4 & w5 & H4 & H). apply Hstep in H4.
  apply bind_run in H as (a5 & w6 & H5 & H). apply Hstep in H5.
  apply bind_run in H as (r1 & w7 & Hr1 & H). unfold random in Hr1. injection Hr1 as <- <-.
  apply bind_run in H as (a6 & w8 & H6 & H). apply Hstep in H6.
  apply bind_run in H as (r2 & w9 & Hr2 & H). unfold random in Hr2. injection Hr2 as <- <-.
  apply bind_run in H as (a7 & w10 & H7 & H). apply Hstep in H7.
  apply bind_run in H as (t & w11 & Hnow & H). unfold now in Hnow. injection Hnow as <- <-.
  apply bind_run in H as ([] & w12 & Hsl & H). unfold sleep, emit in Hsl.
  injection Hsl as <-.
  apply ret_run in H as [-> ->]. simpl in *.
  split; [congruence|]. exists a7. unfold last_reading. simpl. reflexivity.
Qed.

(** C9. An alert of the current list whose timestamp is more than one
    hour before the instant at which the pass prunes (its last reading
    of the clock) is not in the list after the pass; an alert younger
    than one hour at that instant is still in it. *)
Theorem old_alerts_pruned self w alert :
  let self' := fst (_check_alerts_pass self w) in
  let pruned_at := last_reading (snd (_check_alerts_pass self w)) in
  In alert (current_alerts self) ->
  (alert_timestamp alert < pruned_at - timedelta_hours 1 ->
   ~ In alert (current_alerts self')) /\
  (pruned_at - timedelta_hours 1 < alert_timestamp alert ->
   In alert (current_alerts self')).
Proof.
  destruct (_check_alerts_pass self w) as [self' w'] eqn:Hrun. simpl.
  apply check_alerts_pass_prunes in Hrun as (_ & new_alerts & ->).
  intros Hin. split.
  - intros Hold Hkept. apply List.filter_In in Hkept as [_ Hkept].
    apply Z.ltb_lt in Hkept. lia.
  - intros Hyoung. apply List.filter_In. split.
    + apply in_or_app. now left.
    + now apply Z.ltb_lt.
Qed.

Lemma old_alerts_pruned_witness :
  let self' := fst (_check_alerts_pass idle_monitoring calm_world) in
  ~ In old_alert (current_alerts self') /\ In young_alert (current_alerts self').
Proof.
  split.
  - apply (proj1 (old_alerts_pruned idle_monitoring calm_world old_alert
                    (or_introl eq_refl))).
    vm_compute. reflexivity.
  - apply (proj2 (old_alerts_pruned idle_monitoring calm_world young_alert
                    (or_intror (or_introl eq_refl)))).
    vm_compute. reflexivity.
Defined.

(** *** The status report *)

(** Under a clock that shows [t] at every reading, the report of the
    recent decisions is the history filtered at [t]. *)
Lemma recent_decisions_frozen self w reports w' t :
  (forall k, clock w k = t) ->
  get_recent_decisions self w = (reports, w') ->
  clock w' = clock w /\
  reports = List.map report_of
              (List.filter (fun d => t - timedelta_hours 1 <? decision_engine.timestamp d)
                           (decision_history self)).
Proof.
  intros Ht. unfold get_recent_decisions. intros H.
  apply bind_run in H as (recent & w1 & Hloop & H). apply ret_run in H as [-> ->].
  assert (Hgen : forall history acc wa acc' wb,
            clock wa = clock w ->
            for_each history
              (fun d recent =>
                 t0 <- now ;;
                 if t0 - timedelta_hours 1 <? decision_engine.timestamp d
                 then ret (recent ++ [d]) else ret recent) acc wa = (acc', wb) ->
            clock wb = clock w /\
            acc' = acc ++ List.filter
                            (fun d => t - timedelta_hours 1 <? decision_engine.timestamp d)
                            history).
  { induction history as [|d history IH]; intros acc wa acc' wb Hc Hrun; simpl in Hrun.
    - apply ret_run in Hrun as [-> ->]. now rewrite app_nil_r.
    - apply bind_run in Hrun as (acc1 & wc & Hbody & Hrun).
      apply bind_run in Hbody as (t0 & wd & Hnow & Hbody).
      unfold now in Hnow. injection Hnow as <- <-. rewrite Hc, Ht in Hbody.
      cbn [List.filter].
      destruct (t - timedelta_hours 1 <? decision_engine.timestamp d);
        apply ret_run in Hbody as [-> ->];
        apply IH in Hrun as [Hcb ->]; try (simpl; first [exact Hc | reflexivity]);
        (split; [exact Hcb|]); [now rewrite <- app_assoc | reflexivity]. }
  apply Hgen in Hloop as [Hc ->]; [|reflexivity]. split; [exact Hc | reflexivity].
Qed.

(** C8, as the code has it. Two calls of the status accessor with no
    event in between agree on every field that is not taken from the
    clock: is_running, project_context, is_monitoring,
    metrics_collected, active_alerts, monitoring_interval,
    cloud_provider, total_resources, resources_by_type. The fields
    last_collection and last_updated are the time of the call and
    last_decisions is filtered by it: the two results (of the agent and
    of the monitoring system) are equal when the clock shows the same
    instant at both calls. *)
Theorem status_repeatable_when_clock_stands (agent : devops_agent.DevOpsAgent) w :
  let '(first, w1) := devops_agent.get_status agent w in
  let '(second, _) := devops_agent.get_status agent w1 in
  let m1 := devops_agent.monitoring_status first in
  let m2 := devops_agent.monitoring_status second in
  let i1 := devops_agent.infrastructure_status first in
  let i2 := devops_agent.infrastructure_status second in
  (devops_agent.status_is_running first = devops_agent.status_is_running second /\
   devops_agent.status_project_context first
     = devops_agent.status_project_context second /\
   status_is_monitoring m1 = status_is_monitoring m2 /\
   status_metrics_collected m1 = status_metrics_collected m2 /\
   status_active_alerts m1 = status_active_alerts m2 /\
   status_monitoring_interval m1 = status_monitoring_interval m2 /\
   infrastructure_manager.status_cloud_provider i1
     = infrastructure_manager.status_cloud_provider i2 /\
   infrastructure_manager.status_total_resources i1
     = infrastructure_manager.status_total_resources i2 /\
   infrastructure_manager.status_resources_by_type i1
     = infrastructure_manager.status_resources_by_type i2) /\
  (frozen (clock w) ->
   first = second /\
   fst (get_status (devops_agent.monitoring_system agent) w)
     = fst (get_status (devops_agent.monitoring_system agent)
              (snd (get_status (devops_agent.monitoring_system agent) w)))).
Proof.
  destruct (devops_agent.get_status agent w) as [first w1] eqn:H1.
  destruct (devops_agent.get_status agent w1) as [second w2] eqn:H2.
  unfold devops_agent.get_status in H1, H2.
  apply bind_run in H1 as (m1 & wa & Hm1 & H1).
  apply bind_run in H1 as (i1 & wb & Hi1 & H1).
  apply bind_run in H1 as (d1 & wc & Hd1 & H1). apply ret_run in H1 as [-> ->].
  apply bind_run in H2 as (m2 & wd & Hm2 & H2).
  apply bind_run in H2 as (i2 & we & Hi2 & H2).
  apply bind_run in H2 as (d2 & wf & Hd2 & H2). apply ret_run in H2 as [-> ->].
  unfold get_status, bind, ret, now in Hm1, Hm2.
  injection Hm1 as <- <-. injection Hm2 as <- <-.
  unfold infrastructure_manager.get_status, bind, ret, now in Hi1, Hi2.
  injection Hi1 as <- <-. injection Hi2 as <- <-.
  simpl. split; [repeat split|].
  intros Hfrozen. simpl in *.
  set (t := clock w 0%nat).
  assert (Ht : forall k, clock w k = t) by (intros k; apply Hfrozen).
  apply (recent_decisions_frozen _ _ _ _ t) in Hd1 as [Hc1 ->]; [|exact Ht].
  simpl in Hc1.
  apply (recent_decisions_frozen _ _ _ _ t) in Hd2 as [_ ->];
    [|simpl; intros k; rewrite Hc1; apply Ht].
  rewrite !Hc1, !Ht. split; reflexivity.
Qed.

Lemma status_repeatable_when_clock_stands_witness :
  fst (devops_agent.get_status idle_agent frozen_world)
    = fst (devops_agent.get_status idle_agent
             (snd (devops_agent.get_status idle_agent frozen_world))).
Proof.
  pose proof (status_repeatable_when_clock_stands idle_agent frozen_world) as H.
  destruct (devops_agent.get_status idle_agent frozen_world) as [first w1].
  cbn [fst snd].
  destruct (devops_agent.get_status idle_agent w1) as [second w2].
  cbn [fst snd]. destruct H as [_ H]. apply H. intros i j. reflexivity.
Defined.

(** C8 as stated fails: with no event in between, two calls made while
    the clock advances return different results, for the monitoring
    system and for the agent. *)
Lemma status_differs_when_clock_advances :
  fst (get_status idle_monitoring calm_world)
    <> fst (get_status idle_monitoring (snd (get_status idle_monitoring calm_world))) /\
  fst (devops_agent.get_status idle_agent calm_world)
    <> fst (devops_agent.get_status idle_agent
              (snd (devops_agent.get_status idle_agent calm_world))).
Proof. split; vm_compute; intros H; discriminate H. Qed.

End monitoring_proofs.

(** ** Worlds *)

Lemma later_refl w : later w w.
Proof. unfold later. repeat split; try lia. exists []. now rewrite app_nil_r. Qed.

Lemma later_trans w1 w2 w3 : later w1 w2 -> later w2 w3 -> later w1 w3.
Proof.
  intros (Hc & Hr & Hn & H1 & H2 & H3 & e & He) (Hc' & Hr' & Hn' & H1' & H2' & H3' & e' & He').
  unfold later. repeat split; try congruence; try lia.
  exists (e ++ e'). now rewrite He', He, app_assoc.
Qed.

Lemma now_later w t w' : now w = (t, w') -> later w w'.
Proof.
  unfold now. intros [= _ <-]. unfold later. simpl. repeat split; try lia.
  exists []. now rewrite app_nil_r.
Qed.

Lemma random_later w r w' : random w = (r, w') -> later w w'.
Proof.
  unfold random. intros [= _ <-]. unfold later. simpl. repeat split; try lia.
  exists []. now rewrite app_nil_r.
Qed.

Lemma gauss_later mu sigma w x w' : gauss mu sigma w = (x, w') -> later w w'.
Proof.
  unfold gauss. intros [= _ <-]. unfold later. simpl. repeat split; try lia.
  exists []. now rewrite app_nil_r.
Qed.

Lemma emit_later e w u w' : emit e w = (u, w') -> later w w'.
Proof.
  unfold emit. intros [= _ <-]. unfold later. simpl. repeat split; try lia.
  now exists [e].
Qed.

Lemma sleep_later s w u w' : sleep s w = (u, w') -> later w w'.
Proof. apply emit_later. Qed.

(** Cut a run into its calls, turn every call [leaf] knows into a fact
    about the worlds, and chain the facts. *)
Ltac calls leaf :=
  repeat match goal with
  | H : bind _ _ _ = (_, _) |- _ => apply bind_run in H as (? & ? & ? & H)
  | H : ret _ _ = (_, _) |- _ => apply ret_run in H as [_ ->]
  | H : (let (_, _) := ?p in _) _ = (_, _) |- _ => destruct p
  | H : (if ?c then _ else _) _ = (_, _) |- _ => destruct c
  | H : (match ?o with Some _ => _ | None => _ end) _ = (_, _) |- _ => destruct o
  | H : now _ = (_, _) |- _ => apply now_later in H
  | H : random _ = (_, _) |- _ => apply random_later in H
  | H : gauss _ _ _ = (_, _) |- _ => apply gauss_later in H
  | H : sleep _ _ = (_, _) |- _ => apply sleep_later in H
  | H : emit _ _ = (_, _) |- _ => apply emit_later in H
  | H : _ _ = (_, _) |- _ => leaf H
  end.

Ltac chain :=
  solve [apply later_refl | eapply later_trans; [eassumption | chain]].

Lemma uniform_later a b w x w' : uniform a b w = (x, w') -> later w w'.
Proof. unfold uniform. intros H. calls ltac:(fun _ => fail); chain. Qed.

Lemma sublist_bool_filter {A} (f : A -> bool) (l : list A) :
  sublist (List.filter f l) l.
Proof.
  induction l as [|x l IH]; simpl; [constructor|].
  destruct (f x); now constructor.
Qed.

(** ** The analyzers, one by one *)

Module analyzer_proofs.
Import decision_engine decision_spec analyzer_spec decision_proofs learning_proofs.

Lemma count_action_app a l1 l2 :
  count_action a (l1 ++ l2) = (count_action a l1 + count_action a l2)%nat.
Proof. unfold count_action. now rewrite List.filter_app, length_app. Qed.

Lemma count_action_heals a hs names :
  a <> HEAL_SERVICE ->
  Forall2 (fun d s => exists t, d = heal_decision s t) hs names ->
  count_action a hs = 0%nat.
Proof.
  intros Ha H. unfold count_action.
  induction H as [|d s hs names [t ->] _ IH]; [reflexivity|].
  simpl. destruct a; try congruence; exact IH.
Qed.

(** the loop over the service health map reads the clock once for every
    unhealthy service *)
Lemma heal_loop_reads (items : list (string * bool)) :
  forall acc w ds w',
    for_each items
      (fun '(service, is_healthy) decisions =>
         if negb is_healthy then
           t <- now ;; ret (decisions ++ [heal_decision service t])
         else ret decisions) acc w = (ds, w') ->
    clock_reads w' = (clock_reads w + length (unhealthy items))%nat.
Proof.
  induction items as [|[service is_healthy] items IH]; intros acc w ds w' H; simpl in H.
  - run. unfold unhealthy. simpl. lia.
  - apply bind_run in H as (acc1 & w1 & Hbody & H). apply IH in H. rewrite H.
    unfold unhealthy. destruct is_healthy; simpl in Hbody; run; simpl; lia.
Qed.

(** what the health analyzer does about the error rate *)
Lemma health_error_rate self st ctx w ds w' :
  _analyze_health_decisions self st ctx w = (ds, w') ->
  let t := clock w (clock_reads w + length (unhealthy (service_health st))) in
  let high := Qgtb (error_rate st) (error_rate_threshold (thresholds self)) in
  count_action ROLLBACK ds
    = (if high && recently_deployed st t then 1 else 0)%nat /\
  count_action RESTART_SERVICE ds
    = (if high && negb (recently_deployed st t) then 1 else 0)%nat.
Proof.
  unfold _analyze_health_decisions. intros H.
  apply bind_run in H as (hs & w1 & Hloop & H).
  pose proof (heal_loop_reads _ _ _ _ _ Hloop) as Hreads.
  apply heal_loop_spec in Hloop as (Hc & hs' & -> & Hhs & _). simpl in *.
  pose proof (count_action_heals ROLLBACK _ _ ltac:(discriminate) Hhs) as Hrb.
  pose proof (count_action_heals RESTART_SERVICE _ _ ltac:(discriminate) Hhs) as Hrs.
  unfold recently_deployed. rewrite <- Hc, <- Hreads.
  apply bind_run in H as (ds2 & w2 & Herr & H).
  assert (Hdisk : count_action ROLLBACK ds = count_action ROLLBACK ds2 /\
                  count_action RESTART_SERVICE ds = count_action RESTART_SERVICE ds2).
  { run; rewrite ?count_action_app; cbn; split; lia. }
  destruct Hdisk as [-> ->]. clear H.
  destruct (Qgtb (error_rate st) _); simpl in Herr.
  - destruct (last_deployment st) as [deployed|]; simpl in Herr.
    + apply bind_run in Herr as (recent & w3 & Hrecent & Herr).
      apply bind_run in Hrecent as (t & w4 & Hnow & Hrecent).
      unfold now in Hnow. injection Hnow as <- <-.
      apply ret_run in Hrecent as [-> ->].
      destruct (_ <? _); run; simpl;
        rewrite ?count_action_app, ?Hrb, ?Hrs; split; reflexivity.
    + run; simpl; rewrite ?count_action_app, ?Hrb, ?Hrs; split; reflexivity.
  - run; simpl; rewrite ?count_action_app, ?Hrb, ?Hrs; split; reflexivity.
Qed.

(** X1. When the error rate exceeds its threshold the health analyzer
    asks for exactly one of a rollback and a restart: the rollback when
    the last deployment is less than an hour before the reading of the
    clock that follows the heal decisions, the restart otherwise (also
    when no deployment is known). At or below the threshold it asks for
    neither. *)
Theorem high_error_rate_rolls_back_or_restarts self st ctx w :
  let decisions := fst (_analyze_health_decisions self st ctx w) in
  let t := clock w (clock_reads w + length (unhealthy (service_health st))) in
  ((error_rate_threshold (thresholds self) < error_rate st)%Q ->
   count_action ROLLBACK decisions = (if recently_deployed st t then 1 else 0)%nat /\
   count_action RESTART_SERVICE decisions
     = (if recently_deployed st t then 0 else 1)%nat) /\
  ((error_rate st <= error_rate_threshold (thresholds self))%Q ->
   count_action ROLLBACK decisions = 0%nat /\
   count_action RESTART_SERVICE decisions = 0%nat).
Proof.
  destruct (_analyze_health_decisions self st ctx w) as [ds w'] eqn:H.
  apply health_error_rate in H as [Hrb Hrs]. simpl. split; intros Hrate.
  - apply Qgtb_true in Hrate. rewrite Hrate in Hrb, Hrs. simpl in Hrb, Hrs.
    rewrite Hrb, Hrs. now destruct (recently_deployed _ _).
  - apply Qgtb_false in Hrate. rewrite Hrate in Hrb, Hrs. auto.
Qed.

Lemma high_error_rate_rolls_back_or_restarts_witness :
  count_action ROLLBACK
    (fst (_analyze_health_decisions (__init__ [])
            (failing_state (steady_clock 0 - timedelta_seconds 1800))
            python_project calm_world)) = 1%nat /\
  count_action RESTART_SERVICE
    (fst (_analyze_health_decisions (__init__ [])
            (failing_state (steady_clock 0 - timedelta_hours 3))
            python_project calm_world)) = 1%nat.
Proof.
  split.
  - apply (proj1 (high_error_rate_rolls_back_or_restarts (__init__ [])
                    (failing_state (steady_clock 0 - timedelta_seconds 1800))
                    python_project calm_world)).
    reflexivity.
  - apply (proj1 (high_error_rate_rolls_back_or_restarts (__init__ [])
                    (failing_state (steady_clock 0 - timedelta_hours 3))
                    python_project calm_world)).
    reflexivity.
Defined.

(** X2. Network usage, request count and deployment status of the state
    play no part in a decision, and of the project context only the
    project type and the "caching" requirement do: [make_decisions]
    gives the same decisions and the same history on states and
    contexts that agree on the rest. *)
Theorem decisions_ignore_network_and_requests self s1 s2 c1 c2 w :
  same_readings s1 s2 ->
  project_type c1 = project_type c2 ->
  dict_get (performance_requirements c1) "caching" PNone
    = dict_get (performance_requirements c2) "caching" PNone ->
  make_decisions self s1 c1 w = make_decisions self s2 c2 w.
Proof.
  destruct s1, s2. unfold same_readings. simpl.
  intros (-> & -> & -> & -> & -> & -> & -> & ->) Htype Hcaching.
  unfold make_decisions, _analyze_performance_decisions, _analyze_health_decisions,
    _analyze_security_decisions, _analyze_cost_decisions. simpl.
  rewrite Htype, Hcaching. reflexivity.
Qed.

Lemma decisions_ignore_network_and_requests_witness :
  make_decisions (__init__ []) busy_state python_project calm_world
  = make_decisions (__init__ [])
      {| cpu_usage := 95; memory_usage := 95; disk_usage := 95; network_usage := 99;
         response_time := 5; error_rate := 10; request_count := 100000;
         service_health := [("web", false); ("api", true)]; alerts := [];
         deployment_status := "failed"; last_deployment := None |}
      python_project calm_world.
Proof.
  apply decisions_ignore_network_and_requests;
    [unfold same_readings; simpl; repeat split | reflexivity | reflexivity].
Defined.

Lemma Qltb_true a b : Qltb a b = true <-> (a < b)%Q.
Proof. unfold Qltb. apply (Qgtb_true b a). Qed.

Lemma Qltb_false a b : Qltb a b = false <-> (b <= a)%Q.
Proof. unfold Qltb. apply (Qgtb_false b a). Qed.

(** X3. With the thresholds every engine has, the cost analyzer asks to
    scale down only when the performance analyzer of the same cycle
    asks for it too: both decisions are [scale_down] of "compute" at
    the same priority, so the cycle holds the request twice. *)
Theorem cost_scale_down_repeats_performance self st ctx w w' d :
  thresholds self = _load_thresholds ->
  In d (fst (_analyze_cost_decisions self st ctx w')) ->
  action_type d = SCALE_DOWN ->
  target d = "compute" /\
  exists d', In d' (fst (_analyze_performance_decisions self st ctx w)) /\
    action_type d' = SCALE_DOWN /\ target d' = "compute" /\
    priority d' = priority d.
Proof.
  intros Hth Hd Ha.
  assert (Hlow : (cpu_usage st < 20)%Q /\ target d = "compute" /\ priority d = LOW).
  { destruct (_analyze_cost_decisions self st ctx w') as [ds w1] eqn:H.
    unfold _analyze_cost_decisions in H. simpl in Hd. run; simpl in Hd;
      repeat match goal with
      | H : _ \/ _ |- _ => destruct H
      | H : False |- _ => destruct H
      end; subst; try discriminate;
      match goal with
      | H : Qltb _ 20 && _ = true |- _ =>
          apply andb_true_iff in H as [H _]; apply Qltb_true in H
      end; auto. }
  destruct Hlow as (Hcpu & Htarget & Hprio). split; [exact Htarget|].
  unfold _analyze_performance_decisions. rewrite Hth. simpl.
  assert (Hup : Qgtb (cpu_usage st) 80.0 = false).
  { apply Qgtb_false. apply Qlt_le_weak. eapply Qlt_trans; [exact Hcpu | reflexivity]. }
  assert (Hdown : Qltb (cpu_usage st) 30.0 = true).
  { apply Qltb_true. eapply Qlt_trans; [exact Hcpu | reflexivity]. }
  rewrite Hup, Hdown. rewrite Hprio.
  unfold bind, now, ret; simpl.
  destruct (Qgtb (memory_usage st) 85.0); simpl;
    destruct (Qgtb (response_time st) 2.0); simpl;
    try destruct (truthy _); simpl;
    eexists; (split; [left; reflexivity|]); simpl; auto.
Qed.

Lemma cost_scale_down_repeats_performance_witness :
  exists d d',
    In d (fst (_analyze_cost_decisions (__init__ []) idle_state python_project
                 night_world)) /\
    In d' (fst (_analyze_performance_decisions (__init__ []) idle_state python_project
                  night_world)) /\
    action_type d = SCALE_DOWN /\ action_type d' = SCALE_DOWN /\
    target d = "compute" /\ target d' = "compute".
Proof.
  assert (H : exists d,
             In d (fst (_analyze_cost_decisions (__init__ []) idle_state
                          python_project night_world)) /\
             action_type d = SCALE_DOWN).
  { vm_compute. eexists. split; [left; reflexivity | reflexivity]. }
  destruct H as (d & Hin & Ha).
  destruct (cost_scale_down_repeats_performance (__init__ []) idle_state python_project
              night_world night_world d eq_refl Hin Ha)
    as (Ht & d' & Hin' & Ha' & Ht' & _).
  exists d, d'. repeat split; assumption.
Defined.

Lemma performance_at_rest self st ctx w :
  at_rest self st -> _analyze_performance_decisions self st ctx w = ([], w).
Proof.
  intros (Hdown & Hup & Hmem & Hresp & _).
  apply Qgtb_false in Hup, Hmem, Hresp. apply Qltb_false in Hdown.
  unfold _analyze_performance_decisions. rewrite Hup, Hdown, Hmem, Hresp. reflexivity.
Qed.

Lemma health_at_rest self st ctx w :
  at_rest self st -> _analyze_health_decisions self st ctx w = ([], w).
Proof.
  intros (_ & _ & _ & _ & Herr & Hdisk & Hhealth & _).
  apply Qgtb_false in Herr, Hdisk.
  unfold _analyze_health_decisions. rewrite Herr, Hdisk.
  assert (Hloop : for_each (service_health st)
              (fun '(service, is_healthy) decisions =>
                 if negb is_healthy then
                   t <- now ;; ret (decisions ++ [heal_decision service t])
                 else ret decisions) [] w = ([], w)).
  { unfold unhealthy in Hhealth.
    induction (service_health st) as [|[service h] items IH]; [reflexivity|].
    simpl in *. destruct h; simpl in *; [|discriminate].
    unfold bind, ret. simpl. apply IH, Hhealth. }
  unfold bind at 1. rewrite Hloop. reflexivity.
Qed.

Lemma security_at_rest self st ctx w :
  at_rest self st -> _analyze_security_decisions self st ctx w = ([], w).
Proof.
  intros (_ & _ & _ & _ & _ & _ & _ & Halerts).
  unfold _analyze_security_decisions. rewrite Halerts. reflexivity.
Qed.

Lemma cost_at_rest self st ctx w :
  (20 <= cpu_scale_down (thresholds self))%Q -> at_rest self st ->
  _analyze_cost_decisions self st ctx w = ([], snd (now w)).
Proof.
  intros Hth (Hdown & _).
  assert (Hc20 : Qltb (cpu_usage st) 20 = false).
  { apply Qltb_false. eapply Qle_trans; [exact Hth | exact Hdown]. }
  assert (Hc5 : Qltb (cpu_usage st) 5 = false).
  { apply Qltb_false. eapply Qle_trans; [|apply Qltb_false, Hc20]. discriminate. }
  unfold _analyze_cost_decisions. rewrite Hc20, Hc5. simpl.
  unfold bind, now, ret. simpl. now destruct (_ && _).
Qed.

(** X4. A system at rest needs nothing: when every reading is within
    the thresholds, every service healthy and no alert raised,
    [make_decisions] returns no decision and adds none to the history,
    which it only prunes (at its second reading of the clock; the first
    is the hour of the cost analyzer). *)
Theorem system_at_rest_needs_no_decision self st ctx w :
  (20 <= cpu_scale_down (thresholds self))%Q ->
  at_rest self st ->
  fst (fst (make_decisions self st ctx w)) = [] /\
  decision_history (snd (fst (make_decisions self st ctx w)))
    = recent_history (clock w (S (clock_reads w))) (decision_history self).
Proof.
  intros Hth Hrest. unfold make_decisions, bind.
  rewrite (performance_at_rest _ _ _ _ Hrest), (health_at_rest _ _ _ _ Hrest),
    (security_at_rest _ _ _ _ Hrest), (cost_at_rest _ _ _ _ Hth Hrest).
  simpl. rewrite app_nil_r. split; reflexivity.
Qed.

Lemma system_at_rest_needs_no_decision_witness :
  fst (fst (make_decisions (__init__ []) (quiet_state [("web", true); ("api", true)])
              python_project calm_world)) = [].
Proof.
  apply (system_at_rest_needs_no_decision (__init__ [])
           (quiet_state [("web", true); ("api", true)]) python_project calm_world).
  - discriminate.
  - unfold at_rest. simpl. repeat split; discriminate.
Defined.

(** *** The report of recent decisions *)

Lemma recent_loop (history : list Decision) :
  forall acc w acc' w',
    for_each history
      (fun d recent =>
         t <- now ;;
         if t - timedelta_hours 1 <? timestamp d
         then ret (recent ++ [d]) else ret recent) acc w = (acc', w') ->
    clock w' = clock w /\
    clock_reads w' = (clock_reads w + length history)%nat /\
    exists selected,
      acc' = acc ++ selected /\ sublist selected history /\
      (forall d, In d selected ->
         exists i, (i < length history)%nat /\
           clock w (clock_reads w + i)%nat - timedelta_hours 1 < timestamp d) /\
      (forall i d, history !! i = Some d ->
         clock w (clock_reads w + i)%nat - timedelta_hours 1 < timestamp d ->
         In d selected).
Proof.
  induction history as [|d history IH]; intros acc w acc' w' H; simpl in H.
  - apply ret_run in H as [-> ->]. repeat split; [simpl; lia|].
    exists []. rewrite app_nil_r. repeat split; [constructor | intros ? [] |].
    intros i d Hi. now rewrite lookup_nil in Hi.
  - apply bind_run in H as (acc1 & w1 & Hbody & H).
    apply bind_run in Hbody as (t & w2 & Hnow & Hbody).
    unfold now in Hnow. injection Hnow as <- <-.
    apply IH in H as (Hc & Hreads & selected & -> & Hsub & Hsel & Hall).
    destruct (_ <? _) eqn:Hrecent; apply ret_run in Hbody as [-> ->];
      simpl in Hc, Hreads, Hsel, Hall.
    + apply Z.ltb_lt in Hrecent.
      split; [exact Hc|]. split; [simpl; lia|].
      exists (d :: selected). rewrite <- app_assoc. split; [reflexivity|].
      split; [now constructor|]. split.
      * intros d' [<-|Hin].
        -- exists 0%nat. simpl. split; [lia|]. now rewrite Nat.add_0_r.
        -- destruct (Hsel d' Hin) as (i & Hi & Hlt). exists (S i). simpl.
           split; [lia|]. now rewrite Nat.add_succ_r.
      * intros [|i] d' Hi Hlt; simpl in Hi.
        -- injection Hi as <-. now left.
        -- right. apply (Hall i d' Hi). now rewrite Nat.add_succ_r in Hlt.
    + apply Z.ltb_ge in Hrecent.
      split; [exact Hc|]. split; [simpl; lia|].
      exists selected. split; [reflexivity|].
      split; [now constructor|]. split.
      * intros d' Hin. destruct (Hsel d' Hin) as (i & Hi & Hlt). exists (S i). simpl.
        split; [lia|]. now rewrite Nat.add_succ_r.
      * intros [|i] d' Hi Hlt; simpl in Hi.
        -- injection Hi as <-. rewrite Nat.add_0_r in Hlt. lia.
        -- apply (Hall i d' Hi). now rewrite Nat.add_succ_r in Hlt.
Qed.

(** X5. [get_recent_decisions] reports decisions of the history, in the
    order of the history and without changing it, and reads the clock
    once for every entry. With a clock that never goes back, every
    reported decision is less than an hour older than the first
    reading, and every decision less than an hour older than the last
    reading is reported. *)
Theorem recent_decisions_are_of_the_history self w :
  let reports := fst (get_recent_decisions self w) in
  let w' := snd (get_recent_decisions self w) in
  clock_reads w' = (clock_reads w + length (decision_history self))%nat /\
  exists selected,
    reports = List.map report_of selected /\
    sublist selected (decision_history self) /\
    (nondecreasing (clock w) ->
     (forall d, In d selected ->
        clock w (clock_reads w) - timedelta_hours 1 < timestamp d) /\
     (forall d, In d (decision_history self) ->
        clock w (pred (clock_reads w')) - timedelta_hours 1 < timestamp d ->
        In d selected)).
Proof.
  destruct (get_recent_decisions self w) as [reports w'] eqn:H. simpl.
  unfold get_recent_decisions in H.
  apply bind_run in H as (recent & w1 & Hloop & H). apply ret_run in H as [-> ->].
  apply recent_loop in Hloop as (Hc & Hreads & selected & -> & Hsub & Hsel & Hall).
  split; [exact Hreads|]. exists selected. split; [reflexivity|].
  split; [exact Hsub|]. intros Hmono. split.
  - intros d Hin. destruct (Hsel d Hin) as (i & _ & Hlt).
    pose proof (Hmono (clock_reads w) (clock_reads w + i)%nat ltac:(lia)). lia.
  - intros d Hin Hlt. apply list_elem_of_In, list_elem_of_lookup in Hin as [i Hi].
    apply (Hall i d Hi). pose proof (lookup_lt_Some _ _ _ Hi) as Hlen.
    pose proof (Hmono (clock_reads w + i)%nat (pred (clock_reads w1))
                  ltac:(rewrite Hreads; lia)). lia.
Qed.

Lemma recent_decisions_are_of_the_history_witness :
  exists selected,
    fst (get_recent_decisions
           (snd (fst (make_decisions (__init__ []) busy_state python_project
                        calm_world)))
           calm_world) = List.map report_of selected /\
    forall d, In d selected -> steady_clock 0 - timedelta_hours 1 < timestamp d.
Proof.
  destruct (recent_decisions_are_of_the_history
              (snd (fst (make_decisions (__init__ []) busy_state python_project
                           calm_world)))
              calm_world) as (_ & selected & Hreports & _ & Hclock).
  exists selected. split; [exact Hreports|].
  apply Hclock. intros i j Hij. unfold calm_world, steady_clock. simpl. lia.
Defined.

(** *** Every cycle prunes the history *)


End analyzer_proofs.

(** ** The handlers of the executor *)

Module handler_proofs.
Import decision_engine action_executor executor_spec handler_spec learning_proofs.

#[local] Arguments Qgtb : simpl never.

Ltac crunch :=
  unfold execute_action, dispatch, returning, _run_command, bind, ret, now, random,
    sleep, emit; simpl.

Lemma new_events_app w w' events :
  trace w' = trace w ++ events -> new_events w w' = events.
Proof. intros H. unfold new_events. rewrite H. apply drop_app_length. Qed.

(** [execute_action] appends its result to the history and changes
    nothing else of the executor *)
Lemma execute_action_records self decision w result self' w' :
  execute_action self decision w = (result, self', w') ->
  self' = record_result self result.
Proof.
  unfold execute_action. intros H.
  apply bind_run in H as (t0 & w1 & _ & H).
  apply bind_run in H as ([r|e] & w2 & _ & H); run;
    match goal with H : (_, _) = (_, _) |- _ => injection H as -> -> end; reflexivity.
Qed.

Lemma last_n_snoc {A} (n : nat) (l : list A) (x : A) :
  (0 < n)%nat ->
  last_n n (l ++ [x]) = last_n n (last_n n l ++ [x]) /\
  last (last_n n (l ++ [x])) = Some x /\
  length (last_n n (l ++ [x])) = Nat.min n (S (length (last_n n l))).
Proof.
  intros Hn. unfold last_n.
  assert (Hdrop : forall (k : list A) i,
            (i <= length k)%nat -> drop i (k ++ [x]) = drop i k ++ [x]).
  { intros k i Hi. now rewrite drop_app_le. }
  rewrite !length_app, !length_drop. cbn [length].
  rewrite (Hdrop l) by lia. rewrite (Hdrop (drop _ l)) by (rewrite length_drop; lia).
  rewrite drop_drop, last_snoc, ?length_app, ?length_drop. cbn [length].
  split; [|split; [reflexivity | lia]].
  f_equal. f_equal. lia.
Qed.

(** X7. The history accessor reports the last ten results, the newest
    last: after [execute_action] the last entry is the result just
    returned, and the report has one entry more than before until it
    has ten. The history itself is never shortened. *)
Theorem execution_history_reports_last_ten self decision w :
  let result := fst (fst (execute_action self decision w)) in
  let self' := snd (fst (execute_action self decision w)) in
  last (get_execution_history self') = Some (report_of_result result) /\
  length (get_execution_history self')
    = Nat.min 10 (S (length (get_execution_history self))) /\
  length (execution_history self') = S (length (execution_history self)) /\
  get_execution_history self'
    = last_n 10 (get_execution_history self ++ [report_of_result result]).
Proof.
  destruct (execute_action self decision w) as [[result self'] w'] eqn:H.
  cbn [fst snd].
  apply execute_action_records in H. subst self'.
  assert (Hget : forall executor,
            get_execution_history executor
            = List.map report_of_result (last_n 10 (execution_history executor)))
    by reflexivity.
  rewrite !Hget. unfold record_result. cbn [execution_history].
  destruct (last_n_snoc 10 (execution_history self) result ltac:(lia))
    as (Hsnoc & Hlast & Hlen).
  split; [|split; [|split]].
  - rewrite Hsnoc in Hlast |- *. revert Hlast.
    generalize (last_n 10 (last_n 10 (execution_history self) ++ [result])).
    intros l. induction l as [|y [|z l] IH]; simpl; intros H; try congruence.
    apply IH, H.
  - rewrite !length_map. exact Hlen.
  - rewrite length_app. simpl. lia.
  - rewrite Hsnoc.
    change [report_of_result result] with (List.map report_of_result [result]).
    rewrite <- map_app. unfold last_n at 1 3.
    rewrite length_map. symmetry. apply skipn_map.
Qed.

(** X8. A rollback and a configuration update cannot fail: whatever
    the decision holds, the result is a success after a wait of 5
    (respectively 2) seconds, no command is run and no random number
    drawn. *)
Theorem rollback_and_config_update_cannot_fail self decision w :
  let result := fst (fst (execute_action self decision w)) in
  let w' := snd (execute_action self decision w) in
  (action_type decision = ROLLBACK ->
   success result = true /\ new_events w w' = [Sleep 5] /\
   rng_reads w' = rng_reads w /\
   message result = "Rollback completed successfully") /\
  (action_type decision = UPDATE_CONFIG ->
   success result = true /\ new_events w w' = [Sleep 2] /\
   rng_reads w' = rng_reads w /\
   message result = "Configuration updated for " +:+ target decision).
Proof.
  split; intros Ha; unfold execute_action, dispatch; rewrite Ha; crunch;
    (split; [reflexivity|]); (split; [now apply new_events_app|]); split; reflexivity.
Qed.

Lemma rollback_and_config_update_cannot_fail_witness :
  success (fst (fst (execute_action executor0 (decision_for ROLLBACK "deployment" [])
                       failing_world))) = true.
Proof.
  apply (proj1 (rollback_and_config_update_cannot_fail executor0
                  (decision_for ROLLBACK "deployment" []) failing_world)).
  reflexivity.
Defined.

(** X9. Scaling up or down runs exactly one command when the cloud
    provider is "aws", "gcp" or "azure", and the result succeeds when
    the command does; with any other provider no command is run and
    the result is a success after a wait of 2 seconds. *)
Theorem scaling_runs_one_command_for_known_providers self decision w :
  action_type decision = SCALE_UP \/ action_type decision = SCALE_DOWN ->
  let result := fst (fst (execute_action self decision w)) in
  let w' := snd (execute_action self decision w) in
  (known_provider (cloud_provider self) = true ->
   (exists command, new_events w w' = [Command command; Sleep 1]) /\
   success result = command_succeeds (rng w) (rng_reads w)) /\
  (known_provider (cloud_provider self) = false ->
   new_events w w' = [Sleep 2] /\ success result = true /\
   rng_reads w' = rng_reads w).
Proof.
  intros [Ha|Ha]; unfold execute_action, dispatch, known_provider; rewrite Ha;
    unfold _execute_scale_up, _execute_scale_down;
    destruct (eq_str (cloud_provider self) "aws");
    [| destruct (eq_str (cloud_provider self) "gcp");
       [| destruct (eq_str (cloud_provider self) "azure")] | |
       destruct (eq_str (cloud_provider self) "gcp");
       [| destruct (eq_str (cloud_provider self) "azure")]];
    cbn [orb]; (split; [intros Hk | intros Hk]); try discriminate;
    unfold _aws_scale_up, _aws_scale_down, _gcp_scale_up, _gcp_scale_down,
      _azure_scale_up, _azure_scale_down, _generic_scale_up, _generic_scale_down;
    crunch;
    try (split; [eexists; apply new_events_app; rewrite <- app_assoc; reflexivity
                | reflexivity]);
    try (split; [now apply new_events_app | split; reflexivity]).
Qed.

Lemma scaling_runs_one_command_for_known_providers_witness :
  success (fst (fst (execute_action executor0
                       (decision_for SCALE_UP "compute" [("metric", PStr "cpu")])
                       failing_world))) = false /\
  success (fst (fst (execute_action (__init__ [("default_cloud", PStr "onprem")])
                       (decision_for SCALE_UP "compute" [("metric", PStr "cpu")])
                       failing_world))) = true.
Proof.
  split.
  - apply (proj1 (scaling_runs_one_command_for_known_providers executor0
                    (decision_for SCALE_UP "compute" [("metric", PStr "cpu")])
                    failing_world (or_introl eq_refl))).
    reflexivity.
  - apply (proj2 (scaling_runs_one_command_for_known_providers
                    (__init__ [("default_cloud", PStr "onprem")])
                    (decision_for SCALE_UP "compute" [("metric", PStr "cpu")])
                    failing_world (or_introl eq_refl))).
    reflexivity.
Defined.

(** the loop of the heal handler with an action that is not "restart":
    it waits 5 seconds in every iteration and does nothing else *)
Lemma heal_attempts_idle target action :
  eq_str action "restart" = false ->
  forall remaining attempt w,
    heal_attempts target action attempt remaining w
    = (None,
       {| clock := clock w; clock_reads := clock_reads w;
          rng := rng w; rng_reads := rng_reads w;
          normal := normal w; normal_reads := normal_reads w;
          trace := trace w ++ repeat (Sleep 5) remaining |}).
Proof.
  intros Ha. induction remaining as [|remaining IH]; intros attempt w; simpl.
  - unfold ret. rewrite app_nil_r. now destruct w.
  - rewrite Ha. unfold bind, ret, sleep, emit. simpl. rewrite IH. simpl.
    now rewrite <- app_assoc.
Qed.

(** X10. A heal decision whose "action" is not "restart" runs no
    command: the handler waits 5 seconds once for every attempt
    allowed, draws no random number and reports a failure. *)
Theorem heal_without_restart_only_waits self decision w n :
  action_type decision = HEAL_SERVICE ->
  eq_str (dict_get (parameters decision) "action" (PStr "restart")) "restart" = false ->
  dict_get (parameters decision) "max_attempts" (PInt 3) = PInt n ->
  let result := fst (fst (execute_action self decision w)) in
  let w' := snd (execute_action self decision w) in
  success result = false /\
  new_events w w' = repeat (Sleep 5) (Z.to_nat n) /\
  rng_reads w' = rng_reads w /\
  message result = "Failed to heal service " +:+ target decision +:+ " after "
                   +:+ pretty n +:+ " attempts".
Proof.
  intros Ha Haction Hn. unfold execute_action, dispatch. rewrite Ha.
  unfold _execute_heal_service. rewrite Hn. crunch.
  rewrite !(heal_attempts_idle _ _ Haction). simpl.
  split; [reflexivity|]. split; [now apply new_events_app|]. split; reflexivity.
Qed.

Lemma heal_without_restart_only_waits_witness :
  new_events failing_world
    (snd (execute_action executor0
            (decision_for HEAL_SERVICE "web"
               [("action", PStr "failover"); ("max_attempts", PInt 2)])
            failing_world))
  = [Sleep 5; Sleep 5].
Proof.
  apply (heal_without_restart_only_waits executor0
           (decision_for HEAL_SERVICE "web"
              [("action", PStr "failover"); ("max_attempts", PInt 2)])
           failing_world 2); reflexivity.
Defined.

(** X11. An optimization or a security update whose "action" is none of
    those the handler knows (or is absent) is reported as completed
    although nothing was done: no command, no wait, no random draw. *)
Theorem unknown_optimization_reports_success self decision w :
  let action := dict_get (parameters decision) "action" PNone in
  let result := fst (fst (execute_action self decision w)) in
  let w' := snd (execute_action self decision w) in
  (action_type decision = OPTIMIZE_PERFORMANCE ->
   eq_str action "increase_cache_size" = false ->
   eq_str action "cleanup_logs" = false ->
   eq_str action "identify_unused" = false ->
   success result = true /\ new_events w w' = [] /\ rng_reads w' = rng_reads w /\
   message result = "Performance optimization completed") /\
  (action_type decision = UPDATE_SECURITY ->
   eq_str action "block_suspicious_ips" = false ->
   eq_str action "renew_certificates" = false ->
   success result = true /\ new_events w w' = [] /\ rng_reads w' = rng_reads w /\
   message result = "Security update completed").
Proof.
  split; intros Ha.
  - intros H1 H2 H3. unfold execute_action, dispatch. rewrite Ha.
    unfold _execute_optimize_performance. rewrite H1, H2, H3. crunch.
    split; [reflexivity|]. split; [|split; reflexivity].
    apply new_events_app. now rewrite app_nil_r.
  - intros H1 H2. unfold execute_action, dispatch. rewrite Ha.
    unfold _execute_update_security. rewrite H1, H2. crunch.
    split; [reflexivity|]. split; [|split; reflexivity].
    apply new_events_app. now rewrite app_nil_r.
Qed.

Lemma unknown_optimization_reports_success_witness :
  success (fst (fst (execute_action executor0
                       (decision_for OPTIMIZE_PERFORMANCE "database"
                          [("action", PStr "rebuild_indexes")])
                       failing_world))) = true.
Proof.
  apply (proj1 (unknown_optimization_reports_success executor0
                  (decision_for OPTIMIZE_PERFORMANCE "database"
                     [("action", PStr "rebuild_indexes")])
                  failing_world)); reflexivity.
Defined.

(** X12. The log cleanup takes the retention without its last character
    as the number of days of its one command; a retention that is a
    number, a boolean or None cannot be cut, and the action fails with
    the type error before any command is run. *)
Theorem log_cleanup_cuts_the_retention self decision w :
  action_type decision = OPTIMIZE_PERFORMANCE ->
  dict_get (parameters decision) "action" PNone = PStr "cleanup_logs" ->
  let retention := dict_get (parameters decision) "retention" (PStr "7d") in
  let result := fst (fst (execute_action self decision w)) in
  let w' := snd (execute_action self decision w) in
  (forall text, retention = PStr text ->
     new_events w w' = [Command (cleanup_command text); Sleep 1] /\
     success result = command_succeeds (rng w) (rng_reads w)) /\
  ((exists z, retention = PInt z) \/ (exists b, retention = PBool b)
   \/ retention = PNone ->
   success result = false /\ new_events w w' = [] /\
   message result = "Action execution failed: '" +:+ type_name retention
                    +:+ "' object is not subscriptable").
Proof.
  intros Ha Haction. cbv zeta. split.
  - intros text Hr. unfold execute_action, dispatch. rewrite Ha.
    unfold _execute_optimize_performance. rewrite Haction, Hr. crunch.
    split; [|reflexivity]. apply new_events_app. now rewrite <- app_assoc.
  - intros Hr. unfold execute_action, dispatch. rewrite Ha.
    unfold _execute_optimize_performance. rewrite Haction.
    destruct Hr as [[z Hr]|[[b Hr]|Hr]]; rewrite Hr; crunch;
      (split; [reflexivity|]); (split; [|reflexivity]);
      apply new_events_app; now rewrite app_nil_r.
Qed.

Lemma log_cleanup_cuts_the_retention_witness :
  new_events calm_world
    (snd (execute_action executor0
            (decision_for OPTIMIZE_PERFORMANCE "storage"
               [("action", PStr "cleanup_logs"); ("retention", PStr "7d")])
            calm_world))
  = [Command "find /var/log -name '*.log' -mtime +7 -delete"; Sleep 1] /\
  success (fst (fst (execute_action executor0
                       (decision_for OPTIMIZE_PERFORMANCE "storage"
                          [("action", PStr "cleanup_logs"); ("retention", PInt 7)])
                       calm_world))) = false.
Proof.
  split.
  - apply (proj1 (log_cleanup_cuts_the_retention executor0
                    (decision_for OPTIMIZE_PERFORMANCE "storage"
                       [("action", PStr "cleanup_logs"); ("retention", PStr "7d")])
                    calm_world eq_refl eq_refl) "7d" eq_refl).
  - apply (proj2 (log_cleanup_cuts_the_retention executor0
                    (decision_for OPTIMIZE_PERFORMANCE "storage"
                       [("action", PStr "cleanup_logs"); ("retention", PInt 7)])
                    calm_world eq_refl eq_refl)).
    left. exists 7. reflexivity.
Defined.

(** *** Every call moves the world forward *)

Ltac outcomes :=
  repeat match goal with
  | H : (match ?o with Return _ => _ | Raise _ => _ end) _ = (_, _) |- _ => destruct o
  | H : (match ?o with Return _ => _ | Raise _ => _ end) = _ |- _ => destruct o
  end.

Lemma run_command_later command w ran w' :
  _run_command command w = (ran, w') -> later w w'.
Proof. unfold _run_command. intros H. calls ltac:(fun _ => fail); chain. Qed.

Lemma run_build_commands_later commands :
  forall w failed w', run_build_commands commands w = (failed, w') -> later w w'.
Proof.
  induction commands as [|cmd rest IH]; intros w failed w' H; simpl in H.
  - calls ltac:(fun _ => fail); chain.
  - apply bind_run in H as ([success output] & w1 & Hcmd & H).
    apply run_command_later in Hcmd. destruct success; simpl in H.
    + apply IH in H. chain.
    + calls ltac:(fun _ => fail); chain.
Qed.

Lemma heal_attempts_later target action remaining :
  forall attempt w returned w',
    heal_attempts target action attempt remaining w = (returned, w') -> later w w'.
Proof.
  induction remaining as [|remaining IH]; intros attempt w returned w' H; simpl in H.
  - calls ltac:(fun _ => fail); chain.
  - apply bind_run in H as (r & w1 & Hbody & H).
    assert (H1 : later w w1).
    { calls ltac:(fun H => apply run_command_later in H); chain. }
    destruct r.
    + calls ltac:(fun _ => fail); chain.
    + apply bind_run in H as (u & w2 & Hsleep & H). apply sleep_later in Hsleep.
      apply IH in H. chain.
Qed.

Ltac executor_call H :=
  first [ apply run_command_later in H
        | apply run_build_commands_later in H
        | apply heal_attempts_later in H ].

Lemma pipeline_stage_later self stage w result w' :
  _execute_pipeline_stage self stage w = (result, w') ->
  later w w' /\ (clock_reads w < clock_reads w')%nat.
Proof.
  unfold _execute_pipeline_stage. intros H.
  apply bind_run in H as (t & w1 & Hnow & H).
  assert (Hreads : clock_reads w1 = S (clock_reads w)).
  { unfold now in Hnow. now injection Hnow as _ <-. }
  apply now_later in Hnow.
  assert (Hlater : later w1 w').
  { unfold returning, _execute_source_stage, _execute_build_stage, _build_nodejs,
      _build_python, _build_java, _build_docker, _execute_test_stage,
      _execute_security_stage, _execute_deploy_stage, randint in H.
    calls ltac:(fun H => first [executor_call H | progress outcomes]); chain. }
  split; [chain|]. destruct Hlater as (_ & _ & _ & Hr & _). lia.
Qed.

Lemma dispatch_later self decision w attempt w' :
  dispatch self decision w = (attempt, w') -> later w w'.
Proof.
  unfold dispatch, _execute_scale_up, _execute_scale_down,
    _aws_scale_up, _aws_scale_down, _gcp_scale_up, _gcp_scale_down,
    _azure_scale_up, _azure_scale_down, _generic_scale_up, _generic_scale_down,
    _execute_restart_service, _execute_rollback, _execute_heal_service,
    _execute_optimize_performance, _execute_update_security, _execute_update_config,
    returning.
  intros H. destruct (action_type decision);
    calls ltac:(fun H => first [executor_call H | progress outcomes]); chain.
Qed.

(** *** Durations *)

Lemma total_seconds_nonneg delta : 0 <= delta -> (0 <= total_seconds delta)%Q.
Proof. intros H. unfold total_seconds, Qle. simpl. lia. Qed.

Lemma later_reading w w' :
  nondecreasing (clock w) -> later w w' ->
  nondecreasing (clock w') /\
  forall k, (k <= clock_reads w)%nat -> clock w k <= clock w' (clock_reads w').
Proof.
  intros Hmono (Hc & _ & _ & Hr & _). rewrite Hc. split; [exact Hmono|].
  intros k Hk. apply Hmono. lia.
Qed.

Lemma execute_action_time self decision w result self' w' :
  nondecreasing (clock w) ->
  execute_action self decision w = (result, self', w') ->
  (0 <= execution_time result)%Q /\ later w w'.
Proof.
  intros Hmono H. unfold execute_action in H.
  apply bind_run in H as (t0 & w1 & Hnow & H).
  assert (Ht0 : t0 = clock w (clock_reads w)) by (unfold now in Hnow; congruence).
  apply now_later in Hnow.
  apply bind_run in H as (attempt & w2 & Hd & H). apply dispatch_later in Hd.
  assert (H02 : later w w2) by chain.
  destruct (later_reading _ _ Hmono H02) as [_ Hread].
  specialize (Hread (clock_reads w) ltac:(lia)).
  destruct attempt as [r|e];
    apply bind_run in H as (t & w3 & Hend & H);
    assert (Ht : t = clock w2 (clock_reads w2)) by (unfold now in Hend; congruence);
    apply now_later in Hend.
  - apply ret_run in H as [[= -> _] ->]. simpl.
    split; [apply total_seconds_nonneg; lia | chain].
  - apply bind_run in H as (t' & w4 & Hlast & H). apply now_later in Hlast.
    apply ret_run in H as [[= -> _] ->]. simpl.
    split; [apply total_seconds_nonneg; lia | chain].
Qed.

Lemma pipeline_stage_time self stage w result w' :
  nondecreasing (clock w) ->
  _execute_pipeline_stage self stage w = (result, w') ->
  (0 <= execution_time result)%Q.
Proof.
  intros Hmono H. unfold _execute_pipeline_stage in H.
  apply bind_run in H as (t0 & w1 & Hnow & H).
  assert (Ht0 : t0 = clock w (clock_reads w)) by (unfold now in Hnow; congruence).
  apply now_later in Hnow.
  apply bind_run in H as (attempt & w2 & Hattempt & H).
  assert (H12 : later w1 w2).
  { clear H.
    unfold _execute_source_stage, _execute_build_stage, _build_nodejs,
      _build_python, _build_java, _build_docker, _execute_test_stage,
      _execute_security_stage, _execute_deploy_stage, randint, returning in Hattempt.
    calls ltac:(fun H => first [executor_call H | progress outcomes]); chain. }
  assert (H02 : later w w2) by chain.
  destruct (later_reading _ _ Hmono H02) as [_ Hread].
  specialize (Hread (clock_reads w) ltac:(lia)).
  destruct attempt as [r|e];
    apply bind_run in H as (t & w3 & Hend & H);
    assert (Ht : t = clock w2 (clock_reads w2)) by (unfold now in Hend; congruence).
  - apply ret_run in H as [-> ->]. simpl. apply total_seconds_nonneg. lia.
  - apply bind_run in H as (t' & w4 & Hlast & H).
    apply ret_run in H as [-> ->]. simpl. apply total_seconds_nonneg. lia.
Qed.

Lemma run_stages_times self (remaining : list Stage) :
  forall results w results' w',
    nondecreasing (clock w) ->
    run_stages self remaining results w = (results', w') ->
    later w w' /\
    start_time results' = start_time results /\
    (Forall (fun r => (0 <= execution_time r)%Q) (stage_results results) ->
     Forall (fun r => (0 <= execution_time r)%Q) (stage_results results')).
Proof.
  induction remaining as [|stage rest IH]; intros results w results' w' Hmono H;
    simpl in H.
  - apply ret_run in H as [-> ->]. split; [apply later_refl | auto].
  - apply bind_run in H as (r & w1 & Hstage & H).
    pose proof (pipeline_stage_time _ _ _ _ _ Hmono Hstage) as Htime.
    apply pipeline_stage_later in Hstage as [Hstage _].
    destruct (later_reading _ _ Hmono Hstage) as [Hmono1 _].
    destruct (negb (success r)); [destruct (negb (String.eqb _ _))|].
    + apply ret_run in H as [-> ->]. simpl. split; [exact Hstage|].
      split; [reflexivity|]. intros Hall. apply Forall_snoc; assumption.
    + apply (IH _ _ _ _ Hmono1) in H as (Hl & Hs & Hall). simpl in *.
      split; [chain|]. split; [exact Hs|]. intros H0. apply Hall.
      apply Forall_snoc; assumption.
    + apply (IH _ _ _ _ Hmono1) in H as (Hl & Hs & Hall). simpl in *.
      split; [chain|]. split; [exact Hs|]. intros H0. apply Hall.
      apply Forall_snoc; assumption.
Qed.

(** X13. With a clock that never goes back no duration is negative:
    the execution time of the result of [execute_action], of every
    stage result of [execute_deployment], and the time from the start
    to the end of the deployment. *)
Theorem execution_times_are_not_negative self w :
  nondecreasing (clock w) ->
  (forall decision,
     (0 <= execution_time (fst (fst (execute_action self decision w))))%Q) /\
  (forall plan,
     let results := fst (execute_deployment self plan w) in
     Forall (fun r => (0 <= execution_time r)%Q) (stage_results results) /\
     exists t_end, end_time results = Some t_end /\ start_time results <= t_end).
Proof.
  intros Hmono. split.
  - intros decision.
    destruct (execute_action self decision w) as [[result self'] w'] eqn:H.
    now apply execute_action_time in H.
  - intros plan. destruct (execute_deployment self plan w) as [results w'] eqn:H.
    simpl. unfold execute_deployment in H.
    apply bind_run in H as (t_id & w1 & Hid & H). apply now_later in Hid.
    apply bind_run in H as (t_start & w2 & Hstart & H).
    assert (Ht : t_start = clock w1 (clock_reads w1))
      by (unfold now in Hstart; congruence).
    assert (Hr2 : clock_reads w2 = S (clock_reads w1))
      by (unfold now in Hstart; now injection Hstart as _ <-).
    apply now_later in Hstart.
    apply bind_run in H as (results1 & w3 & Hrun & H).
    assert (H02 : later w w2) by chain.
    destruct (later_reading _ _ Hmono H02) as [Hmono2 _].
    apply (run_stages_times _ _ _ _ _ _ Hmono2) in Hrun as (H23 & Hs & Hall).
    simpl in Hs, Hall.
    apply bind_run in H as (t_end & w4 & Hend & H).
    assert (Hte : t_end = clock w3 (clock_reads w3))
      by (unfold now in Hend; congruence).
    apply ret_run in H as [-> ->]. simpl. split; [apply Hall; constructor|].
    exists t_end. split; [reflexivity|]. rewrite Hs, Hte, Ht.
    destruct Hstart as (Hc12 & _). destruct H23 as (Hc23 & _ & _ & Hr23 & _).
    rewrite Hc23, Hc12. destruct (later_reading _ _ Hmono Hid) as [Hmono1 _].
    apply Hmono1. lia.
Qed.

Lemma execution_times_are_not_negative_witness :
  (0 <= execution_time
          (fst (fst (execute_action executor0 heal_by_default failing_world))))%Q.
Proof.
  apply (proj1 (execution_times_are_not_negative executor0 failing_world
                  ltac:(intros i j Hij; unfold failing_world, steady_clock; simpl; lia))).
Defined.

(** *** The decisions of the engine, executed *)

Lemma returning_returns {A} (m : M A) w : fst (returning m w) = Return (fst (m w)).
Proof. unfold returning, bind, ret. now destruct (m w). Qed.

Lemma executable_dispatch d :
  executable d = true ->
  handled (action_type d) = true /\
  forall self w, exists result, fst (dispatch self d w) = Return result.
Proof.
  unfold executable, handled, dispatch. intros H.
  destruct (action_type d) eqn:Ha; try discriminate; (split; [reflexivity|]);
    intros self w; try (rewrite returning_returns; eauto).
  - unfold _execute_heal_service.
    destruct (py_range _) as [n|e]; [|discriminate].
    unfold bind, ret. destruct (heal_attempts _ _ _ _ _) as [[r|] w1]; simpl; eauto.
  - unfold _execute_optimize_performance.
    destruct (eq_str _ "increase_cache_size") eqn:H1.
    + assert (H2 : eq_str (dict_get (parameters d) "action" PNone) "cleanup_logs" = false).
      { destruct (dict_get (parameters d) "action" PNone); try reflexivity.
        simpl in *. apply String.eqb_eq in H1. now subst. }
      unfold returning, bind, ret.
      match goal with
        | |- context [_run_command ?c ?w0] =>
            destruct (_run_command c w0) as [[? ?] ?]
        end; simpl; eauto.
    + destruct (eq_str _ "cleanup_logs").
      * destruct (py_drop_last _) as [days|e]; [|discriminate].
        unfold returning, bind, ret.
        match goal with
        | |- context [_run_command ?c ?w0] =>
            destruct (_run_command c w0) as [[? ?] ?]
        end; simpl; eauto.
      * destruct (eq_str _ "identify_unused"); unfold returning, bind, ret.
        -- match goal with
        | |- context [_run_command ?c ?w0] =>
            destruct (_run_command c w0) as [[? ?] ?]
        end; simpl; eauto.
        -- simpl. eauto.
Qed.

Lemma heals_executable hs names :
  Forall2 (fun d s => exists t, d = heal_decision s t) hs names ->
  Forall (fun d => executable d = true) hs.
Proof.
  induction 1 as [|d s hs names [t ->] _ IH]; constructor; [reflexivity | exact IH].
Qed.

Lemma analyzers_executable self st ctx :
  (forall w ds w', _analyze_performance_decisions self st ctx w = (ds, w') ->
     Forall (fun d => executable d = true) ds) /\
  (forall w ds w', _analyze_health_decisions self st ctx w = (ds, w') ->
     Forall (fun d => executable d = true) ds) /\
  (forall w ds w', _analyze_security_decisions self st ctx w = (ds, w') ->
     Forall (fun d => executable d = true) ds) /\
  (forall w ds w', _analyze_cost_decisions self st ctx w = (ds, w') ->
     Forall (fun d => executable d = true) ds).
Proof.
  split; [|split; [|split]]; intros w ds w' H.
  - unfold _analyze_performance_decisions in H. run; repeat constructor.
  - unfold _analyze_health_decisions in H.
    apply bind_run in H as (hs & w1 & Hloop & H).
    apply decision_proofs.heal_loop_spec in Hloop as (_ & hs' & -> & Hhs & _).
    apply heals_executable in Hhs. simpl in H.
    run; rewrite ?Forall_app; repeat split; try assumption; repeat constructor.
  - unfold _analyze_security_decisions in H.
    apply bind_run in H as (ds1 & w1 & Hloop1 & H).
    apply bind_run in H as (ds2 & w2 & Hloop2 & H). run.
    set (I := fun (ds : list Decision) (_ : World) =>
                Forall (fun d => executable d = true) ds).
    eapply (for_each_inv I) in Hloop2; [exact Hloop2 | | ].
    + intros a ds0 w0 ds3 w3 Hrun HI. unfold I in *.
      destruct (_ && _) in Hrun; run; [|exact HI].
      apply Forall_snoc; [exact HI | reflexivity].
    + eapply (for_each_inv I) in Hloop1; [exact Hloop1 | | constructor].
      intros a ds0 w0 ds3 w3 Hrun HI. unfold I in *.
      destruct (String.eqb _ _) in Hrun; run; [|exact HI].
      apply Forall_snoc; [exact HI | reflexivity].
  - unfold _analyze_cost_decisions in H. run; repeat constructor.
Qed.

(** X14. The executor has a handler for every decision the engine
    makes, and the handler can read the parameters the engine gives it:
    whatever the executor and the state of the world, the dispatch of a
    decision of [make_decisions] (returned, or only recorded in the
    history in this cycle) returns a result of the handler and raises
    nothing, and its action is never one that [execute_action] answers
    with "Unknown action type". *)
Theorem engine_decisions_are_executable engine st ctx w :
  let returned := fst (fst (make_decisions engine st ctx w)) in
  let engine' := snd (fst (make_decisions engine st ctx w)) in
  forall d,
    In d returned \/
    (In d (decision_history engine') /\ ~ In d (decision_history engine)) ->
    handled (action_type d) = true /\
    forall executor w', exists result, fst (dispatch executor d w') = Return result.
Proof.
  destruct (make_decisions engine st ctx w) as [[returned engine'] w1] eqn:H. simpl.
  apply decision_proofs.make_decisions_run in H
    as (perf & wa & health & wb & security & wc & cost & wd
        & Hp & Hh & Hs & Hc & -> & Hhist & _).
  destruct (analyzers_executable engine st ctx) as (Ap & Ah & As & Ac).
  apply Ap in Hp. apply Ah in Hh. apply As in Hs. apply Ac in Hc.
  assert (Hall : Forall (fun d => executable d = true)
                   (perf ++ health ++ security ++ cost)).
  { rewrite !Forall_app. auto. }
  rewrite List.Forall_forall in Hall.
  intros d Hd. apply executable_dispatch, Hall.
  apply (proj1 (decision_proofs.by_priority_In _ _)).
  destruct Hd as [Hd|[Hd Hnew]].
  - apply list_elem_of_In in Hd. apply list_elem_of_In.
    eapply subseteq_take, Hd.
  - rewrite Hhist in Hd. unfold decision_spec.recent_history in Hd.
    apply List.filter_In in Hd as [Hd _]. apply in_app_or in Hd as [Hd|Hd];
      [contradiction | exact Hd].
Qed.

Lemma engine_decisions_are_executable_witness :
  exists d,
    In d (fst (fst (make_decisions (decision_engine.__init__ []) decision_spec.busy_state
                      python_project calm_world))) /\
    handled (action_type d) = true /\
    exists result, fst (dispatch executor0 d calm_world) = Return result.
Proof.
  assert (H : exists d,
             In d (fst (fst (make_decisions (decision_engine.__init__ [])
                               decision_spec.busy_state python_project calm_world)))).
  { eexists. vm_compute. left. reflexivity. }
  destruct H as [d Hd]. exists d. split; [exact Hd|].
  destruct (engine_decisions_are_executable (decision_engine.__init__ [])
              decision_spec.busy_state python_project calm_world d (or_introl Hd))
    as [Hhandled Hreturns].
  split; [exact Hhandled | apply Hreturns].
Defined.

(** *** The build stage *)

(** X15. A Node.js or Python build runs the install command and then
    the build command, and stops at the first that fails: when the
    install fails the build command is not run. The stage succeeds
    when both commands do. *)
Theorem failed_install_skips_the_build config w :
  let runtime := dict_get config "runtime" (PStr "docker") in
  let result := fst (_execute_build_stage config w) in
  let w' := snd (_execute_build_stage config w) in
  let install := install_command config in
  let build := build_command config in
  runtime = PStr "nodejs" \/ runtime = PStr "python" ->
  (command_succeeds (rng w) (rng_reads w) = false ->
   success result = false /\ message result = "Build failed: " +:+ install /\
   new_events w w' = [Command install; Sleep 1]) /\
  (command_succeeds (rng w) (rng_reads w) = true ->
   new_events w w' = [Command install; Sleep 1; Command build; Sleep 1] /\
   success result = command_succeeds (rng w) (S (rng_reads w)) /\
   (success result = false -> message result = "Build failed: " +:+ build)).
Proof.
  cbv zeta. unfold command_succeeds, install_command, build_command.
  intros [Hr|Hr]; unfold _execute_build_stage; rewrite Hr; simpl eq_str; cbv iota;
    unfold _build_nodejs, _build_python; crunch; crunch.
  all: split; intros H1; rewrite H1; simpl.
  all: try (split; [reflexivity|]; split; [reflexivity|];
            apply new_events_app; now rewrite <- app_assoc).
  all: destruct (Qgtb (rng w (S (rng_reads w))) 0.1); simpl;
    (split; [apply new_events_app; now rewrite <- !app_assoc|]);
    (split; [reflexivity | intros; try discriminate; reflexivity]).
Qed.

Lemma failed_install_skips_the_build_witness :
  new_events failing_world
    (snd (_execute_build_stage
            [("runtime", PStr "python");
             ("install_cmd", PStr "pip install -r requirements.txt");
             ("build_cmd", PStr "python setup.py build")] failing_world))
  = [Command "pip install -r requirements.txt"; Sleep 1].
Proof.
  apply (proj1 (failed_install_skips_the_build
                  [("runtime", PStr "python");
                   ("install_cmd", PStr "pip install -r requirements.txt");
                   ("build_cmd", PStr "python setup.py build")] failing_world
                  (or_intror eq_refl))).
  reflexivity.
Defined.

End handler_proofs.

(** ** The plans of the engine *)

Module planning_proofs.
Import decision_engine action_executor decision_engine_planning executor_spec
  planning_spec devops_agent_operations.

(** *** Dictionaries *)

Lemma dict_lookup_set (d : dict) key v key' :
  dict_lookup (dict_set d key v) key'
  = if String.eqb key key' then Some v else dict_lookup d key'.
Proof.
  induction d as [|[k x] d IH]; simpl; [reflexivity|].
  destruct (String.eqb_spec k key) as [->|Hne]; simpl.
  - now destruct (String.eqb key key').
  - rewrite IH. destruct (String.eqb key key') eqn:E; [|reflexivity].
    apply String.eqb_eq in E. subst key'.
    apply String.eqb_neq in Hne. now rewrite Hne.
Qed.

Lemma dict_set_keys (d : dict) key v :
  List.map fst (dict_set d key v)
  = if existsb (String.eqb key) (List.map fst d) then List.map fst d
    else List.map fst d ++ [key].
Proof.
  induction d as [|[k x] d IH]; simpl; [reflexivity|].
  rewrite (String.eqb_sym key k).
  destruct (String.eqb k key); simpl; [reflexivity|].
  rewrite IH. now destruct (existsb _ _).
Qed.

(** *** The infrastructure plan *)

(** X16. [create_infrastructure_plan] returns a plan for every project
    context: the sizing of compute finds a number in every memory text
    it builds. The number of instances it plans lies within the bounds
    of the auto-scaling configuration of the same plan, and at least
    one CPU is planned. *)
Theorem infrastructure_plan_is_within_its_scaling_bounds self context :
  exists plan lowest highest,
    create_infrastructure_plan self context = Some plan /\
    dict_lookup (scaling plan) "min_instances" = Some (PInt lowest) /\
    dict_lookup (scaling plan) "max_instances" = Some (PInt highest) /\
    lowest <= instances (compute plan) <= highest /\
    1 <= cpu (compute plan).
Proof.
  unfold create_infrastructure_plan, _analyze_compute_requirements,
    _plan_scaling_configuration.
  destruct (str_in (project_type context) ["web_backend"; "backend"]);
    destruct (eq_str _ "medium"); try destruct (eq_str _ "large");
    destruct (truthy _); cbn;
    do 3 eexists; (split; [reflexivity|]); cbn;
    (split; [reflexivity|]); (split; [reflexivity|]); lia.
Qed.

(** X17. A project that gives no estimated scale is sized as a small
    one (one instance, at most three, no load balancer) but is given
    the web application firewall, the vulnerability scanning and the
    tracing that a project declared "small" does not get: the
    defaults of the planner differ from one part of the plan to the
    other. *)
Theorem undeclared_scale_is_small_but_guarded self context plan :
  create_infrastructure_plan self context = Some plan ->
  (dict_lookup (performance_requirements context) "estimated_scale" = None ->
   instances (compute plan) = 1 /\
   dict_lookup (scaling plan) "max_instances" = Some (PInt 3) /\
   networking plan = [] /\
   switched_on (security plan) "waf" /\
   switched_on (security plan) "vulnerability_scanning" /\
   switched_on (monitoring plan) "tracing") /\
  (dict_lookup (performance_requirements context) "estimated_scale"
     = Some (PStr "small") ->
   instances (compute plan) = 1 /\
   dict_lookup (scaling plan) "max_instances" = Some (PInt 3) /\
   networking plan = [] /\
   switched_off (security plan) "waf" /\
   switched_off (security plan) "vulnerability_scanning" /\
   switched_off (monitoring plan) "tracing").
Proof.
  unfold create_infrastructure_plan, _analyze_compute_requirements,
    _plan_scaling_configuration, _plan_security_infrastructure, switched_on,
    switched_off, dict_get.
  intros Hplan.
  split; intros Hscale; revert Hplan; rewrite Hscale;
    destruct (str_in (project_type context) ["web_backend"; "backend"]);
    destruct (truthy _);
    destruct (str_in "authentication" _), (str_in "tls_encryption" _),
      (str_in "secret_management" _); cbn; intros [= <-]; cbn; repeat split.
Qed.

Lemma undeclared_scale_is_small_but_guarded_witness :
  exists plan,
    create_infrastructure_plan (decision_engine.__init__ []) python_project = Some plan /\
    instances (compute plan) = 1 /\ switched_on (security plan) "waf".
Proof.
  eexists. split; [reflexivity|].
  destruct (undeclared_scale_is_small_but_guarded (decision_engine.__init__ []) python_project _
              eq_refl) as [Habsent _].
  destruct (Habsent eq_refl) as (Hi & _ & _ & Hwaf & _).
  split; [exact Hi | exact Hwaf].
Defined.

Lemma database_fold (usage : list string) db :
  forall acc : dict,
    is_Some (dict_lookup
               (fold_left
                  (fun db_plan db =>
                     if String.eqb db "postgresql" then
                       dict_set db_plan "postgresql"
                         (PDict [("instance_type", PStr "db.t3.micro");
                                 ("storage", PStr "20GB");
                                 ("backup_retention", PStr "7d");
                                 ("multi_az", PBool false)])
                     else if String.eqb db "redis" then
                       dict_set db_plan "redis"
                         (PDict [("instance_type", PStr "cache.t3.micro");
                                 ("memory", PStr "1GB"); ("backup", PBool true)])
                     else if String.eqb db "mongodb" then
                       dict_set db_plan "mongodb"
                         (PDict [("instance_type", PStr "t3.small");
                                 ("storage", PStr "20GB");
                                 ("replica_set", PBool false)])
                     else db_plan)
                  usage acc) db)
    <-> is_Some (dict_lookup acc db) \/ (In db usage /\ In db known_databases).
Proof.
  induction usage as [|x usage IH]; intros acc; simpl.
  - tauto.
  - rewrite IH. unfold known_databases.
    destruct (String.eqb_spec x "postgresql") as [->|H1];
      [|destruct (String.eqb_spec x "redis") as [->|H2];
        [|destruct (String.eqb_spec x "mongodb") as [->|H3]]];
      rewrite ?dict_lookup_set;
      try match goal with
          | |- context [String.eqb ?k db] =>
              destruct (String.eqb_spec k db) as [<-|Hne]
          end; simpl; rewrite ?is_Some_alt; intuition (subst; eauto; congruence).
Qed.

(** X18. The database plan has an entry for a database exactly when the
    project uses it and it is PostgreSQL, Redis or MongoDB; any other
    database of the project is passed over without a word, and a
    database named twice is planned once. *)
Theorem database_plan_covers_the_known_databases self usage db :
  (is_Some (dict_lookup (_plan_database_infrastructure self usage) db)
   <-> In db usage /\ In db known_databases) /\
  NoDup (List.map fst (_plan_database_infrastructure self usage)).
Proof.
  split.
  - unfold _plan_database_infrastructure. rewrite database_fold. simpl.
    rewrite is_Some_alt. tauto.
  - unfold _plan_database_infrastructure.
    assert (H : forall acc : dict, NoDup (List.map fst acc) ->
              NoDup (List.map fst
                (fold_left
                  (fun db_plan db =>
                     if String.eqb db "postgresql" then
                       dict_set db_plan "postgresql"
                         (PDict [("instance_type", PStr "db.t3.micro");
                                 ("storage", PStr "20GB");
                                 ("backup_retention", PStr "7d");
                                 ("multi_az", PBool false)])
                     else if String.eqb db "redis" then
                       dict_set db_plan "redis"
                         (PDict [("instance_type", PStr "cache.t3.micro");
                                 ("memory", PStr "1GB"); ("backup", PBool true)])
                     else if String.eqb db "mongodb" then
                       dict_set db_plan "mongodb"
                         (PDict [("instance_type", PStr "t3.small");
                                 ("storage", PStr "20GB");
                                 ("replica_set", PBool false)])
                     else db_plan)
                  usage acc))).
    { induction usage as [|x usage IH]; intros acc Hacc; simpl; [exact Hacc|].
      apply IH.
      assert (Hset : forall key v, NoDup (List.map fst (dict_set acc key v))).
      { intros key v. rewrite dict_set_keys.
        destruct (existsb _ _) eqn:E; [exact Hacc|].
        apply NoDup_app. split; [exact Hacc|]. split; [|apply NoDup_singleton].
        intros k Hk Hk'. apply list_elem_of_singleton in Hk'. subst k.
        assert (existsb (String.eqb key) (List.map fst acc) = true); [|congruence].
        apply existsb_exists. exists key. split; [|apply String.eqb_refl].
        now apply list_elem_of_In. }
      repeat destruct (String.eqb _ _); auto. }
    apply H. constructor.
Qed.

Lemma database_plan_covers_the_known_databases_witness :
  is_Some (dict_lookup
             (_plan_database_infrastructure (decision_engine.__init__ [])
                (database_usage web_service)) "redis").
Proof.
  apply (proj1 (database_plan_covers_the_known_databases
                  (decision_engine.__init__ []) (database_usage web_service) "redis")).
  unfold known_databases. simpl. auto.
Defined.

(** *** The deployment plan *)

(** the production deploy is the last stage of a plan of the engine *)
Lemma production_is_last self context i stage :
  stages (create_deployment_plan self context) !! i = Some stage ->
  stage_name stage = "deploy_production" ->
  S i = length (stages (create_deployment_plan self context)).
Proof.
  unfold create_deployment_plan, _create_pipeline_stages. simpl.
  destruct (security_requirements context); simpl;
    do 7 (try (destruct i as [|i]; simpl;
               [intros [= <-]; simpl; intros; (discriminate || reflexivity)|]));
    intros H; try rewrite lookup_nil in H; discriminate.
Qed.

Lemma build_config_runtime self context :
  In (dict_get (_get_build_config self context) "runtime" (PStr "docker"))
     [PStr "nodejs"; PStr "python"; PStr "java"; PStr "docker"].
Proof.
  unfold _get_build_config.
  destruct (_ || _); [simpl; auto|].
  destruct (String.eqb _ "python"); [simpl; auto|].
  destruct (String.eqb _ "java"); simpl; auto.
Qed.

(** X19. Every stage of a deployment plan of the engine is one the
    executor can run: its type is one of the five the pipeline knows,
    the runtime of its build stage is one of the four supported, and
    its test stages name their type by a text, so that the test
    handler returns a result and raises nothing. *)
Theorem planned_stages_are_executable self context stage :
  In stage (stages (create_deployment_plan self context)) ->
  In (stage_type stage) ["source_control"; "build"; "test"; "security"; "deploy"] /\
  (stage_type stage = "build" ->
   In (dict_get (stage_config stage) "runtime" (PStr "docker"))
      [PStr "nodejs"; PStr "python"; PStr "java"; PStr "docker"]) /\
  (stage_type stage = "test" ->
   forall w, exists result, fst (_execute_test_stage (stage_config stage) w)
                            = Return result).
Proof.
  intros Hin.
  assert (Htest : forall config,
            (exists text, dict_get config "type" (PStr "unit") = PStr text) ->
            forall w, exists result, fst (_execute_test_stage config w) = Return result).
  { intros config [text Htext] w. unfold _execute_test_stage. rewrite Htext.
    unfold bind, ret, sleep, emit, random, now. simpl.
    destruct (Qgtb _ _); simpl; eauto. }
  pose proof (build_config_runtime self context) as Hbuild.
  unfold create_deployment_plan, _create_pipeline_stages in Hin. simpl in Hin.
  destruct (security_requirements context); simpl in Hin;
    repeat destruct Hin as [<-|Hin]; try destruct Hin; simpl;
    (split; [auto 10|]); (split; [intros; try discriminate; auto|]);
    intros; try discriminate; apply Htest; simpl; eauto.
Qed.

Lemma planned_stages_are_executable_witness :
  In (dict_get (_get_build_config (decision_engine.__init__ []) web_service)
        "runtime" (PStr "docker"))
     [PStr "nodejs"; PStr "python"; PStr "java"; PStr "docker"].
Proof.
  apply (proj1 (proj2 (planned_stages_are_executable
                         (decision_engine.__init__ []) web_service
                         {| stage_name := "build"; stage_type := "build";
                            stage_config :=
                              _get_build_config (decision_engine.__init__ [])
                                web_service |}
                         ltac:(simpl; auto)))).
  reflexivity.
Defined.

(** X20. [deploy] refuses to work without the context of an analyzed
    repository and leaves the world as it is. With a context it runs
    the plan of the engine, in which the production deploy comes last:
    every stage result but the last is a success, so the deployment
    stops at the first stage that fails; it succeeds exactly when all
    the planned stages have run and succeeded. *)
Theorem deploy_stops_at_the_first_failure agent w :
  (devops_agent.project_context agent = None ->
   deploy agent w = (inl (ValueError "Must analyze repository first"), w)) /\
  (forall context,
     devops_agent.project_context agent = Some context ->
     exists results,
       fst (deploy agent w) = inr results /\
       let planned :=
         stages (create_deployment_plan (devops_agent.decision_engine agent) context) in
       (length (stage_results results) <= length planned)%nat /\
       (forall i r, stage_results results !! i = Some r ->
          (S i < length (stage_results results))%nat -> success r = true) /\
       (overall_success results = true <->
        length (stage_results results) = length planned /\
        Forall (fun r => success r = true) (stage_results results))).
Proof.
  split; [intros Hnone; unfold deploy; now rewrite Hnone|].
  intros context Hsome. unfold deploy. rewrite Hsome.
  set (plan := create_deployment_plan (devops_agent.decision_engine agent) context).
  destruct (execute_deployment (devops_agent.action_executor agent) plan w)
    as [results w'] eqn:Hrun.
  exists results. unfold bind, ret. rewrite Hrun. split; [reflexivity|].
  unfold execute_deployment in Hrun.
  apply bind_run in Hrun as (t_id & w1 & _ & Hrun).
  apply bind_run in Hrun as (t_start & w2 & _ & Hrun).
  apply bind_run in Hrun as (results1 & w3 & Hstages & Hrun).
  apply bind_run in Hrun as (t_end & w4 & _ & Hrun).
  apply ret_run in Hrun as [-> ->].
  apply executor_proofs.run_stages_spec in Hstages
    as (n & rs & Hn & Hlen & _ & -> & Habort & Hstop).
  cbn [stage_results overall_success app andb].
  assert (Hbefore : forall i r, rs !! i = Some r -> (S i < length rs)%nat ->
                    success r = true).
  { intros i r Hr Hi. destruct (success r) eqn:Hok; [reflexivity|]. exfalso.
    destruct (lookup_lt_is_Some_2 (stages plan) i ltac:(lia)) as [stage Hstage].
    destruct (String.eqb_spec (stage_name stage) "deploy_production") as [Hname|Hname].
    - pose proof (production_is_last _ _ _ _ Hstage Hname). fold plan in H. lia.
    - assert (n = S i); [|lia]. apply (Habort i stage r Hstage Hr).
      unfold aborts. rewrite Hok. apply String.eqb_neq in Hname. now rewrite Hname. }
  split; [lia|]. split; [exact Hbefore|]. split.
  - intros Hall. split.
    + destruct (Nat.eq_dec n (length (stages plan))) as [Heq|Hne]; [lia|].
      destruct Hstop as (stage & r & _ & Hr & Ha); [lia|].
      unfold aborts in Ha. apply andb_true_iff in Ha as [Ha _].
      rewrite forallb_forall in Hall.
      assert (Hin : In r rs).
      { apply list_elem_of_In, list_elem_of_lookup. eauto. }
      apply Hall in Hin. rewrite Hin in Ha. discriminate.
    + apply List.Forall_forall. now apply forallb_forall.
  - intros [_ Hall]. apply forallb_forall. now apply List.Forall_forall.
Qed.

Lemma deploy_stops_at_the_first_failure_witness :
  deploy (with_context monitoring_spec.idle_agent None) failing_world
  = (inl (ValueError "Must analyze repository first"), failing_world).
Proof.
  apply (proj1 (deploy_stops_at_the_first_failure
                  (with_context monitoring_spec.idle_agent None) failing_world)).
  reflexivity.
Defined.

End planning_proofs.

(** ** What the learning module keeps *)

Module learner_proofs.
Import decision_engine learning_module learning_module_updates learning_spec
  learner_spec learning_proofs analyzer_proofs.

Lemma metrics_overall before after :
  _calculate_outcome_metrics before after !! "overall_effectiveness"
  = Some (score (Qgtb (cpu_usage before - cpu_usage after) 0)
                (Qgtb (response_time before - response_time after) 0)
                (Qgtb (error_rate before - error_rate after) 0)
                (Qgtb (inject_Z (healthy_services (service_health after)
                                 - healthy_services (service_health before))) 0)).
Proof.
  unfold _calculate_outcome_metrics. rewrite lookup_insert_eq.
  repeat (rewrite lookup_insert_ne by discriminate).
  rewrite ?lookup_insert_eq.
  repeat (rewrite lookup_insert_ne by discriminate). rewrite ?lookup_insert_eq.
  reflexivity.
Qed.


Lemma overall_score before after :
  overall (_calculate_outcome_metrics before after)
  = score (Qgtb (cpu_usage before - cpu_usage after) 0)
          (Qgtb (response_time before - response_time after) 0)
          (Qgtb (error_rate before - error_rate after) 0)
          (Qgtb (inject_Z (healthy_services (service_health after)
                           - healthy_services (service_health before))) 0).
Proof. unfold overall. now rewrite metrics_overall. Qed.

Lemma no_gain x y : (x <= y)%Q -> Qgtb (x - y) 0 = false.
Proof. intros H. apply Qgtb_false. lra. Qed.

Lemma no_health_gain h h' : h' <= h -> Qgtb (inject_Z (h' - h)) 0 = false.
Proof.
  intros H. apply Qgtb_false. unfold Qle, inject_Z. simpl. lia.
Qed.

Lemma no_improvement_scores_nothing before after :
  (cpu_usage before <= cpu_usage after)%Q ->
  (response_time before <= response_time after)%Q ->
  (error_rate before <= error_rate after)%Q ->
  healthy_services (service_health after)
    <= healthy_services (service_health before) ->
  overall (_calculate_outcome_metrics before after) = 0%Q.
Proof.
  intros Hc Hr He Hh. rewrite overall_score.
  now rewrite (no_gain _ _ Hc), (no_gain _ _ Hr), (no_gain _ _ He),
    (no_health_gain _ _ Hh).
Qed.



Lemma py_min_le a b : (py_min a b <= a)%Q.
Proof.
  unfold py_min. destruct (Qltb b a) eqn:H; [|lra].
  apply Qltb_true in H. lra.
Qed.

(** the simulation of an action that scales down or that it has no
    branch for improves nothing that the score counts *)
Lemma simulation_without_gain self decision st w :
  action_type decision = SCALE_DOWN \/ not_simulated (action_type decision) = true ->
  (cpu_usage st <= 100)%Q -> (0 <= rng w (rng_reads w))%Q ->
  let after := fst (_simulate_system_state_after_action self decision st w) in
  (cpu_usage st <= cpu_usage after)%Q /\
  response_time after = response_time st /\
  error_rate after = error_rate st /\
  service_health after = service_health st.
Proof.
  intros Ha Hcpu Hdraw. unfold _simulate_system_state_after_action.
  destruct Ha as [Ha|Ha].
  - rewrite Ha. simpl. unfold uniform, bind, ret, random. simpl.
    split; [|auto]. unfold py_min. destruct (Qltb _ 100); [|exact Hcpu]. nra.
  - destruct (action_type decision); try discriminate; simpl;
      (split; [lra | auto]).
Qed.

Lemma learn_patterns_module self outcome :
  module (_learn_patterns self outcome)
  = _learn_optimal_thresholds (module self) outcome.
Proof. reflexivity. Qed.

(** X22. The simulated outcome of scaling down, and of every action the
    simulation has no branch for (rollback, security update,
    configuration update, deploy update, alert), has overall
    effectiveness 0 whenever the CPU usage before is at most 100: the
    CPU usage only rises and nothing else moves. Learning from such an
    outcome leaves every threshold buffer as it was, so no example is
    ever recorded for "scale_down_cpu_threshold". *)
Theorem scale_down_is_never_found_effective self decision st w :
  action_type decision = SCALE_DOWN \/ not_simulated (action_type decision) = true ->
  (cpu_usage st <= 100)%Q -> unit_draws w ->
  let outcome := fst (_simulate_action_outcome self decision st w) in
  overall (outcome_metrics outcome) = 0%Q /\
  forall key,
    buffer (module (_learn_patterns self outcome)) key = buffer (module self) key.
Proof.
  intros Ha Hcpu Hdraws. cbv zeta.
  assert (Hoverall : overall (outcome_metrics
                        (fst (_simulate_action_outcome self decision st w))) = 0%Q).
  { unfold _simulate_action_outcome, bind at 1.
    unfold random at 1. cbv beta iota. unfold bind at 1.
    set (w1 := {| clock := clock w; clock_reads := clock_reads w; rng := rng w;
                  rng_reads := S (rng_reads w); normal := normal w;
                  normal_reads := normal_reads w; trace := trace w |}).
    pose proof (simulation_without_gain self decision st w1 Ha Hcpu
                  (proj1 (Hdraws _))) as (H1 & H2 & H3 & H4).
    destruct (_simulate_system_state_after_action self decision st w1)
      as [after w2]. simpl in *.
    apply no_improvement_scores_nothing; try assumption.
    - rewrite H2. lra.
    - rewrite H3. lra.
    - rewrite H4. lia. }
  split; [exact Hoverall|]. intros key.
  rewrite learn_patterns_module, learn_step.
  unfold effectiveness_of. fold (overall (outcome_metrics
    (fst (_simulate_action_outcome self decision st w)))).
  rewrite Hoverall. now rewrite andb_false_r.
Qed.

Lemma scale_down_is_never_found_effective_witness :
  overall (outcome_metrics
             (fst (_simulate_action_outcome (__init__ []) scale_down_decision
                     analyzer_spec.idle_state even_world))) = 0%Q.
Proof.
  apply (scale_down_is_never_found_effective (__init__ []) scale_down_decision
           analyzer_spec.idle_state even_world (or_introl eq_refl)).
  - discriminate.
  - intros k. split; simpl; [discriminate | reflexivity].
Defined.

(** *** One outcome for every decision *)








(** *** What is kept stays bounded *)

Lemma keep_last_length {A} n (l : list A) : (length (keep_last n l) <= n)%nat.
Proof.
  unfold keep_last. destruct (n <? length l)%nat eqn:H.
  - apply last_n_length.
  - now apply Nat.ltb_ge in H.
Qed.

Lemma keep_last_Forall {A} (P : A -> Prop) n (l : list A) :
  Forall P l -> Forall P (keep_last n l).
Proof.
  intros H. unfold keep_last, learning_module.last_n.
  destruct (n <? length l)%nat; [now apply Forall_drop | exact H].
Qed.

Lemma keep_last_same_length {A} n (l l' : list A) :
  length l = length l' -> length (keep_last n l) = length (keep_last n l').
Proof.
  intros H. unfold keep_last, learning_module.last_n. rewrite H.
  destruct (n <? length l')%nat; [|exact H]. rewrite !length_drop. lia.
Qed.

(** [if key not in m: m[key] = []] followed by [m[key].append(x)] *)
Lemma ensure_append (m : gmap string (list Q)) key x k :
  (<[key := default [] (match m !! key with
                        | None => <[key := []]> m
                        | Some _ => m
                        end !! key) ++ [x]]>
     (match m !! key with None => <[key := []]> m | Some _ => m end)) !! k
  = if String.eqb k key then Some (default [] (m !! key) ++ [x]) else m !! k.
Proof.
  destruct (String.eqb_spec k key) as [->|Hk].
  - rewrite lookup_insert_eq. destruct (m !! key) eqn:Hm.
    + now rewrite Hm.
    + now rewrite lookup_insert_eq.
  - rewrite lookup_insert_ne by congruence. destruct (m !! key) eqn:Hm;
      [reflexivity | now rewrite lookup_insert_ne by congruence].
Qed.

(** the lists of an action after [_update_decision_effectiveness] *)
Lemma tracked_after self outcome key :
  let action := action_value (action_type (learning_module.decision outcome)) in
  let before :=
    default ∅ (decision_effectiveness (module self) !! action) in
  let after := decision_effectiveness
                 (module (_update_decision_effectiveness self outcome)) in
  (forall other, other <> action ->
     after !! other = decision_effectiveness (module self) !! other) /\
  exists tracked,
    after !! action = Some tracked /\
    tracked !! key =
      if String.eqb key "effectiveness" then
        Some (keep_last 100 (default [] (before !! "effectiveness")
                             ++ [overall (outcome_metrics outcome)]))
      else if String.eqb key "success_rate" then
        Some (keep_last 100 (default [] (before !! "success_rate")
                             ++ [if execution_success outcome then 1.0%Q else 0.0%Q]))
      else keep_last 100 <$> before !! key.
Proof.
  cbv zeta. unfold _update_decision_effectiveness. cbn [module with_module
    decision_effectiveness]. split.
  - intros other Hother. now rewrite lookup_insert_ne.
  - eexists. rewrite lookup_insert_eq. split; [reflexivity|].
    set (before := default ∅ (decision_effectiveness (module self) !! _)).
    rewrite lookup_fmap, ensure_append. unfold overall.
    destruct (String.eqb_spec key "effectiveness") as [->|He].
    + rewrite ensure_append. reflexivity.
    + rewrite ensure_append. destruct (String.eqb key "success_rate"); reflexivity.
Qed.

End learner_proofs.
